(* ===== verification/_CoqProject ===== *)
-Q . S2P
Prelude.v
F32.v
Nalgebra.v
Rotation.v
RustFormat.v
Ecs.v
ExampleSystem.v
Entities.v
SpecsSystem.v
CameraOrbit.v
SystemF32.v
GameStates.v
Dispatch.v
Application.v
Overlay.v
