(* ===== verification/Prelude.v ===== *)
(** * A verification development of amethyst's [transparent_texture] example

    The repository file [src/examples/transparent_texture/main.rs] is a demo
    application of the amethyst game engine.  Its parts and how they meet:

    - [main] (lines 121-154) finds the application root
      ([application_root_dir()?]), derives the asset directory and the
      display configuration's path, builds the render pipeline and the
      dispatcher with [GameDataBuilder] (each [with] registers a system under
      a name after the names it depends on, each [with_bundle(..)?] the
      systems of a bundle or its error), builds the [Application] with the
      initial state [Loading::default()] and runs it ([game.run()]);
    - the game states (lines 33-119): [Loading::on_start] starts the loads
      of the scene prefab and two UI prefabs, tracked by a [ProgressCounter];
      [Loading::update] quits on a failure, and once everything is loaded
      deletes the "loading" UI entity and switches to [Example] with the
      prefab handle ([unwrap]); [Example::on_start] spawns the scene and a
      transparent, textured plane;
    - [ExampleSystem] (lines 156-213), run by the dispatcher in every frame
      after the state's update: it advances [DemoState.camera_angle] by
      [0.1 * delta_seconds], left-multiplies the isometry of every camera's
      [Transform] by the rotation of that angle about z, finds the
      "fps_text" UI entity once and caches it, and on frames whose number is
      a multiple of 20 writes [format!("FPS: {:.*}", 2, fps)] into its
      [UiText].

    The files, in dependency order, and what they model:

    - [Prelude] (this file): the scope [amethyst_scope] with the notation
      [let? x := m in k], the hint databases [amethyst] and [amethyst_rw],
      the tactics [case_match_goal] and [inv]; unsigned [w]-bit integers
      ([umod], [wrap_succ]: the [u64] frame counter wraps modulo [2^64]);
      [Outcome], Rust's [Result] with a panic: [Done] is [Ok], [Failed] is
      [Err], [Panicked] a panic; [obind] is the [?] operator, [unwrap] is
      [Option::unwrap].
    - [F32]: the [f32] of the code as IEEE-754 binary32, the Standard
      Library's executable [SpecFloat] at precision 24 and maximal exponent
      128 (round to nearest, ties to even), with its exact rational value.
    - [Nalgebra]: nalgebra's [Vector3], [Quaternion],
      [UnitQuaternion::from_axis_angle], the Hamilton product, rotation of a
      vector, [Isometry3], rotation times isometry, and amethyst's
      [Transform] ([set_xyz], [set_scale], [set_isometry]), generic over a
      class [RealField] as nalgebra is generic over its scalar trait; [f32]'s
      [sin_cos] (libm) is the class [LibmSinCos], a parameter.  The laws
      (associativity, rotations about z compose by adding angles, the norm
      of a product is the product of the norms) are proved in a Section
      over a [ring_theory] hypothesis.
    - [Rotation]: the instance at the real numbers with exact [sin] and
      [cos], where [from_axis_angle z a] is the quaternion of half angle
      [a / 2] and rotations compose by adding angles.
    - [RustFormat]: [format!("{:.2}", x)] for an [f32] (exact decimal value
      rounded half to even, "-" for a negative sign, words for NaN and the
      infinities), the class [FixedDisplay], a parser of the output and the
      round trip between them.
    - [Ecs]: the specs [World] as far as the code touches it: live entities
      and an allocator, the storages as stdpp [gmap]/[gset] keyed by entity,
      the resources [Time], [FPSCounter], [DemoState]; [UiFinder::find] as
      the least matching live entity ([ui_find]) and as the join scan the
      engine runs ([ui_find_join]), proved equal on well-formed worlds;
      [create_entity], [delete_entity], the instantiation of a UI prefab
      ([attach_ui]); the well-formedness [world_wf], a decidable predicate.
    - [ExampleSystem]: [ExampleSystem::run] stage by stage ([advance_angle],
      [update_cameras], [resolve_fps_display], [refresh_fps_text]), an
      instance of the class [System]; [frame] adds the engine's per-frame
      update of [Time] and [FPSCounter], [frames] runs a list of frames;
      at [f32] the labels the code writes ("FPS: 62.35" for [62.345f32],
      "FPS: 0.12" for the tie [0.125]).
    - [Entities]: specs' generational entities: the [Allocator] with a
      generation per index and the cache of freed indices, [allocate],
      [kill], [Storage::get]'s generation check, and the refresh of the
      FPS text through [get_mut] ([refresh_fps_text_specs]).  [Ecs] names
      entities that are never reused; specs reuses indices (the scene entity
      takes the index of the deleted loading screen), and the simulation
      [sim] shows that the program's entity operations keep the two worlds
      in step.
    - [SpecsSystem]: [UiFinder::find] as specs' join over the storages in
      ascending index order ([specs_ui_find]), and the FPS cache of
      [ExampleSystem] holding a specs handle ([resolve_fps_display_specs]):
      the FPS part of [run] through specs' handles refines the model's.
    - [CameraOrbit]: [run] over the reals: every camera turns about z by a
      tenth of the elapsed time, its position with it, in lock step with
      [camera_angle]; every rotation stays a unit quaternion.
    - [SystemF32]: [run] at [f32]: the angle drifts from [0.1 * t], it
      stalls at [32768]; the schedule of the label refreshes.
    - [GameStates]: [ProgressCounter::complete], the loader as a handle
      allocator, [Loading], [Example], [Trans], [on_start] and [update] of
      both states, and amethyst's state machine as a step relation
      [app_step] over the updates and the loaders' reports; its invariant
      [app_inv], proved by rule induction on [reachable].
    - [Dispatch]: the render pipeline as data and shred's
      [DispatcherBuilder::add] ([builder_add]: [None] is its panic; the empty
      name is never registered) with the table [main] registers and the
      order [runs_before] its dependencies impose.
    - [Application]: [main] in the [Outcome] monad ([main_setup] up to the
      built application, then the game loop), the builder chain with
      per-bundle errors ([main_game_data]), [Path::join], and
      [Application::run] as [game_run] over a list of frames: each frame
      ([game_frame]) delivers the loaders' reports and instantiated UI
      prefabs, updates the state on top, runs the dispatcher's
      [ExampleSystem] frame on the world and applies the transition.
    - [Overlay]: the composition seen from the FPS entity: what the text on
      screen is after any frames of the running application.

    What the theorems show, by group: the behaviour of [run] on every branch,
    the one-way cache of the FPS entity and the refresh schedule of the
    label over the [u64] counter, the exact [f32] labels, the join scan
    of [UiFinder::find] against its specification ([ExampleSystem]); the camera orbit as a
    refinement of the per-frame updates to one rotation by the accumulated
    angle, with the unit-quaternion invariant ([CameraOrbit]); the [f32]
    accumulator against its exact value ([SystemF32]);
    the safety of the [unwrap] and the well-formedness of every reachable
    world ([GameStates]); that specs' generational entities and storages
    refine the model's, so a cached handle of a dead entity reads nothing
    ([Entities]), and that the system's FPS cache and label write through
    specs' finder and handles are the model's ([SpecsSystem]); the
    dispatcher's table and order, and that
    any table the builder accepts has an acyclic order ([Dispatch]);
    that [main] never panics, when it returns which [Err], where it reads
    its files, that a failed load ends the loop and that three successful
    loads reach [Example] ([Application]); and that the application shows
    exactly the label [ExampleSystem] computes, an FPS label within any 20
    frames ([Overlay]).

    No definition uses fuel: [frames], [game_run] and [label_after] recur
    on the list of frames, [join_find] on the number of indices to scan, and
    the loop's runs are finite prefixes given as lists ([RunPending] when the
    list ends first).  The frame counter is a [Z] kept in [0, 2^64) by
    [wrap_succ 64]; since [2^64 mod 20 = 16], the refresh comes 20 frames
    after the previous one except across the wrap, and always within 20
    frames.  The [f32] examples instantiate [LibmSinCos] with a small-angle
    stand-in; no theorem depends on its values.

    Engine code outside the repository is modelled from its documented
    behaviour as far as [main.rs] calls it (specs, shred, nalgebra,
    amethyst's state machine, loaders and application loop); the order of
    the engine's systems inside one dispatch is fixed as: loaders' effects at
    the frame's start, then the state's update, then [ExampleSystem].  Not
    modelled: the renderer, the decoding of prefab, mesh and texture files,
    the UI layout, the input and hot-reload bundles (they only appear through
    the values they hand to the code: reports, UI components, the FPS
    sample), the logger, the contents of the display configuration, window
    events, the [println!] output of [Loading::update], specs' atomic
    entity allocation and its [u32] index bound, and a deletion through a
    dead handle (the program deletes only what [UiFinder::find] returns,
    which is alive). *)

From Stdlib Require Import ZArith List Lia String.
Import ListNotations.

Declare Scope amethyst_scope.
Delimit Scope amethyst_scope with am.

Create HintDb amethyst discriminated.
Create Rewrite HintDb amethyst_rw.

(** ** Unsigned machine integers *)

(** The modulus of an unsigned [w]-bit integer. *)
Definition umod (w : Z) : Z := 2 ^ w.

(** A value of Rust's [u64]. *)
Definition u64_ok (n : Z) : Prop := (0 <= n < umod 64)%Z.

Notation "'u64'" := (umod 64) (at level 0) : amethyst_scope.

(** Wrapping increment of a [w]-bit counter. *)
Definition wrap_succ (w n : Z) : Z := ((n + 1) mod umod w)%Z.

(** ** Tactics *)

(** Destruct the scrutinee of the first [match] or [if] of the goal, keeping
    an equation. *)
Ltac case_match_goal :=
  match goal with
  | |- context [match ?x with _ => _ end] => let E := fresh "E" in destruct x eqn:E
  end.

Ltac inv H := inversion H; subst; clear H.

(** ** Generic lemmas *)

Lemma umod_pos (w : Z) : (0 <= w)%Z -> (0 < umod w)%Z.
Proof. intros; unfold umod; apply Z.pow_pos_nonneg; lia. Qed.

Lemma wrap_succ_small (w n : Z) :
  (0 <= w)%Z -> (0 <= n)%Z -> (n + 1 < umod w)%Z -> wrap_succ w n = (n + 1)%Z.
Proof. intros Hw Hn Hlt; unfold wrap_succ; apply Z.mod_small; lia. Qed.

Lemma wrap_succ_bound (w n : Z) :
  (0 <= w)%Z -> (0 <= wrap_succ w n < umod w)%Z.
Proof. intros Hw; unfold wrap_succ; apply Z.mod_pos_bound, umod_pos; lia. Qed.

Lemma option_map_Some {A B} (f : A -> B) (o : option A) (b : B) :
  option_map f o = Some b -> exists a, o = Some a /\ b = f a.
Proof. destruct o; simpl; intros H; [inv H; eauto | discriminate]. Qed.

Lemma mod_add_mult_self (a b : Z) : (0 < b)%Z -> ((a + b) mod b = a mod b)%Z.
Proof.
  intros Hb. rewrite <- (Z.mul_1_l b) at 1. rewrite Z.mod_add; lia.
Qed.

#[export] Hint Resolve umod_pos wrap_succ_bound : amethyst.
#[export] Hint Rewrite mod_add_mult_self using lia : amethyst_rw.

Lemma iter_wrap_succ (w : Z) (k : nat) (n : Z) :
  (0 <= w)%Z -> (0 <= n < umod w)%Z ->
  Nat.iter k (wrap_succ w) n = ((n + Z.of_nat k) mod umod w)%Z.
Proof.
  intros Hw Hn. induction k as [|k IH]; simpl.
  - rewrite Z.add_0_r, Z.mod_small; lia.
  - rewrite IH. unfold wrap_succ. rewrite Zplus_mod_idemp_l. f_equal. lia.
Qed.

(** A multiple of [m] strictly between [-m] and [m] is zero. *)
Lemma mod_zero_small (x m : Z) : (0 < m)%Z -> (- m < x < m)%Z -> (x mod m = 0)%Z -> x = 0%Z.
Proof.
  intros Hm Hx H. destruct (Z.le_gt_cases 0 x).
  - rewrite Z.mod_small in H by lia. exact H.
  - rewrite <- (Z.mod_unique x m (-1) (x + m)) in H by lia. lia.
Qed.

(** ** Rust's [Result] with a panic *)

(** The outcome of Rust code that returns a [Result] and may panic: [Done]
    is [Ok], [Failed] is [Err] with the error's message, [Panicked] is a
    panic ([unwrap] of [None], an [add] of shred's dispatcher builder that
    names an unknown dependency). *)
Inductive Outcome (A : Type) := Done (a : A) | Failed (e : string) | Panicked.
Arguments Done {A} a.
Arguments Failed {A} e.
Arguments Panicked {A}.

(** The [?] operator: an [Err] or a panic stops the computation. *)
Definition obind {A B} (m : Outcome A) (k : A -> Outcome B) : Outcome B :=
  match m with
  | Done a => k a
  | Failed e => Failed e
  | Panicked => Panicked
  end.

Notation "'let?' x ':=' m 'in' k" := (obind m (fun x => k))
  (at level 10, x name, m at level 100, k at level 200) : amethyst_scope.

(** A [Result<T, E>] value given by the environment. *)
Definition of_result {A} (r : A + string) : Outcome A :=
  match r with inl a => Done a | inr e => Failed e end.

(** [option::unwrap]: [None] panics. *)
Definition unwrap {A} (o : option A) : Outcome A :=
  match o with Some a => Done a | None => Panicked end.

Lemma obind_Done {A B} (a : A) (k : A -> Outcome B) : obind (Done a) k = k a.
Proof. reflexivity. Qed.

Lemma obind_Failed {A B} (e : string) (k : A -> Outcome B) : obind (Failed e) k = Failed e.
Proof. reflexivity. Qed.

Lemma obind_Panicked_inv {A B} (m : Outcome A) (k : A -> Outcome B) :
  obind m k = Panicked -> m = Panicked \/ exists a, m = Done a /\ k a = Panicked.
Proof. destruct m; simpl; eauto; discriminate. Qed.

Lemma of_result_not_Panicked {A} (r : A + string) : of_result r <> Panicked.
Proof. destruct r; discriminate. Qed.

#[export] Hint Rewrite @obind_Done @obind_Failed : amethyst_rw.
#[export] Hint Resolve of_result_not_Panicked : amethyst.
