(* ===== verification/F32.v ===== *)
(** * [f32]: IEEE-754 binary32 as the Standard Library's [SpecFloat]

    Every [f32] value of [main.rs] ([DemoState.camera_angle], the
    [delta_seconds] of [Time], the sampled FPS) is a binary32 float.  The
    Standard Library's [SpecFloat] is an executable specification of IEEE-754
    binary arithmetic with rounding to nearest, ties to even, parameterised by
    the precision and the maximal exponent; binary32 is precision 24 and
    maximal exponent 128.  A Rust literal such as [0.1] denotes the binary32
    float nearest to the decimal, which is the correctly rounded quotient of
    two exactly representable integers. *)

From Stdlib Require Import ZArith QArith Lia SpecFloat.
From stdpp Require Import base decidable.
From S2P Require Import Prelude.

#[local] Open Scope Z_scope.

(** ** The type and its operations *)

Definition prec32 : Z := 24.
Definition emax32 : Z := 128.

Definition f32 : Type := spec_float.

#[export] Instance f32_eq_dec : EqDecision f32.
Proof.
  intros x y; unfold Decision, f32.
  decide equality; first [apply Z.eq_dec | apply Pos.eq_dec | apply Bool.bool_dec].
Defined.

(** A well-formed binary32 value: canonical mantissa, exponent in range. *)
Definition f32_valid (x : f32) : bool := valid_binary prec32 emax32 x.

Definition f32_add : f32 -> f32 -> f32 := SFadd prec32 emax32.
Definition f32_sub : f32 -> f32 -> f32 := SFsub prec32 emax32.
Definition f32_mul : f32 -> f32 -> f32 := SFmul prec32 emax32.
Definition f32_div : f32 -> f32 -> f32 := SFdiv prec32 emax32.
Definition f32_neg : f32 -> f32 := SFopp.

Definition f32_zero : f32 := S754_zero false.

(** The binary32 float nearest to an integer. *)
Definition f32_of_Z (z : Z) : f32 := binary_normalize prec32 emax32 z 0 false.

(** The binary32 float nearest to the rational [n/d]: how rustc reads a
    decimal literal such as [0.1] or [62.345] whose numerator and
    denominator are exact in binary32. *)
Definition f32_of_Q (q : Q) : f32 :=
  f32_div (f32_of_Z (Qnum q)) (f32_of_Z (Zpos (Qden q))).

(** The exact value of a finite float, as a rational; [None] for the
    infinities and NaN. *)
Definition f32_toQ (x : f32) : option Q :=
  match x with
  | S754_zero _ => Some 0%Q
  | S754_finite s m e =>
      let n := cond_Zopp s (Zpos m) in
      match e with
      | Zneg p => Some (Qmake n (Pos.pow 2 p))
      | _ => Some (inject_Z (n * 2 ^ e))
      end
  | _ => None
  end.

Definition f32_is_finite (x : f32) : bool :=
  match x with S754_zero _ | S754_finite _ _ _ => true | _ => false end.

Definition f32_is_nan (x : f32) : bool :=
  match x with S754_nan => true | _ => false end.

(** ** Lemmas *)

Lemma f32_toQ_finite (x : f32) : f32_is_finite x = true -> exists q, f32_toQ x = Some q.
Proof. destruct x as [| | |s m [|e|e]]; simpl; try discriminate; eauto. Qed.

Lemma f32_toQ_None (x : f32) : f32_toQ x = None <-> f32_is_finite x = false.
Proof. destruct x as [| | |s m [|e|e]]; simpl; split; congruence. Qed.

(** Adding positive zero leaves every value but negative zero unchanged:
    [a + 0.1 * 0.0] is [a] for the angle accumulator. *)
Lemma f32_add_zero_r (x : f32) : x <> S754_zero true -> f32_add x f32_zero = x.
Proof. destruct x as [[|]|[|]| |]; simpl; congruence. Qed.

(** A product with positive zero is a zero (or NaN for an infinite or NaN
    factor). *)
Lemma f32_mul_zero_r (x : f32) :
  f32_is_finite x = true -> exists s, f32_mul x f32_zero = S754_zero s.
Proof. destruct x as [s| | |s m e]; simpl; try discriminate; eauto. Qed.

#[export] Hint Resolve f32_toQ_finite : amethyst.
