(* ===== verification/Nalgebra.v ===== *)
(** * The nalgebra and amethyst_core geometry the system calls

    [ExampleSystem::run] builds [UnitQuaternion::from_axis_angle(&Vector3::z_axis(), a)]
    and replaces a camera's isometry by [delta_rot * transform.isometry()].
    This file models those nalgebra operations and amethyst's [Transform]
    (an [Isometry3] and a scale vector), generic over a scalar type with the
    operations of nalgebra's [Real] trait, exactly as the library is generic
    over [N: Real]; the code instantiates it at [f32].  The class [RealField]
    carries the operations and [RealFieldLaws] the commutative-ring laws under
    which the algebraic theorems below hold (they hold at the real numbers,
    see [Rotation]; binary32 only approximates them). *)

From Stdlib Require Import ZArith QArith Ring Setoid.
From S2P Require Import Prelude F32.

(** ** nalgebra's [Real] trait *)

Class RealField (N : Type) := {
  rzero : N;
  rone : N;
  radd : N -> N -> N;
  rsub : N -> N -> N;
  rmul : N -> N -> N;
  rneg : N -> N;
  rdiv : N -> N -> N;
  (** [Real::sin_cos], returning [(sin, cos)] *)
  rsin_cos : N -> N * N;
  (** [::convert] of an [f64] constant, and the typing of a literal *)
  rconvert : Q -> N
}.

Class RealFieldLaws (N : Type) `{RealField N} := {
  real_ring : ring_theory rzero rone radd rmul rsub rneg (@eq N);
  real_two : rconvert (2 # 1) = radd rone rone
}.

(** The code's scalar: [f32].  [f32::sin_cos] calls the platform's libm,
    whose results IEEE-754 does not fix, so it is a parameter of the
    instance. *)
Class LibmSinCos := libm_sin_cos : f32 -> f32 * f32.

(** A first-order stand-in for [sin_cos] ([sin x = x], [cos x = 1]), to
    run the [f32] model on examples. *)
Definition libm_small_angle : LibmSinCos := fun x => (x, f32_of_Z 1).

#[export] Instance f32_real `{LibmSinCos} : RealField f32 := {|
  rzero := f32_zero;
  rone := f32_of_Z 1;
  radd := f32_add;
  rsub := f32_sub;
  rmul := f32_mul;
  rneg := f32_neg;
  rdiv := f32_div;
  rsin_cos := libm_sin_cos;
  rconvert := f32_of_Q
|}.

Section Geometry.
Context {N : Type} `{RealField N}.

(** ** [Vector3], [Quaternion], [UnitQuaternion], [Isometry3], [Transform] *)

Record Vector3 := vec3 { vx : N; vy : N; vz : N }.

(** [Quaternion] stores its coordinates as [[i, j, k, w]]. *)
Record Quaternion := mk_quat { qi : N; qj : N; qk : N; qw : N }.

(** [Quaternion::new(w, i, j, k)] *)
Definition quat_new (w i j k : N) : Quaternion := mk_quat i j k w.

(** [Quaternion::from_parts(scalar, vector)] *)
Definition quat_from_parts (w : N) (v : Vector3) : Quaternion :=
  mk_quat (vx v) (vy v) (vz v) w.

(** [Quaternion::vector()] *)
Definition quat_vector (q : Quaternion) : Vector3 := vec3 (qi q) (qj q) (qk q).

(** [Unit<Quaternion>]: a quaternion the library treats as normalised. *)
Record UnitQuaternion := new_unchecked { quaternion : Quaternion }.

(** [Translation3] wraps its [vector]; [Isometry3] is a translation and a
    rotation. *)
Record Isometry3 := mk_iso { translation : Vector3; rotation : UnitQuaternion }.

(** amethyst_core's [Transform { iso, scale }]. *)
Record Transform := mk_transform { iso : Isometry3; scale : Vector3 }.

(** ** Vector arithmetic *)

(** [Vector3::new(x, y, z)] *)
Definition vector3_new (x y z : N) : Vector3 := vec3 x y z.

(** [Vector3::z_axis()] *)
Definition z_axis : Vector3 := vec3 rzero rzero rone.

(** [a + b], componentwise *)
Definition vec_add (a b : Vector3) : Vector3 :=
  vec3 (radd (vx a) (vx b)) (radd (vy a) (vy b)) (radd (vz a) (vz b)).

(** [v * s] *)
Definition vec_scale (v : Vector3) (s : N) : Vector3 :=
  vec3 (rmul (vx v) s) (rmul (vy v) s) (rmul (vz v) s).

(** [a.cross(b)] *)
Definition cross (a b : Vector3) : Vector3 :=
  vec3 (rsub (rmul (vy a) (vz b)) (rmul (vz a) (vy b)))
       (rsub (rmul (vz a) (vx b)) (rmul (vx a) (vz b)))
       (rsub (rmul (vx a) (vy b)) (rmul (vy a) (vx b))).

(** ** Quaternion operations *)

(** [Quaternion * Quaternion] (the Hamilton product, in nalgebra's order of
    the terms). *)
Definition quat_mul (a b : Quaternion) : Quaternion :=
  quat_new
    (rsub (rsub (rsub (rmul (qw a) (qw b)) (rmul (qi a) (qi b))) (rmul (qj a) (qj b))) (rmul (qk a) (qk b)))
    (rsub (radd (radd (rmul (qw a) (qi b)) (rmul (qi a) (qw b))) (rmul (qj a) (qk b))) (rmul (qk a) (qj b)))
    (radd (radd (rsub (rmul (qw a) (qj b)) (rmul (qi a) (qk b))) (rmul (qj a) (qw b))) (rmul (qk a) (qi b)))
    (radd (rsub (radd (rmul (qw a) (qk b)) (rmul (qi a) (qj b))) (rmul (qj a) (qi b))) (rmul (qk a) (qw b))).

(** [UnitQuaternion * UnitQuaternion] *)
Definition unit_mul (a b : UnitQuaternion) : UnitQuaternion :=
  new_unchecked (quat_mul (quaternion a) (quaternion b)).

(** [UnitQuaternion::identity()] *)
Definition unit_identity : UnitQuaternion := new_unchecked (quat_new rone rzero rzero rzero).

(** [UnitQuaternion::from_axis_angle(axis, angle)]:
    [let (sang, cang) = (angle / 2).sin_cos();
     Unit::new_unchecked(Quaternion::from_parts(cang, axis * sang))] *)
Definition from_axis_angle (axis : Vector3) (angle : N) : UnitQuaternion :=
  let '(sang, cang) := rsin_cos (rdiv angle (rconvert (2 # 1))) in
  new_unchecked (quat_from_parts cang (vec_scale axis sang)).

(** [UnitQuaternion * Vector3]:
    [let t = q.vector().cross(v) * 2; let cross = q.vector().cross(&t);
     t * q.scalar() + cross + v] *)
Definition rotate_vec (q : UnitQuaternion) (v : Vector3) : Vector3 :=
  let qq := quaternion q in
  let t := vec_scale (cross (quat_vector qq) v) (rconvert (2 # 1)) in
  let c := cross (quat_vector qq) t in
  vec_add (vec_add (vec_scale t (qw qq)) c) v.

(** ** Isometries and transforms *)

(** [Isometry3::identity()] *)
Definition iso_identity : Isometry3 := mk_iso (vec3 rzero rzero rzero) unit_identity.

(** [UnitQuaternion * Isometry3] (nalgebra's "Rotation x Isometry"):
    [Isometry::from_parts(Translation::from(r * iso.translation.vector), r * iso.rotation)] *)
Definition rot_mul_iso (r : UnitQuaternion) (i : Isometry3) : Isometry3 :=
  mk_iso (rotate_vec r (translation i)) (unit_mul r (rotation i)).

(** [Transform::default()]: the identity isometry and a unit scale. *)
Definition transform_default : Transform :=
  mk_transform iso_identity (vec3 rone rone rone).

(** [Transform::set_xyz(x, y, z)]: sets the translation vector. *)
Definition set_xyz (t : Transform) (x y z : N) : Transform :=
  mk_transform (mk_iso (vector3_new x y z) (rotation (iso t))) (scale t).

(** [Transform::set_scale(x, y, z)] *)
Definition set_scale (t : Transform) (x y z : N) : Transform :=
  mk_transform (iso t) (vector3_new x y z).

(** [*transform.isometry_mut() = i] *)
Definition set_isometry (t : Transform) (i : Isometry3) : Transform :=
  mk_transform i (scale t).

(** ** Quantities used by the theorems *)

(** The rotation quaternion about z with cosine [c] and sine [s] of the half
    angle. *)
Definition zquat (c s : N) : UnitQuaternion := new_unchecked (mk_quat rzero rzero s c).

Definition sq (x : N) : N := rmul x x.

Definition quat_norm2 (q : Quaternion) : N :=
  radd (radd (radd (sq (qi q)) (sq (qj q))) (sq (qk q))) (sq (qw q)).

(** The squared distance of a point to the z axis. *)
Definition planar_norm2 (v : Vector3) : N := radd (sq (vx v)) (sq (vy v)).

End Geometry.

Arguments Vector3 N : clear implicits.
Arguments Quaternion N : clear implicits.
Arguments UnitQuaternion N : clear implicits.
Arguments Isometry3 N : clear implicits.
Arguments Transform N : clear implicits.

(** ** Algebraic laws *)

Section GeometryLaws.
Context {N : Type} `{RealFieldLaws N}.
Add Ring real_ring_inst : real_ring.

Local Abbreviation two := (rconvert (2 # 1)).

(** Cosine and sine of the full angle, from those of the half angle. *)
Definition zrot_cos (c s : N) : N := rsub (sq c) (sq s).
Definition zrot_sin (c s : N) : N := rmul two (rmul c s).

(** The planar rotation with cosine [co] and sine [si] about the z axis. *)
Definition planar_rotate (co si : N) (v : Vector3 N) : Vector3 N :=
  vec3 (rsub (rmul co (vx v)) (rmul si (vy v))) (radd (rmul si (vx v)) (rmul co (vy v))) (vz v).

(** Split an equation of records of scalars into its components. *)
Ltac split_records :=
  repeat match goal with
  | |- new_unchecked _ = new_unchecked _ => f_equal
  | |- mk_quat _ _ _ _ = mk_quat _ _ _ _ => f_equal
  | |- vec3 _ _ _ = vec3 _ _ _ => f_equal
  | |- mk_iso _ _ = mk_iso _ _ => f_equal
  end.

Ltac vec_ring := rewrite ?real_two; unfold sq; split_records; ring.

(** A polynomial identity modulo [c^2 + s^2 = 1]. *)
Lemma eq_mod_unit (a b r c s : N) :
  radd (sq c) (sq s) = rone -> a = radd b (rmul (rsub (radd (sq c) (sq s)) rone) r) -> a = b.
Proof. intros Hu E. rewrite Hu in E. rewrite E. ring. Qed.

Lemma quat_mul_assoc (a b c : Quaternion N) :
  quat_mul a (quat_mul b c) = quat_mul (quat_mul a b) c.
Proof. destruct a, b, c; unfold quat_mul, quat_new; simpl; vec_ring. Qed.

Lemma unit_mul_assoc (a b c : UnitQuaternion N) :
  unit_mul a (unit_mul b c) = unit_mul (unit_mul a b) c.
Proof. unfold unit_mul; simpl; now rewrite quat_mul_assoc. Qed.

Lemma unit_mul_identity_l (a : UnitQuaternion N) : unit_mul unit_identity a = a.
Proof. destruct a as [[]]; unfold unit_mul, quat_mul, quat_new; simpl; vec_ring. Qed.

Lemma unit_mul_identity_r (a : UnitQuaternion N) : unit_mul a unit_identity = a.
Proof. destruct a as [[]]; unfold unit_mul, quat_mul, quat_new; simpl; vec_ring. Qed.

(** [from_axis_angle] about the z axis is the z quaternion of the half
    angle's cosine and sine. *)
Lemma from_axis_angle_z (a : N) :
  from_axis_angle z_axis a =
  zquat (snd (rsin_cos (rdiv a two))) (fst (rsin_cos (rdiv a two))).
Proof.
  unfold from_axis_angle, zquat. destruct (rsin_cos (rdiv a two)) as [s c]; simpl.
  unfold quat_from_parts; simpl; vec_ring.
Qed.

(** The product of two z quaternions is a z quaternion: the half angles
    add. *)
Lemma zquat_mul (c1 s1 c2 s2 : N) :
  unit_mul (zquat c1 s1) (zquat c2 s2) =
  zquat (rsub (rmul c1 c2) (rmul s1 s2)) (radd (rmul c1 s2) (rmul s1 c2)).
Proof. unfold unit_mul, zquat, quat_mul, quat_new; simpl; vec_ring. Qed.

Lemma zquat_norm (c s : N) : quat_norm2 (quaternion (zquat c s)) = radd (sq c) (sq s).
Proof. unfold quat_norm2; simpl; unfold sq; ring. Qed.

(** The squared norm of a product is the product of the squared norms
    (Euler's four-square identity): products of unit quaternions are unit
    quaternions. *)
Lemma quat_norm2_mul (p q : Quaternion N) :
  quat_norm2 (quat_mul p q) = rmul (quat_norm2 p) (quat_norm2 q).
Proof. destruct p, q; unfold quat_norm2, quat_mul, quat_new, sq; simpl; ring. Qed.

(** A unit z quaternion rotates a vector in the plane by the full angle and
    keeps its height. *)
Lemma rotate_zquat (c s : N) (v : Vector3 N) :
  radd (sq c) (sq s) = rone ->
  rotate_vec (zquat c s) v = planar_rotate (zrot_cos c s) (zrot_sin c s) v.
Proof.
  intros Hu. destruct v as [x y z].
  unfold rotate_vec, planar_rotate, zrot_cos, zrot_sin, zquat, vec_add, vec_scale, cross; simpl.
  split_records.
  - apply (eq_mod_unit _ _ (rneg x) c s Hu). rewrite ?real_two; unfold sq; ring.
  - apply (eq_mod_unit _ _ (rneg y) c s Hu). rewrite ?real_two; unfold sq; ring.
  - ring.
Qed.

Lemma planar_rotate_compose (co1 si1 co2 si2 : N) (v : Vector3 N) :
  planar_rotate co1 si1 (planar_rotate co2 si2 v) =
  planar_rotate (rsub (rmul co1 co2) (rmul si1 si2)) (radd (rmul si1 co2) (rmul co1 si2)) v.
Proof. destruct v; unfold planar_rotate; simpl; vec_ring. Qed.

(** Half-angle products give the cosine and sine of the sum. *)
Lemma zrot_mul (c1 s1 c2 s2 : N) :
  zrot_cos (rsub (rmul c1 c2) (rmul s1 s2)) (radd (rmul c1 s2) (rmul s1 c2)) =
    rsub (rmul (zrot_cos c1 s1) (zrot_cos c2 s2)) (rmul (zrot_sin c1 s1) (zrot_sin c2 s2)) /\
  zrot_sin (rsub (rmul c1 c2) (rmul s1 s2)) (radd (rmul c1 s2) (rmul s1 c2)) =
    radd (rmul (zrot_sin c1 s1) (zrot_cos c2 s2)) (rmul (zrot_cos c1 s1) (zrot_sin c2 s2)).
Proof. unfold zrot_cos, zrot_sin, sq; rewrite ?real_two; split; ring. Qed.

Lemma zquat_mul_unit (c1 s1 c2 s2 : N) :
  radd (sq c1) (sq s1) = rone -> radd (sq c2) (sq s2) = rone ->
  radd (sq (rsub (rmul c1 c2) (rmul s1 s2))) (sq (radd (rmul c1 s2) (rmul s1 c2))) = rone.
Proof.
  intros H1 H2.
  transitivity (rmul (radd (sq c1) (sq s1)) (radd (sq c2) (sq s2))); [unfold sq; ring|].
  rewrite H1, H2; ring.
Qed.

(** A rotation about z keeps the distance to the z axis. *)
Lemma planar_rotate_norm (c s : N) (v : Vector3 N) :
  radd (sq c) (sq s) = rone ->
  planar_norm2 (planar_rotate (zrot_cos c s) (zrot_sin c s) v) = planar_norm2 v.
Proof.
  intros Hu. unfold planar_norm2, planar_rotate, zrot_cos, zrot_sin; simpl.
  transitivity (rmul (radd (sq (vx v)) (sq (vy v))) (sq (radd (sq c) (sq s)))).
  - rewrite ?real_two; unfold sq; ring.
  - rewrite Hu; unfold sq; ring.
Qed.

(** Two rotations about z applied to an isometry, one after the other, are
    the rotation by their product: the per-frame updates of a camera
    compose. *)
Lemma rot_mul_iso_zquat_compose (c1 s1 c2 s2 : N) (i : Isometry3 N) :
  radd (sq c1) (sq s1) = rone -> radd (sq c2) (sq s2) = rone ->
  rot_mul_iso (zquat c1 s1) (rot_mul_iso (zquat c2 s2) i) =
  rot_mul_iso (unit_mul (zquat c1 s1) (zquat c2 s2)) i.
Proof.
  intros H1 H2. unfold rot_mul_iso; simpl. f_equal; [|apply unit_mul_assoc].
  rewrite zquat_mul, !rotate_zquat by auto using zquat_mul_unit.
  rewrite planar_rotate_compose. destruct (zrot_mul c1 s1 c2 s2) as [-> ->].
  f_equal; ring.
Qed.

End GeometryLaws.

#[export] Hint Rewrite @zquat_mul @unit_mul_assoc : amethyst_rw.
