(* ===== verification/Rotation.v ===== *)
(** * The camera rotation over the real numbers

    The instance of nalgebra's scalar class at [R], with the exact [sin] and
    [cos]: the semantics the f32 code approximates.  Here the per-frame
    quaternion [from_axis_angle(z_axis, a)] is the rotation by [a] about the
    z axis, and rotations compose by adding their angles. *)

From Stdlib Require Import ZArith QArith Reals Qreals Lra.
From S2P Require Import Prelude Nalgebra.

#[local] Open Scope R_scope.

#[export] Instance R_real : RealField R := {|
  rzero := 0;
  rone := 1;
  radd := Rplus;
  rsub := Rminus;
  rmul := Rmult;
  rneg := Ropp;
  rdiv := Rdiv;
  rsin_cos := fun a => (sin a, cos a);
  rconvert := Q2R
|}.

Lemma Q2R_two : Q2R (2 # 1) = 2.
Proof. unfold Q2R; simpl; lra. Qed.

#[export] Instance R_real_laws : RealFieldLaws R.
Proof. split; [exact RTheory | simpl; rewrite Q2R_two; ring]. Qed.

(** The z quaternion of angle [a]. *)
Definition zquat_R (a : R) : UnitQuaternion R := zquat (cos (a / 2)) (sin (a / 2)).

Lemma half_unit (a : R) : radd (sq (cos (a / 2))) (sq (sin (a / 2))) = rone.
Proof. simpl; unfold sq; simpl. rewrite Rplus_comm. apply sin2_cos2. Qed.

Lemma from_axis_angle_R (a : R) : from_axis_angle z_axis a = zquat_R a.
Proof. rewrite from_axis_angle_z; simpl; now rewrite Q2R_two. Qed.

Lemma zrot_half (a : R) :
  zrot_cos (cos (a / 2)) (sin (a / 2)) = cos a /\ zrot_sin (cos (a / 2)) (sin (a / 2)) = sin a.
Proof.
  unfold zrot_cos, zrot_sin, sq; simpl. rewrite Q2R_two.
  pose proof (cos_2a (a / 2)) as Hc. pose proof (sin_2a (a / 2)) as Hs.
  replace (2 * (a / 2)) with a in Hc, Hs by field.
  rewrite Hc, Hs. split; ring.
Qed.

Lemma zquat_R_mul (a b : R) : unit_mul (zquat_R a) (zquat_R b) = zquat_R (a + b).
Proof.
  unfold zquat_R. rewrite zquat_mul. replace ((a + b) / 2) with (a / 2 + b / 2) by field.
  rewrite cos_plus, sin_plus. unfold zquat; cbn. f_equal. f_equal; ring.
Qed.

Lemma rotate_zquat_R (a : R) (v : Vector3 R) :
  rotate_vec (zquat_R a) v = planar_rotate (cos a) (sin a) v.
Proof.
  unfold zquat_R. rewrite rotate_zquat by apply half_unit.
  now destruct (zrot_half a) as [-> ->].
Qed.
