(* ===== verification/RustFormat.v ===== *)
(** * Rust's fixed-precision formatting of an [f32]

    [ExampleSystem::run] writes [format!("FPS: {:.*}", 2, fps)]: the
    [Display] implementation of [f32] with a precision of 2.  Rust's
    [core::fmt::float] formats a finite float in exact mode: it takes the
    exact binary value of the float, scales it by [10^precision], rounds the
    result to an integer (half to even since Rust 1.67; before, half up) and
    prints the integer part, a dot and exactly [precision] fraction digits.
    NaN prints as ["NaN"] and the infinities as ["inf"] and ["-inf"]; a
    negative value, negative zero included, gets a ["-"] (Rust 1.53 on).

    The file defines that printer, a parser of its output, and proves the
    round trip and the rounding bound. *)

From Stdlib Require Import ZArith Lia String Ascii DecimalString DecimalN DecimalPos SpecFloat.
From S2P Require Import Prelude F32.

#[local] Open Scope Z_scope.

(** ** Rounding *)

(** [n / d] rounded to the nearest integer, ties to even ([d > 0]). *)
Definition round_half_even (n d : Z) : Z :=
  let q := n / d in
  match Z.compare (2 * (n mod d)) d with
  | Lt => q
  | Gt => q + 1
  | Eq => if Z.even q then q else q + 1
  end.

(** [|m * 2^e| * 10^p], rounded to an integer: the digits Rust prints. *)
Definition scaled_fixed (p : nat) (m : positive) (e : Z) : Z :=
  let num := Zpos m * 10 ^ Z.of_nat p in
  if 0 <=? e then num * 2 ^ e else round_half_even num (2 ^ (- e)).

(** ** Printing *)

Definition digit_char (d : Z) : ascii := ascii_of_nat (48 + Z.to_nat d).

(** The [p] last decimal digits of [n], most significant first. *)
Fixpoint frac_digits (p : nat) (n : Z) : string :=
  match p with
  | O => EmptyString
  | S p' => String (digit_char ((n / 10 ^ Z.of_nat p') mod 10)) (frac_digits p' n)
  end.

(** The decimal digits of [n >= 0], without leading zeros. *)
Definition int_digits (n : Z) : string := NilZero.string_of_uint (N.to_uint (Z.to_N n)).

(** The integer [n] read as [n / 10^p] with [p] fraction digits. *)
Definition fixed_string (p : nat) (n : Z) : string :=
  match p with
  | O => int_digits n
  | S _ => append (int_digits (n / 10 ^ Z.of_nat p)) (String "." (frac_digits p n))
  end.

Definition sign_str (s : bool) : string := if s then String "-" EmptyString else EmptyString.

(** [format!("{:.p}", x)] for [x : f32]. *)
Definition fmt_f32_fixed (p : nat) (x : f32) : string :=
  match x with
  | S754_nan => "NaN"%string
  | S754_infinity s => append (sign_str s) "inf"
  | S754_zero s => append (sign_str s) (fixed_string p 0)
  | S754_finite s m e => append (sign_str s) (fixed_string p (scaled_fixed p m e))
  end.

(** [Display] with a precision, for the scalar types the system is
    instantiated at. *)
Class FixedDisplay (K : Type) := fmt_fixed : nat -> K -> string.

#[export] Instance f32_fixed_display : FixedDisplay f32 := fmt_f32_fixed.

(** ** Parsing *)

Definition char_digit (c : ascii) : option Z :=
  let k := Z.of_nat (nat_of_ascii c) - 48 in
  if andb (0 <=? k) (k <? 10) then Some k else None.

(** Exactly [p] decimal digits. *)
Fixpoint parse_frac (p : nat) (s : string) : option Z :=
  match p, s with
  | O, EmptyString => Some 0
  | S p', String c s' =>
      match char_digit c, parse_frac p' s' with
      | Some d, Some r => Some (d * 10 ^ Z.of_nat p' + r)
      | _, _ => None
      end
  | _, _ => None
  end.

Definition parse_uint (s : string) : option Z :=
  option_map (fun d => Z.of_N (N.of_uint d)) (NilZero.uint_of_string s).

(** Split at the first dot. *)
Fixpoint split_dot (s : string) : string * option string :=
  match s with
  | EmptyString => (EmptyString, None)
  | String c s' =>
      if Ascii.eqb c "."%char then (EmptyString, Some s')
      else let '(a, b) := split_dot s' in (String c a, b)
  end.

(** The optional leading minus sign. *)
Definition strip_sign (s : string) : bool * string :=
  match s with
  | String c r => if Ascii.eqb c "-"%char then (true, r) else (false, s)
  | EmptyString => (false, s)
  end.

(** Reads back the scaled integer of a [fixed_string]. *)
Definition parse_unsigned (p : nat) (s : string) : option Z :=
  match p with
  | O => parse_uint s
  | S _ =>
      match split_dot s with
      | (ip, Some fp) =>
          match parse_uint ip, parse_frac p fp with
          | Some i, Some f => Some (i * 10 ^ Z.of_nat p + f)
          | _, _ => None
          end
      | _ => None
      end
  end.

(** Reads back the sign and the scaled integer of a formatted float. *)
Definition parse_fixed (p : nat) (s : string) : option (bool * Z) :=
  let '(neg, body) := strip_sign s in option_map (pair neg) (parse_unsigned p body).

(** The sign and the scaled, rounded magnitude a finite float prints as. *)
Definition f32_fixed_value (p : nat) (x : f32) : option (bool * Z) :=
  match x with
  | S754_zero s => Some (s, 0)
  | S754_finite s m e => Some (s, scaled_fixed p m e)
  | _ => None
  end.

(** ** Rounding lemmas *)

Lemma round_half_even_spec (n d : Z) :
  0 < d ->
  2 * Z.abs (round_half_even n d * d - n) <= d /\
  (2 * Z.abs (round_half_even n d * d - n) = d -> Z.even (round_half_even n d) = true).
Proof.
  intros Hd. unfold round_half_even.
  pose proof (Z.div_mod n d ltac:(lia)) as Hdm. pose proof (Z.mod_pos_bound n d Hd) as Hb.
  set (q := n / d) in *. set (r := n mod d) in *.
  assert (Hlo : Z.abs (q * d - n) = r).
  { replace (q * d - n) with (- r) by lia. rewrite Z.abs_opp, Z.abs_eq; lia. }
  assert (Hhi : Z.abs ((q + 1) * d - n) = d - r).
  { replace ((q + 1) * d - n) with (d - r) by lia. rewrite Z.abs_eq; lia. }
  destruct (Z.compare_spec (2 * r) d) as [E|E|E].
  - destruct (Z.even q) eqn:Ev; cbv iota; rewrite ?Hlo, ?Hhi; split; try lia.
    all: intros _; rewrite ?Z.even_add, Ev; reflexivity.
  - rewrite Hlo. split; lia.
  - rewrite Hhi. split; lia.
Qed.

Lemma round_half_even_nonneg (n d : Z) : 0 <= n -> 0 < d -> 0 <= round_half_even n d.
Proof.
  intros Hn Hd. unfold round_half_even.
  assert (0 <= n / d) by (apply Z.div_pos; lia).
  destruct (Z.compare _ _); [destruct (Z.even _)|..]; lia.
Qed.

Lemma scaled_fixed_nonneg (p : nat) (m : positive) (e : Z) : 0 <= scaled_fixed p m e.
Proof.
  unfold scaled_fixed. destruct (0 <=? e) eqn:E.
  - apply Z.mul_nonneg_nonneg; [|apply Z.pow_nonneg; lia].
    apply Z.mul_nonneg_nonneg; [lia | apply Z.pow_nonneg; lia].
  - apply round_half_even_nonneg; [|apply Z.pow_pos_nonneg; lia].
    apply Z.mul_nonneg_nonneg; [lia | apply Z.pow_nonneg; lia].
Qed.

(** ** Printing-parsing lemmas *)

Lemma char_digit_digit_char (d : Z) : 0 <= d < 10 -> char_digit (digit_char d) = Some d.
Proof.
  intros H.
  assert (d = 0 \/ d = 1 \/ d = 2 \/ d = 3 \/ d = 4 \/ d = 5 \/ d = 6 \/ d = 7 \/ d = 8 \/ d = 9)
    as Hd by lia.
  repeat destruct Hd as [-> | Hd]; try reflexivity. subst; reflexivity.
Qed.

Lemma parse_frac_digits (p : nat) (n : Z) :
  parse_frac p (frac_digits p n) = Some (n mod 10 ^ Z.of_nat p).
Proof.
  induction p as [|p IH]; cbn [parse_frac frac_digits].
  - now rewrite Z.mod_1_r.
  - rewrite char_digit_digit_char by (apply Z.mod_pos_bound; lia). rewrite IH. f_equal.
    rewrite Nat2Z.inj_succ, Z.pow_succ_r, (Z.mul_comm 10) by lia.
    rewrite Z.rem_mul_r by (try apply Z.pow_nonzero; lia). lia.
Qed.

Lemma to_uint_nonnil (n : N) : N.to_uint n <> Decimal.Nil.
Proof. destruct n; [discriminate | apply DecimalPos.Unsigned.to_uint_nonnil]. Qed.

Lemma parse_uint_int_digits (n : Z) : 0 <= n -> parse_uint (int_digits n) = Some n.
Proof.
  intros Hn. unfold parse_uint, int_digits.
  rewrite NilZero.usu by apply to_uint_nonnil. simpl.
  rewrite DecimalN.Unsigned.of_to. f_equal. lia.
Qed.

Fixpoint no_dot (s : string) : bool :=
  match s with
  | EmptyString => true
  | String c s' => andb (negb (Ascii.eqb c "."%char)) (no_dot s')
  end.

Lemma split_dot_app (a b : string) :
  no_dot a = true -> split_dot (append a (String "." b)) = (a, Some b).
Proof.
  induction a as [|c a IH]; simpl; [reflexivity|].
  intros H. apply andb_prop in H as [Hc Ha]. apply Bool.negb_true_iff in Hc.
  rewrite Hc, IH by exact Ha. reflexivity.
Qed.

Lemma int_digits_no_dot (n : Z) : no_dot (int_digits n) = true.
Proof.
  unfold int_digits, NilZero.string_of_uint.
  destruct (N.to_uint _) as [|d|d|d|d|d|d|d|d|d|d]; simpl; try reflexivity;
    induction d; simpl; auto.
Qed.

Lemma fixed_string_no_sign (p : nat) (n : Z) : fst (strip_sign (fixed_string p n)) = false.
Proof.
  unfold fixed_string, int_digits, NilZero.string_of_uint.
  destruct p; destruct (N.to_uint _); reflexivity.
Qed.

Lemma strip_sign_app (s : bool) (body : string) :
  fst (strip_sign body) = false -> strip_sign (append (sign_str s) body) = (s, body).
Proof.
  destruct s; simpl; [reflexivity|].
  destruct body as [|c r]; simpl; [reflexivity|]. destruct (Ascii.eqb c _); simpl; congruence.
Qed.

Lemma parse_unsigned_fixed (p : nat) (n : Z) :
  0 <= n -> parse_unsigned p (fixed_string p n) = Some n.
Proof.
  intros Hn. destruct p as [|p']; cbn [parse_unsigned fixed_string];
    [now apply parse_uint_int_digits|].
  set (p := S p').
  rewrite split_dot_app by apply int_digits_no_dot.
  rewrite parse_uint_int_digits by (apply Z.div_pos; [lia | apply Z.pow_pos_nonneg; lia]).
  rewrite parse_frac_digits. f_equal.
  rewrite (Z.div_mod n (10 ^ Z.of_nat p)) at 3 by (apply Z.pow_nonzero; lia). lia.
Qed.

(** ** Theorems *)

(** Reading back what [{:.p}] prints for an [f32] gives its sign and its
    magnitude scaled by [10^p] and rounded; NaN and the infinities print as
    words that read back as nothing. *)
Theorem fmt_f32_fixed_roundtrip (p : nat) (x : f32) :
  parse_fixed p (fmt_f32_fixed p x) = f32_fixed_value p x.
Proof.
  destruct x as [s|s| |s m e]; unfold fmt_f32_fixed, parse_fixed, f32_fixed_value.
  - rewrite strip_sign_app by apply fixed_string_no_sign.
    now rewrite parse_unsigned_fixed by lia.
  - destruct s, p; reflexivity.
  - destruct p; reflexivity.
  - rewrite strip_sign_app by apply fixed_string_no_sign.
    now rewrite parse_unsigned_fixed by apply scaled_fixed_nonneg.
Qed.

(** The printed digits are the exact value of the float scaled by [10^p],
    exactly when the float is an integer, and otherwise within half a unit
    of the last printed digit, a tie going to the even digit. *)
Theorem scaled_fixed_rounding (p : nat) (m : positive) (e : Z) :
  (0 <= e -> scaled_fixed p m e = Zpos m * 10 ^ Z.of_nat p * 2 ^ e) /\
  (e < 0 ->
   let err := 2 * Z.abs (scaled_fixed p m e * 2 ^ (- e) - Zpos m * 10 ^ Z.of_nat p) in
   err <= 2 ^ (- e) /\ (err = 2 ^ (- e) -> Z.even (scaled_fixed p m e) = true)).
Proof.
  unfold scaled_fixed. split; intros He.
  - now rewrite (proj2 (Z.leb_le 0 e) He).
  - rewrite (proj2 (Z.leb_gt 0 e) He). apply round_half_even_spec, Z.pow_pos_nonneg; lia.
Qed.
