(* ===== verification/Ecs.v ===== *)
(** * The world the example reads and writes

    The amethyst/specs [World] as far as [main.rs] touches it: the set of
    live entities and an allocator, the component storages ([Camera],
    [Transform], [UiText], [UiTransform], the scene [Handle], [Mesh],
    [Material], [Transparent]) as stdpp maps and sets keyed by entity, and
    the resources [Time], [FPSCounter] and [DemoState].  [UiFinder::find],
    [World::create_entity] and [World::delete_entity] are the engine
    operations the code calls; [attach_ui] is the loader instantiating a UI
    prefab.  [UiFinder::find] is modelled twice: [ui_find], the least
    matching live entity, and [ui_find_join], the join scan in ascending
    index order the engine runs; [ui_find_join_equiv] shows they agree on
    well-formed worlds.

    Entities are abstract names ([N]) that the allocator never hands out
    twice.  specs reuses the index of a deleted entity at a higher
    generation; [Entities] models that allocator and proves it refines
    these names.  The world is
    generic in the scalar type [K] of the transforms and of the FPS value. *)

From stdpp Require Import base gmap strings.
From Stdlib Require Import ZArith String.
From S2P Require Import Prelude F32 Nalgebra.

Definition Entity : Type := N.

(** An asset handle (prefab, mesh, texture): the id the loader hands out. *)
Definition Handle : Type := N.

Section World.
Context {K : Type}.

(** amethyst_core's [Time]: the duration of the last frame and the [u64]
    frame counter. *)
Record Time := mk_time { delta_seconds : K; frame_number : Z }.

(** amethyst_utils' [FPSCounter], through the value [sampled_fps] returns. *)
Record FPSCounter := mk_fps_counter { sampled_fps : K }.

(** amethyst_ui's [UiText]: the displayed string and its style. *)
Record UiText := mk_ui_text { text : string; font_size : K; password : bool }.

(** amethyst_ui's [UiTransform], through its [id]. *)
Record UiTransform := mk_ui_transform { ui_id : string }.

(** amethyst_renderer's [Material], through the handles it holds. *)
Record Material := mk_material { albedo : Handle; material_rest : N }.

(** [struct DemoState { camera_angle: f32 }] *)
Record DemoState := mk_demo_state { camera_angle : K }.

Record World := mk_world {
  w_entities : gset Entity;
  w_next : Entity;
  w_cameras : gset Entity;
  w_transforms : gmap Entity (@Transform K);
  w_ui_texts : gmap Entity UiText;
  w_ui_transforms : gmap Entity UiTransform;
  w_scenes : gmap Entity Handle;
  w_meshes : gmap Entity Handle;
  w_materials : gmap Entity Material;
  w_transparent : gset Entity;
  w_time : Time;
  w_fps : FPSCounter;
  w_demo : DemoState
}.

(** ** Updates of single fields *)

Definition set_transforms (w : World) (m : gmap Entity (@Transform K)) : World :=
  mk_world (w_entities w) (w_next w) (w_cameras w) m (w_ui_texts w) (w_ui_transforms w)
    (w_scenes w) (w_meshes w) (w_materials w) (w_transparent w) (w_time w) (w_fps w) (w_demo w).

Definition set_ui_texts (w : World) (m : gmap Entity UiText) : World :=
  mk_world (w_entities w) (w_next w) (w_cameras w) (w_transforms w) m (w_ui_transforms w)
    (w_scenes w) (w_meshes w) (w_materials w) (w_transparent w) (w_time w) (w_fps w) (w_demo w).

Definition set_demo (w : World) (d : DemoState) : World :=
  mk_world (w_entities w) (w_next w) (w_cameras w) (w_transforms w) (w_ui_texts w)
    (w_ui_transforms w) (w_scenes w) (w_meshes w) (w_materials w) (w_transparent w)
    (w_time w) (w_fps w) d.

(** [EntityBuilder::with(c)] for the storages [Example::on_start] fills. *)
Definition with_transform (w : World) (e : Entity) (t : @Transform K) : World :=
  set_transforms w (<[e := t]> (w_transforms w)).

Definition with_scene (w : World) (e : Entity) (h : Handle) : World :=
  mk_world (w_entities w) (w_next w) (w_cameras w) (w_transforms w) (w_ui_texts w)
    (w_ui_transforms w) (<[e := h]> (w_scenes w)) (w_meshes w) (w_materials w) (w_transparent w)
    (w_time w) (w_fps w) (w_demo w).

Definition with_mesh (w : World) (e : Entity) (h : Handle) : World :=
  mk_world (w_entities w) (w_next w) (w_cameras w) (w_transforms w) (w_ui_texts w)
    (w_ui_transforms w) (w_scenes w) (<[e := h]> (w_meshes w)) (w_materials w) (w_transparent w)
    (w_time w) (w_fps w) (w_demo w).

Definition with_material (w : World) (e : Entity) (m : Material) : World :=
  mk_world (w_entities w) (w_next w) (w_cameras w) (w_transforms w) (w_ui_texts w)
    (w_ui_transforms w) (w_scenes w) (w_meshes w) (<[e := m]> (w_materials w)) (w_transparent w)
    (w_time w) (w_fps w) (w_demo w).

Definition with_transparent (w : World) (e : Entity) : World :=
  mk_world (w_entities w) (w_next w) (w_cameras w) (w_transforms w) (w_ui_texts w)
    (w_ui_transforms w) (w_scenes w) (w_meshes w) (w_materials w) ({[e]} ∪ w_transparent w)
    (w_time w) (w_fps w) (w_demo w).

(** ** Engine operations *)

(** The prefab loader instantiating a loaded UI prefab on the entity
    [UiCreator::create] made for it: the prefab's [UiTransform] and [UiText]
    are inserted, if the entity is still alive (specs refuses components for
    a dead entity). *)
Definition attach_ui (w : World) (e : Entity) (t : UiTransform) (d : UiText) : World :=
  if decide (e ∈ w_entities w) then
    mk_world (w_entities w) (w_next w) (w_cameras w) (w_transforms w) (<[e := d]> (w_ui_texts w))
      (<[e := t]> (w_ui_transforms w)) (w_scenes w) (w_meshes w) (w_materials w) (w_transparent w)
      (w_time w) (w_fps w) (w_demo w)
  else w.

(** The smallest entity of a list: the first one a join over ascending
    entity indices meets. *)
Definition min_entity (l : list Entity) : option Entity :=
  foldr (fun e acc => match acc with None => Some e | Some m => Some (N.min e m) end) None l.

(** [UiFinder::find(id)]: [(&entities, &ui_transforms).join()
    .find(|(_, t)| t.id == id).map(|(e, _)| e)]. *)
Definition ui_find (w : World) (id : string) : option Entity :=
  min_entity (fst <$> (map_to_list
    (filter (fun et => et.1 ∈ w_entities w /\ ui_id et.2 = id) (w_ui_transforms w)))).

(** The join [(&*self.entities, &self.storage).join()] as specs runs it:
    the entities in ascending index order, alive and with a [UiTransform];
    [.find(|(_, transform)| transform.id == id).map(|(entity, _)| entity)]
    returns the first whose id matches.  [ui_match] is one step of the
    join and the test of [find]; [join_find] scans [n] indices from [e]. *)
Definition ui_match (w : World) (id : string) (e : Entity) : bool :=
  bool_decide (e ∈ w_entities w) &&
  match w_ui_transforms w !! e with
  | Some t => bool_decide (ui_id t = id)
  | None => false
  end.

Fixpoint join_find (w : World) (id : string) (e : Entity) (n : nat) : option Entity :=
  match n with
  | O => None
  | S n' => if ui_match w id e then Some e else join_find w id (N.succ e) n'
  end.

(** [UiFinder::find(id)] as the join scans it: every live entity is below
    the allocator. *)
Definition ui_find_join (w : World) (id : string) : option Entity :=
  join_find w id 0%N (N.to_nat (w_next w)).

(** [World::delete_entity(e)]: the entity dies and its components go. *)
Definition delete_entity (w : World) (e : Entity) : World :=
  mk_world (w_entities w ∖ {[e]}) (w_next w) (w_cameras w ∖ {[e]}) (delete e (w_transforms w))
    (delete e (w_ui_texts w)) (delete e (w_ui_transforms w)) (delete e (w_scenes w))
    (delete e (w_meshes w)) (delete e (w_materials w)) (w_transparent w ∖ {[e]})
    (w_time w) (w_fps w) (w_demo w).

(** [World::create_entity().build()]: a fresh entity with no component. *)
Definition create_entity (w : World) : Entity * World :=
  (w_next w,
   mk_world ({[w_next w]} ∪ w_entities w) (N.succ (w_next w)) (w_cameras w) (w_transforms w)
     (w_ui_texts w) (w_ui_transforms w) (w_scenes w) (w_meshes w) (w_materials w)
     (w_transparent w) (w_time w) (w_fps w) (w_demo w)).

(** [World::new()] with the given resources: no entity yet. *)
Definition empty_world (t : Time) (fps : FPSCounter) (demo : DemoState) : World :=
  mk_world ∅ 0%N ∅ ∅ ∅ ∅ ∅ ∅ ∅ ∅ t fps demo.

(** ** Well-formedness *)

(** Every component belongs to a live entity, and the allocator is above
    every live entity. *)
Definition world_wf (w : World) : Prop :=
  set_Forall (fun e => (e < w_next w)%N) (w_entities w) /\
  w_cameras w ⊆ w_entities w /\
  dom (w_transforms w) ⊆ w_entities w /\
  dom (w_ui_texts w) ⊆ w_entities w /\
  dom (w_ui_transforms w) ⊆ w_entities w /\
  dom (w_scenes w) ⊆ w_entities w /\
  dom (w_meshes w) ⊆ w_entities w /\
  dom (w_materials w) ⊆ w_entities w /\
  w_transparent w ⊆ w_entities w.

#[export] Instance world_wf_dec (w : World) : Decision (world_wf w).
Proof. unfold world_wf. apply _. Defined.

End World.

Arguments Time K : clear implicits.
Arguments FPSCounter K : clear implicits.
Arguments UiText K : clear implicits.
Arguments DemoState K : clear implicits.
Arguments World K : clear implicits.

(** ** Lemmas *)

Lemma min_entity_None (l : list Entity) : min_entity l = None <-> l = [].
Proof. destruct l; simpl; [done|]. destruct (min_entity l); split; done. Qed.

Lemma min_entity_Some (l : list Entity) (e : Entity) :
  min_entity l = Some e -> e ∈ l /\ forall x, x ∈ l -> (e <= x)%N.
Proof.
  revert e. induction l as [|a l IH]; simpl; [done|]. intros e He.
  destruct (min_entity l) as [m|] eqn:Hm.
  - injection He as <-. destruct (IH m eq_refl) as [Hin Hle].
    split.
    + destruct (N.min_spec a m) as [[_ ->]|[_ ->]]; set_solver.
    + intros x [->|Hx]%elem_of_cons; [lia|]. specialize (Hle x Hx). lia.
  - injection He as <-. apply min_entity_None in Hm as ->. set_solver.
Qed.

Section WorldLemmas.
Context {K : Type}.
Implicit Types w : World K.

Lemma ui_find_Some w id e :
  ui_find w id = Some e ->
  e ∈ w_entities w /\ (exists t, w_ui_transforms w !! e = Some t /\ ui_id t = id) /\
  (forall e' t', e' ∈ w_entities w -> w_ui_transforms w !! e' = Some t' -> ui_id t' = id ->
     (e <= e')%N).
Proof.
  unfold ui_find. intros [Hin Hmin]%min_entity_Some.
  apply list_elem_of_fmap in Hin as [[e0 t] [He Hin]]. simpl in He; subst e0.
  apply elem_of_map_to_list, map_lookup_filter_Some in Hin as [Ht [Hl Hid]]; simpl in *.
  split; [done|]. split; [eauto|].
  intros e' t' Hl' Ht' Hid'. apply Hmin, list_elem_of_fmap.
  exists (e', t'). split; [done|]. apply elem_of_map_to_list, map_lookup_filter_Some; done.
Qed.

Lemma ui_find_None w id :
  ui_find w id = None <->
  forall e t, e ∈ w_entities w -> w_ui_transforms w !! e = Some t -> ui_id t <> id.
Proof.
  unfold ui_find. rewrite min_entity_None.
  transitivity (filter (fun et => et.1 ∈ w_entities w /\ ui_id et.2 = id) (w_ui_transforms w) = ∅).
  { split; [intros Hl%fmap_nil_inv; by apply map_to_list_empty_iff|].
    intros ->. by rewrite map_to_list_empty. }
  rewrite map_empty. setoid_rewrite map_lookup_filter_None. simpl.
  split.
  - intros H e t He Ht Hid. destruct (H e) as [H1|H1]; [congruence|]. apply (H1 t); done.
  - intros H e. destruct (w_ui_transforms w !! e) as [t|] eqn:Ht; [right|left; done].
    intros t' [= <-] [He Hid]. exact (H e t He Ht Hid).
Qed.

Lemma ui_match_spec w id e :
  ui_match w id e = true <->
  e ∈ w_entities w /\ exists t, w_ui_transforms w !! e = Some t /\ ui_id t = id.
Proof.
  unfold ui_match. rewrite andb_true_iff, bool_decide_eq_true.
  destruct (w_ui_transforms w !! e) as [t|]; [|naive_solver].
  rewrite bool_decide_eq_true. naive_solver.
Qed.

Lemma join_find_Some w id e n x :
  join_find w id e n = Some x ->
  (e <= x < e + N.of_nat n)%N /\ ui_match w id x = true /\
  forall y, (e <= y < x)%N -> ui_match w id y = false.
Proof.
  revert e. induction n as [|n IH]; intros e; simpl; [done|].
  destruct (ui_match w id e) eqn:He.
  - intros [= <-]. split; [lia|]. split; [done|]. intros y Hy. lia.
  - intros (Hb & Hm & Hlt)%IH. split; [lia|]. split; [done|].
    intros y Hy. destruct (N.eq_dec y e) as [->|Hne]; [done|]. apply Hlt. lia.
Qed.

Lemma join_find_None w id e n :
  join_find w id e n = None -> forall y, (e <= y < e + N.of_nat n)%N -> ui_match w id y = false.
Proof.
  revert e. induction n as [|n IH]; intros e; simpl; [lia|].
  destruct (ui_match w id e) eqn:He; [done|]. intros Hn y Hy.
  destruct (N.eq_dec y e) as [->|Hne]; [done|]. apply (IH _ Hn). lia.
Qed.

Lemma delete_entity_wf w e : world_wf w -> world_wf (delete_entity w e).
Proof.
  unfold world_wf, delete_entity; simpl. rewrite !dom_delete_L.
  intros (Hn & ?&?&?&?&?&?&?&?). split; [|set_solver].
  intros e' He'. apply Hn. set_solver.
Qed.

Lemma create_entity_wf w : world_wf w -> world_wf (create_entity w).2.
Proof.
  unfold world_wf, create_entity; simpl. intros (Hn & ?&?&?&?&?&?&?&?).
  split; [|set_solver]. intros e' [->%elem_of_singleton|He]%elem_of_union; simpl; [lia|].
  specialize (Hn e' He). simpl in Hn. lia.
Qed.

Lemma empty_world_wf (t : Time K) (fps : FPSCounter K) (demo : DemoState K) :
  world_wf (empty_world t fps demo).
Proof. unfold world_wf, empty_world; simpl. rewrite !dom_empty_L. split; [|set_solver]. set_solver. Qed.

Lemma attach_ui_wf w e t d : world_wf w -> world_wf (attach_ui w e t d).
Proof.
  unfold attach_ui. case_decide; [|done].
  unfold world_wf; simpl. rewrite !dom_insert_L. intros (?&?&?&?&?&?&?&?&?). repeat split; set_solver.
Qed.

(** The only live entity whose [UiTransform] has the id is what the finder
    finds. *)
Lemma ui_find_unique w id e :
  e ∈ w_entities w -> (exists t, w_ui_transforms w !! e = Some t /\ ui_id t = id) ->
  (forall e' t', e' ∈ w_entities w -> w_ui_transforms w !! e' = Some t' -> ui_id t' = id -> e' = e) ->
  ui_find w id = Some e.
Proof.
  intros He [t [Ht Hid]] Hu. destruct (ui_find w id) as [x|] eqn:Hf.
  - destruct (ui_find_Some w id x Hf) as (Hx & (t' & Ht' & Hid') & _). f_equal. exact (Hu x t' Hx Ht' Hid').
  - exfalso. exact (proj1 (ui_find_None w id) Hf e t He Ht Hid).
Qed.

Lemma create_entity_fresh w : world_wf w -> (create_entity w).1 ∉ w_entities w.
Proof. intros [Hn _] Hin. specialize (Hn _ Hin). simpl in Hn. lia. Qed.

End WorldLemmas.

#[export] Hint Resolve delete_entity_wf create_entity_wf create_entity_fresh empty_world_wf : amethyst.

(** ** The join and the minimum *)

Section WorldJoin.
Context {K : Type}.

(** On a well-formed world, [UiFinder::find] as the join scans the
    entities ([ui_find_join]: ascending indices, the first live entity whose
    [UiTransform] has the id) returns the least such entity, [ui_find]: the
    scan below the allocator sees every candidate, and the first one it meets
    is the minimum. *)
Lemma ui_find_join_equiv (w : World K) (id : string) :
  world_wf w -> ui_find_join w id = ui_find w id.
Proof.
  intros [Hn _]. unfold ui_find_join.
  destruct (ui_find w id) as [m|] eqn:Hf.
  - destruct (ui_find_Some w id m Hf) as (Hm & (t & Ht & Hid) & Hmin).
    assert (Hmm : ui_match w id m = true) by (apply ui_match_spec; eauto).
    destruct (join_find _ _ _ _) as [x|] eqn:Hj.
    + destruct (join_find_Some _ _ _ _ _ Hj) as (Hb & Hx & Hlt).
      apply ui_match_spec in Hx as (Hxe & t' & Ht' & Hid').
      specialize (Hmin x t' Hxe Ht' Hid').
      destruct (N.lt_total m x) as [Hlt'|[->|Hgt]]; [|done|lia].
      rewrite (Hlt m) in Hmm; [discriminate | lia].
    + pose proof (Hn m Hm) as Hlt; cbn beta in Hlt. rewrite (join_find_None _ _ _ _ Hj m) in Hmm; [discriminate|lia].
  - destruct (join_find _ _ _ _) as [x|] eqn:Hj; [|done].
    destruct (join_find_Some _ _ _ _ _ Hj) as (_ & Hx & _).
    apply ui_match_spec in Hx as (Hxe & t' & Ht' & Hid').
    exfalso. by apply (proj1 (ui_find_None w id) Hf x t').
Qed.

End WorldJoin.

(** ** Examples *)

(** Three live entities; 1 and 2 carry the UI ids "loading" and
    "fps_text". *)
Definition ui_world : World Z :=
  mk_world {[0%N; 1%N; 2%N]} 3%N ∅ ∅ ∅
    (<[1%N := mk_ui_transform "loading"]> {[2%N := mk_ui_transform "fps_text"]}) ∅ ∅ ∅ ∅
    (mk_time 0%Z 0%Z) (mk_fps_counter 0%Z) (mk_demo_state 0%Z).
