(* ===== verification/ExampleSystem.v ===== *)
(** * [ExampleSystem]: the per-frame camera and FPS-label system

    [main.rs] lines 156-213.  [DemoState] is the resource the system owns
    (its [Default] gives angle 0, the value specs inserts when the system is
    set up); [ExampleSystem] holds the cached FPS entity; [run] is the body
    of [System::run], stage by stage as the code reads:

    - [state.camera_angle += camera_angular_velocity * time.delta_seconds()];
    - [delta_rot = UnitQuaternion::from_axis_angle(&Vector3::z_axis(), ...)]
      and, for every entity with a [Camera] and a [Transform],
      [*transform.isometry_mut() = delta_rot * transform.isometry()];
    - if no entity is cached, [finder.find("fps_text")] and cache the result;
    - if an entity is cached and has a [UiText], and
      [time.frame_number() % 20 == 0], set its text to
      [format!("FPS: {:.*}", 2, fps_counter.sampled_fps())].

    The system is generic in the scalar [K] (the code's [f32]); the trait
    [System] is the class [System] below, implemented by [ExampleSystem]. *)

From stdpp Require Import base gmap strings.
From Stdlib Require Import ZArith QArith String SpecFloat.
From S2P Require Import Prelude F32 Nalgebra RustFormat Ecs.

(** specs' [System] trait: [run(&mut self, data)] over the world. *)
Class System (S K : Type) := system_run : S -> World K -> S * World K.

Section ExampleSystem.
Context {K : Type} `{RealField K} `{FixedDisplay K}.

(** [impl Default for DemoState]: [camera_angle: 0.0]. *)
Definition demo_state_default : DemoState K := mk_demo_state rzero.

(** [#[derive(Default)] struct ExampleSystem { fps_display: Option<Entity> }] *)
Record ExampleSystem := mk_example_system { fps_display : option Entity }.

Definition example_system_default : ExampleSystem := mk_example_system None.

(** [let camera_angular_velocity = 0.1;] *)
Definition camera_angular_velocity : K := rconvert (1 # 10).

(** [state.camera_angle += camera_angular_velocity * time.delta_seconds();] *)
Definition advance_angle (st : DemoState K) (dt : K) : DemoState K :=
  mk_demo_state (radd (camera_angle st) (rmul camera_angular_velocity dt)).

(** [UnitQuaternion::from_axis_angle(&Vector3::z_axis(), camera_angular_velocity * dt)] *)
Definition delta_rot (dt : K) : UnitQuaternion K :=
  from_axis_angle z_axis (rmul camera_angular_velocity dt).

(** [*transform.isometry_mut() = delta_rot * transform.isometry();] *)
Definition rotate_transform (q : UnitQuaternion K) (t : Transform K) : Transform K :=
  set_isometry t (rot_mul_iso q (iso t)).

(** [for (_, transform) in (&camera, &mut transforms).join() { ... }] *)
Definition update_cameras (cams : gset Entity) (q : UnitQuaternion K)
    (ts : gmap Entity (Transform K)) : gmap Entity (Transform K) :=
  map_imap (fun e t => Some (if decide (e ∈ cams) then rotate_transform q t else t)) ts.

(** [if let None = self.fps_display { if let Some(fps_entity) =
    finder.find("fps_text") { self.fps_display = Some(fps_entity); } }] *)
Definition resolve_fps_display (cached : option Entity) (w : World K) : option Entity :=
  match cached with
  | None =>
      match ui_find w "fps_text" with
      | Some fps_entity => Some fps_entity
      | None => None
      end
  | Some e => Some e
  end.

(** [format!("FPS: {:.*}", 2, fps)] *)
Definition fps_label (fps : K) : string := append "FPS: " (fmt_fixed 2 fps).

(** [fps_display.text = ...] *)
Definition set_text (d : UiText K) (s : string) : UiText K :=
  mk_ui_text s (font_size d) (password d).

(** [time.frame_number() % 20 == 0] *)
Definition refresh_due (frame : Z) : bool := Z.eqb (frame mod 20) 0.

(** [if let Some(fps_entity) = self.fps_display { if let Some(fps_display) =
    ui_text.get_mut(fps_entity) { if time.frame_number() % 20 == 0 { ... } } }] *)
Definition refresh_fps_text (fd : option Entity) (frame : Z) (fps : K)
    (texts : gmap Entity (UiText K)) : gmap Entity (UiText K) :=
  match fd with
  | Some fps_entity =>
      match texts !! fps_entity with
      | Some d =>
          if refresh_due frame
          then <[fps_entity := set_text d (fps_label fps)]> texts
          else texts
      | None => texts
      end
  | None => texts
  end.

(** [fn run(&mut self, data)] *)
Definition run (self : ExampleSystem) (w : World K) : ExampleSystem * World K :=
  let dt := delta_seconds (w_time w) in
  let w1 := set_demo w (advance_angle (w_demo w) dt) in
  let w2 := set_transforms w1 (update_cameras (w_cameras w) (delta_rot dt) (w_transforms w)) in
  let fd := resolve_fps_display (fps_display self) w in
  let texts := refresh_fps_text fd (frame_number (w_time w)) (sampled_fps (w_fps w)) (w_ui_texts w) in
  (mk_example_system fd, set_ui_texts w2 texts).

#[export] Instance example_system_System : System ExampleSystem K := run.

(** ** The frames of the application *)

(** What the engine measures for a frame: the frame's duration, set into
    [Time] before the systems run, and the FPS value the counter samples. *)
Record FrameInput := mk_frame_input { fi_delta : K; fi_fps : K }.

(** [Time::set_delta_seconds] and the [FPSCounter] sample of a frame. *)
Definition begin_frame (w : World K) (i : FrameInput) : World K :=
  mk_world (w_entities w) (w_next w) (w_cameras w) (w_transforms w) (w_ui_texts w)
    (w_ui_transforms w) (w_scenes w) (w_meshes w) (w_materials w) (w_transparent w)
    (mk_time (fi_delta i) (frame_number (w_time w))) (mk_fps_counter (fi_fps i)) (w_demo w).

(** [Time::increment_frame_number] at the end of a frame ([u64], wrapping). *)
Definition end_frame (w : World K) : World K :=
  mk_world (w_entities w) (w_next w) (w_cameras w) (w_transforms w) (w_ui_texts w)
    (w_ui_transforms w) (w_scenes w) (w_meshes w) (w_materials w) (w_transparent w)
    (mk_time (delta_seconds (w_time w)) (wrap_succ 64 (frame_number (w_time w))))
    (w_fps w) (w_demo w).

(** One frame: the engine sets the frame's time, the system runs, the frame
    counter advances. *)
Definition frame (self : ExampleSystem) (w : World K) (i : FrameInput) : ExampleSystem * World K :=
  let '(self', w') := run self (begin_frame w i) in (self', end_frame w').

(** Consecutive frames. *)
Fixpoint frames (self : ExampleSystem) (w : World K) (ins : list FrameInput) : ExampleSystem * World K :=
  match ins with
  | [] => (self, w)
  | i :: ins' => let '(self', w') := frame self w i in frames self' w' ins'
  end.

End ExampleSystem.

Arguments ExampleSystem : clear implicits.

(** ** Lemmas on the stages *)

Section ExampleSystemLemmas.
Context {K : Type} `{RealField K} `{FixedDisplay K}.
Implicit Types (w : World K) (self : ExampleSystem).

Lemma lookup_update_cameras (cams : gset Entity) (q : UnitQuaternion K)
    (ts : gmap Entity (Transform K)) (e : Entity) :
  update_cameras cams q ts !! e =
  (if decide (e ∈ cams) then rotate_transform q else id) <$> ts !! e.
Proof. unfold update_cameras. rewrite map_lookup_imap. by destruct (ts !! e), (decide (e ∈ cams)). Qed.

Lemma lookup_refresh_fps_text (fd : option Entity) (f : Z) (fps : K)
    (texts : gmap Entity (UiText K)) (e : Entity) :
  refresh_fps_text fd f fps texts !! e =
  (fun d => if bool_decide (fd = Some e) && refresh_due f
            then set_text d (fps_label fps) else d) <$> texts !! e.
Proof.
  unfold refresh_fps_text. destruct fd as [e'|]; simpl; [|by destruct (texts !! e)].
  destruct (texts !! e') as [d'|] eqn:He'; [destruct (refresh_due f) eqn:Ef|].
  - destruct (decide (e' = e)) as [->|Hne].
    + rewrite lookup_insert_eq, He', bool_decide_eq_true_2; done.
    + rewrite lookup_insert_ne by done. destruct (texts !! e); simpl; [|done].
      rewrite bool_decide_eq_false_2 by congruence. done.
  - destruct (texts !! e); simpl; [|done]. by rewrite andb_false_r.
  - destruct (decide (e' = e)) as [->|Hne]; [by rewrite He'|].
    destruct (texts !! e); simpl; [|done]. rewrite bool_decide_eq_false_2 by congruence. done.
Qed.

(** [run] leaves the entities, the cameras, the UI transforms, the time and
    the FPS counter as they are. *)
Lemma run_frame_data self w :
  let w' := (run self w).2 in
  w_entities w' = w_entities w /\ w_cameras w' = w_cameras w /\
  w_ui_transforms w' = w_ui_transforms w /\ w_time w' = w_time w /\ w_fps w' = w_fps w.
Proof. done. Qed.

Lemma ui_find_run self w id : ui_find (run self w).2 id = ui_find w id.
Proof. done. Qed.

Lemma ui_find_frame self w i id : ui_find (frame self w i).2 id = ui_find w id.
Proof.
  unfold frame. pose proof (ui_find_run self (begin_frame w i) id) as Hr.
  destruct (run self (begin_frame w i)) as [s' w']. exact Hr.
Qed.

Lemma resolve_Some (e : Entity) w : resolve_fps_display (Some e) w = Some e.
Proof. done. Qed.

Lemma dom_update_cameras (cams : gset Entity) (q : UnitQuaternion K) (ts : gmap Entity (Transform K)) :
  dom (update_cameras cams q ts) = dom ts.
Proof. apply set_eq. intros e. by rewrite !elem_of_dom, lookup_update_cameras, fmap_is_Some. Qed.

Lemma dom_refresh_fps_text (fd : option Entity) (f : Z) (fps : K) (texts : gmap Entity (UiText K)) :
  dom (refresh_fps_text fd f fps texts) = dom texts.
Proof. apply set_eq. intros e. by rewrite !elem_of_dom, lookup_refresh_fps_text, fmap_is_Some. Qed.

(** What one frame does to the parts of the world the theorems follow. *)
Lemma frame_parts self w i :
  let '(self', w') := frame self w i in
  fps_display self' = resolve_fps_display (fps_display self) w /\
  w_ui_texts w' = refresh_fps_text (resolve_fps_display (fps_display self) w)
                    (frame_number (w_time w)) (fi_fps i) (w_ui_texts w) /\
  w_transforms w' = update_cameras (w_cameras w) (delta_rot (fi_delta i)) (w_transforms w) /\
  frame_number (w_time w') = wrap_succ 64 (frame_number (w_time w)) /\
  w_entities w' = w_entities w /\ w_cameras w' = w_cameras w /\
  w_ui_transforms w' = w_ui_transforms w /\
  camera_angle (w_demo w') = camera_angle (advance_angle (w_demo w) (fi_delta i)).
Proof. done. Qed.

(** A frame adds no component to a dead entity and allocates nothing. *)
Lemma frame_world_wf self w i : world_wf w -> world_wf (frame self w i).2.
Proof. unfold world_wf; simpl. by rewrite dom_refresh_fps_text, dom_update_cameras. Qed.

(** A frame leaves the loader-facing parts of the world: the entities, the
    allocator and the UI transforms. *)
Lemma frame_entities self w i :
  w_entities (frame self w i).2 = w_entities w /\ w_next (frame self w i).2 = w_next w /\
  w_ui_transforms (frame self w i).2 = w_ui_transforms w.
Proof. done. Qed.

End ExampleSystemLemmas.

(** ** The properties of the system *)

Section ExampleSystemProps.
Context {K : Type} `{RealField K} `{FixedDisplay K}.
Implicit Types (w : World K) (self : ExampleSystem).

(** The label the FPS entity shows after consecutive frames starting at frame
    number [f] from the label [cur]: the label of the last frame whose number
    is a multiple of 20, if there was one. *)
Fixpoint label_after (f : Z) (ins : list FrameInput) (cur : string) : string :=
  match ins with
  | [] => cur
  | i :: ins' =>
      label_after (wrap_succ 64 f) ins' (if refresh_due f then fps_label (fi_fps i) else cur)
  end.

Lemma set_text_text (d : UiText K) : set_text d (text d) = d.
Proof. by destruct d. Qed.

Lemma set_text_twice (d : UiText K) (s1 s2 : string) : set_text (set_text d s1) s2 = set_text d s2.
Proof. done. Qed.

(** (C1) A run changes the text store at one entity at most: the
    cached (or just resolved) FPS entity, on a frame whose number is a
    multiple of 20, when it has a [UiText]; it then holds the FPS label. *)
Theorem run_ui_texts self w e :
  let fd := resolve_fps_display (fps_display self) w in
  let texts' := w_ui_texts (run self w).2 in
  (texts' !! e <> w_ui_texts w !! e ->
     fd = Some e /\ (frame_number (w_time w) mod 20 = 0)%Z /\
     exists d, w_ui_texts w !! e = Some d /\
               texts' !! e = Some (set_text d (fps_label (sampled_fps (w_fps w))))) /\
  (fd = Some e -> (frame_number (w_time w) mod 20 = 0)%Z ->
     forall d, w_ui_texts w !! e = Some d ->
     texts' !! e = Some (set_text d (fps_label (sampled_fps (w_fps w))))).
Proof.
  simpl. rewrite lookup_refresh_fps_text. unfold refresh_due.
  split.
  - destruct (w_ui_texts w !! e) as [d|]; simpl; [|done].
    destruct (bool_decide _) eqn:Hb; simpl; [|done].
    destruct (Z.eqb_spec (frame_number (w_time w) mod 20) 0); simpl; [|done].
    intros _. apply bool_decide_eq_true_1 in Hb. eauto.
  - intros Hfd Hf d ->. simpl. rewrite bool_decide_eq_true_2 by done.
    by rewrite (proj2 (Z.eqb_eq _ _) Hf).
Qed.

(** A transform that is not a camera's is left alone by every frame. *)
Lemma frames_non_camera self w ins e :
  e ∉ w_cameras w -> w_transforms (frames self w ins).2 !! e = w_transforms w !! e.
Proof.
  revert self w. induction ins as [|i ins IH]; intros self w He; cbn [frames]; [done|].
  pose proof (frame_parts self w i) as Hp. destruct (frame self w i) as [self' w'].
  destruct Hp as (_ & _ & Htr & _ & _ & Hcam & _). rewrite IH by congruence.
  rewrite Htr, lookup_update_cameras. destruct (decide _); [done|]. by destruct (_ !! e).
Qed.

(** The accumulated angle after consecutive frames: the left fold of the
    per-frame update over the frames' durations. *)
Lemma frames_camera_angle_fold self w ins :
  camera_angle (w_demo (frames self w ins).2) =
  fold_left (fun a i => radd a (rmul camera_angular_velocity (fi_delta i))) ins (camera_angle (w_demo w)).
Proof.
  revert self w. induction ins as [|i ins IH]; intros self w; cbn [frames fold_left]; [done|].
  pose proof (frame_parts self w i) as Hp. destruct (frame self w i) as [self' w'].
  destruct Hp as (_ & _ & _ & _ & _ & _ & _ & Ha). by rewrite IH, Ha.
Qed.

(** (C2) The cached FPS entity is a one-way state: once resolved it
    never changes, and an unresolved cache is resolved by the first frame, to
    what [UiFinder::find("fps_text")] returns (the frames do not change the
    UI transforms the finder reads). *)
Theorem frames_fps_display self w ins :
  fps_display (frames self w ins).1 =
  match fps_display self with
  | Some e => Some e
  | None => match ins with [] => None | _ :: _ => ui_find w "fps_text" end
  end.
Proof.
  revert self w. induction ins as [|i ins IH]; intros self w; cbn [frames]; [simpl; by destruct (fps_display self)|].
  pose proof (ui_find_frame self w i "fps_text") as Hf. pose proof (frame_parts self w i) as Hp.
  destruct (frame self w i) as [self' w']. destruct Hp as [Hd _]. cbn [snd] in Hf.
  rewrite IH, Hd, Hf.
  destruct (fps_display self); simpl; [done|]. destruct (ui_find w "fps_text"); by destruct ins.
Qed.

(** (C6) If no live entity carries the UI id "fps_text", the system
    never resolves the cache and never writes a text, whatever the frames. *)
Theorem frames_no_fps_text self w ins :
  fps_display self = None -> ui_find w "fps_text" = None ->
  fps_display (frames self w ins).1 = None /\ w_ui_texts (frames self w ins).2 = w_ui_texts w.
Proof.
  revert self w. induction ins as [|i ins IH]; intros self w Hs Hn; cbn [frames]; [done|].
  pose proof (ui_find_frame self w i "fps_text") as Hf. pose proof (frame_parts self w i) as Hp.
  destruct (frame self w i) as [self' w']. destruct Hp as (Hd & Ht & _).
  rewrite Hs in Hd, Ht. cbn [resolve_fps_display] in Hd, Ht. rewrite Hn in Hd, Ht.
  cbn [refresh_fps_text] in Ht. rewrite <- Ht. cbn [snd] in Hf. apply IH; [done | by rewrite Hf].
Qed.

(** (C5) With the FPS entity cached and carrying a [UiText], the text
    it shows after consecutive frames is [label_after]: the label of the FPS
    sampled on the last frame whose number was a multiple of 20, the other
    fields of the [UiText] unchanged. *)
Theorem frames_label self w ins e d :
  fps_display self = Some e -> w_ui_texts w !! e = Some d ->
  w_ui_texts (frames self w ins).2 !! e =
    Some (set_text d (label_after (frame_number (w_time w)) ins (text d))).
Proof.
  revert self w d. induction ins as [|i ins IH]; intros self w d Hs Hd; cbn [frames label_after].
  - cbn [snd]. by rewrite Hd, set_text_text.
  - pose proof (frame_parts self w i) as Hp. destruct (frame self w i) as [self' w'].
    destruct Hp as (Hself & Ht & _ & Hfr & _). rewrite Hs in Hself, Ht.
    cbn [resolve_fps_display] in Hself, Ht.
    rewrite <- Hfr.
    set (d' := if refresh_due (frame_number (w_time w)) then set_text d (fps_label (fi_fps i)) else d).
    assert (Hd' : w_ui_texts w' !! e = Some d').
    { rewrite Ht, lookup_refresh_fps_text, Hd. simpl. rewrite bool_decide_eq_true_2 by done.
      done. }
    rewrite (IH self' w' d' Hself Hd'). f_equal. subst d'.
    destruct (refresh_due _); done.
Qed.

End ExampleSystemProps.

Section RunWf.
Context {K : Type} `{RealField K} `{FixedDisplay K}.

(** A run keeps the world well formed: it adds no component to a
    dead entity and allocates nothing. *)
Theorem run_world_wf (self : ExampleSystem) (w : World K) : world_wf w -> world_wf (run self w).2.
Proof.
  unfold world_wf, run; simpl. by rewrite dom_refresh_fps_text, dom_update_cameras.
Qed.

End RunWf.

Section Resolution.
Context {K : Type} `{RealField K} `{FixedDisplay K}.

(** (C25) The model's [UiFinder::find] is the join the code runs: on a
    well-formed world, the entity the system caches on its first run is the
    first live entity, in ascending index order, whose [UiTransform] has the
    id "fps_text" (the reference scan [ui_find_join]). *)
Theorem resolve_fps_display_join (w : World K) :
  world_wf w -> resolve_fps_display None w = ui_find_join w "fps_text".
Proof. intros Hw. rewrite ui_find_join_equiv by exact Hw. simpl. by destruct (ui_find w "fps_text"). Qed.

End Resolution.

(** (C10) The refresh guard [frame_number % 20 == 0] over the [u64]
    frame counter: after a refresh the next one comes 20 frames later, except
    at the wrap-around of the counter, where frame [2^64 - 16] is followed by
    a refresh at frame 0, 16 frames later. *)
Theorem refresh_schedule (f : Z) :
  u64_ok f -> refresh_due f = true ->
  (forall k : nat, (0 < k < 20)%nat ->
     refresh_due (Nat.iter k (wrap_succ 64) f) = true <-> f = (2 ^ 64 - 16)%Z /\ k = 16%nat) /\
  (f <> (2 ^ 64 - 16)%Z -> refresh_due (Nat.iter 20 (wrap_succ 64) f) = true).
Proof.
  unfold u64_ok, refresh_due, umod. intros Hf Hd. apply Z.eqb_eq in Hd.
  assert (E : (2 ^ 64 = 20 * 922337203685477580 + 16)%Z) by reflexivity. rewrite E in *.
  apply Z.mod_divide in Hd as [q ->]; [|lia].
  split; [intros k Hk | intros Hne]; rewrite iter_wrap_succ by (unfold umod; lia);
    unfold umod; rewrite E, Z.eqb_eq.
  - destruct (Z.lt_ge_cases (q * 20 + Z.of_nat k) (20 * 922337203685477580 + 16)) as [Hlt|Hge].
    + rewrite (Z.mod_small (q * 20 + Z.of_nat k)) by lia. rewrite Z.add_comm, Z.mod_add by lia.
      split; [intros Hm%mod_zero_small; lia | intros [? ->]; lia].
    + rewrite <- (Z.mod_unique (q * 20 + Z.of_nat k) (20 * 922337203685477580 + 16) 1 (q * 20 + Z.of_nat k - (20 * 922337203685477580 + 16))) by lia.
      replace (q * 20 + Z.of_nat k - (20 * 922337203685477580 + 16))%Z
        with (Z.of_nat k - 16 + (q - 922337203685477580) * 20)%Z by lia.
      rewrite Z.mod_add by lia.
      split; [intros Hm%mod_zero_small; lia | intros [? ->]; reflexivity].
  - destruct (Z.lt_ge_cases (q * 20 + Z.of_nat 20) (20 * 922337203685477580 + 16)) as [Hlt|Hge].
    + rewrite (Z.mod_small (q * 20 + Z.of_nat 20)) by lia. replace (q * 20 + Z.of_nat 20)%Z with (0 + (q + 1) * 20)%Z by lia.
      rewrite Z.mod_add by lia. reflexivity.
    + exfalso. apply Hne. lia.
Qed.

(** ** The label at [f32]

    [format!("FPS: {:.*}", 2, fps)] at the code's [f32]: the text after
    ["FPS: "] reads back as the sample rounded to hundredths (half to
    even); the binary32 nearest to [62.345] shows ["FPS: 62.35"], the exact
    tie [0.125] shows ["FPS: 0.12"]. *)

(** The label of the FPS sample [62.345] (as an [f32]) is
    ["FPS: 62.35"]. *)
Theorem fps_label_62_345 : fps_label (f32_of_Q (62345 # 1000)) = "FPS: 62.35"%string.
Proof. vm_compute. reflexivity. Qed.

(** The [f32] value [0.125] is exactly halfway between two
    labels; Rust (1.67 on) rounds it to the even digit. *)
Theorem fps_label_tie : fps_label (f32_of_Q (1 # 8)) = "FPS: 0.12"%string.
Proof. vm_compute. reflexivity. Qed.

(** (C11) The label is ["FPS: "] followed by text that reads back
    as the sign of the sample and its magnitude scaled by 100 and rounded;
    for NaN and the infinities, as nothing. *)
Theorem fps_label_value (fps : f32) :
  exists digits, fps_label fps = append "FPS: " digits /\ parse_fixed 2 digits = f32_fixed_value 2 fps.
Proof. eexists. split; [reflexivity|]. apply fmt_f32_fixed_roundtrip. Qed.

(** (C12) For a finite sample [(-1)^s * m * 2^e] the label shows
    an integer [n] of hundredths: [m * 2^e * 100] itself when that is an
    integer, and otherwise within half a hundredth of it, a tie going to the
    even [n]. *)
Theorem fps_label_rounds (s : bool) (m : positive) (e : Z) :
  exists digits n,
    fps_label (S754_finite s m e) = append "FPS: " digits /\
    parse_fixed 2 digits = Some (s, n) /\
    ((0 <= e)%Z -> n = (Zpos m * 100 * 2 ^ e)%Z) /\
    ((e < 0)%Z -> (2 * Z.abs (n * 2 ^ (- e) - Zpos m * 100) <= 2 ^ (- e))%Z /\
                  ((2 * Z.abs (n * 2 ^ (- e) - Zpos m * 100))%Z = (2 ^ (- e))%Z -> Z.even n = true)).
Proof.
  destruct (fps_label_value (S754_finite s m e)) as [digits [Hl Hp]].
  exists digits, (scaled_fixed 2 m e). split; [done|]. split; [done|].
  exact (scaled_fixed_rounding 2 m e).
Qed.

(** ** Examples at [f32] *)

Section Examples.
#[local] Existing Instance libm_small_angle.
#[local] Open Scope Z_scope.

(** A world whose entity 0 carries the UI id "fps_text" and an empty text. *)
Definition fps_text_world : World f32 :=
  mk_world {[0%N]} 1%N ∅ ∅ {[0%N := mk_ui_text "" (f32_of_Z 12) false]}
    {[0%N := mk_ui_transform "fps_text"]} ∅ ∅ ∅ ∅
    (mk_time f32_zero 0) (mk_fps_counter (f32_of_Z 60)) demo_state_default.

Definition quiet_world : World f32 :=
  empty_world (mk_time f32_zero 0) (mk_fps_counter f32_zero) demo_state_default.

Definition two_frames : list (@FrameInput f32) :=
  [mk_frame_input (f32_of_Z 1) (f32_of_Z 30); mk_frame_input (f32_of_Z 1) (f32_of_Z 60)].

Lemma frames_no_fps_text_witness :
  fps_display (frames example_system_default quiet_world two_frames).1 = None /\
  w_ui_texts (frames example_system_default quiet_world two_frames).2 = w_ui_texts quiet_world.
Proof. apply frames_no_fps_text; reflexivity. Defined.

Lemma frames_label_witness :
  w_ui_texts (frames (mk_example_system (Some 0%N)) fps_text_world two_frames).2 !! 0%N =
  Some (set_text (mk_ui_text "" (f32_of_Z 12) false)
          (label_after 0 two_frames "")).
Proof. apply frames_label; reflexivity. Defined.

Lemma resolve_fps_display_join_witness :
  resolve_fps_display None fps_text_world = ui_find_join fps_text_world "fps_text".
Proof. apply resolve_fps_display_join. apply (bool_decide_unpack _). vm_compute. reflexivity. Defined.

Lemma run_world_wf_witness : world_wf (run example_system_default quiet_world).2.
Proof. apply run_world_wf. apply empty_world_wf. Defined.

Lemma refresh_schedule_witness :
  (forall k : nat, (0 < k < 20)%nat ->
     refresh_due (Nat.iter k (wrap_succ 64) 0) = true <-> 0%Z = (2 ^ 64 - 16)%Z /\ k = 16%nat) /\
  (0%Z <> (2 ^ 64 - 16)%Z -> refresh_due (Nat.iter 20 (wrap_succ 64) 0) = true).
Proof. apply refresh_schedule; [unfold u64_ok, umod; lia | reflexivity]. Defined.

End Examples.
