(* ===== verification/Entities.v ===== *)
(** * specs' entity allocator: indices, generations and reuse

    [Ecs] names entities by an allocator that never hands a name out
    twice.  specs does not: an [Entity] is an index and a generation, the
    [Allocator] keeps the generation of every index it has used and a cache
    of the indices freed by [kill], and [allocate] takes the most recently
    freed index before a new one, with its generation raised.  In this
    program the index of the loading screen, deleted by [Loading::update],
    is the index of the scene entity [Example::on_start] creates next.

    This file models the allocator ([Allocator], [allocate], [kill],
    [is_alive]), a storage read through a handle ([storage_get], the
    generation check of [Storage::get]) and the [UiText] and [UiTransform]
    storages keyed by index ([SpecsWorld]), and proves that it refines the
    model of [Ecs]: under a renaming of the model's entities to specs
    entities, every creation and deletion keeps the relation [refines],
    so that a model entity is alive exactly when its specs handle is,
    distinct model entities have distinct handles, and a component read
    through a handle is the model's, even for a stale handle whose index
    carries a component of a newer entity.  The world operations of the
    program that change entities are [create_entity] and [delete_entity];
    every other operation touches storages only.

    Not modelled: the atomic allocation path ([create_entity_atomic],
    [raised] bits) the program does not use, and the [u32] bound of the
    index, which no finite run of this program approaches. *)

From stdpp Require Import base gmap sets.
From Stdlib Require Import ZArith String.
From S2P Require Import Prelude F32 Nalgebra RustFormat Ecs ExampleSystem.

(** specs' [Entity(Index, Generation)]: the generation is a
    [NonZeroI32], alive when positive. *)
Record SEntity := mk_sentity { s_id : N; s_gen : Z }.

#[export] Instance sentity_eq_dec : EqDecision SEntity.
Proof. solve_decision. Defined.

(** specs' [Allocator]: [generations !! i] is [None] for an index never
    used ([ZeroableGeneration(None)]) and the signed generation otherwise,
    negative once the entity of that generation is killed; [cache] is the
    [EntityCache] of freed indices, a vector pushed and popped at its end
    (the head of the list); [max_id] is the next index never used. *)
Record Allocator := mk_allocator { generations : gmap N Z; cache : list N; max_id : N }.

Definition allocator_default : Allocator := mk_allocator ∅ [] 0%N.

(** [Allocator::is_alive(e)]: the index's generation is [e]'s and alive. *)
Definition is_alive (a : Allocator) (e : SEntity) : bool :=
  match generations a !! s_id e with
  | Some g => bool_decide (0 < g)%Z && bool_decide (g = s_gen e)
  | None => false
  end.

(** [Allocator::allocate]: [cache.pop()], or else [max_id] and its
    successor; the index's generation is raised ([ZeroableGeneration::raised]:
    [1] for a new index, [1 - g] for the dead generation [g]). *)
Definition allocate (a : Allocator) : SEntity * Allocator :=
  let '(id, c, m) :=
    match cache a with
    | i :: c => (i, c, max_id a)
    | [] => (max_id a, [], N.succ (max_id a))
    end in
  let g := match generations a !! id with Some g => (1 - g)%Z | None => 1%Z end in
  (mk_sentity id g, mk_allocator (<[id := g]> (generations a)) c m).

(** [Allocator::kill(&[e])]: [Err(WrongGeneration)] ([None]) for a dead
    entity; otherwise the generation dies ([Generation::die] negates it)
    and the index is pushed on the cache. *)
Definition kill (a : Allocator) (e : SEntity) : option Allocator :=
  if is_alive a e then
    Some (mk_allocator (<[s_id e := (- s_gen e)%Z]> (generations a)) (s_id e :: cache a) (max_id a))
  else None.

(** [Storage::get(e)]: the component at [e]'s index, if [e] is alive. *)
Definition storage_get {V} (a : Allocator) (s : gmap N V) (e : SEntity) : option V :=
  if is_alive a e then s !! s_id e else None.

(** ** The refinement relation

    [ren] maps every model entity created so far to its specs handle. *)
Record refines (ren : gmap Entity SEntity) (alive : gset Entity) (next : Entity) (a : Allocator) : Prop := {
  ref_alive_below : set_Forall (fun x => (x < next)%N) alive;
  ref_created : forall x : Entity, (x < next)%N <-> is_Some (ren !! x);
  ref_inj : forall x y ex, ren !! x = Some ex -> ren !! y = Some ex -> x = y;
  ref_is_alive : forall x ex, ren !! x = Some ex -> is_alive a ex = bool_decide (x ∈ alive);
  ref_gen : forall x ex, ren !! x = Some ex ->
    (0 < s_gen ex)%Z /\ exists g, generations a !! s_id ex = Some g /\ (s_gen ex <= Z.abs g)%Z;
  ref_live : forall i g, generations a !! i = Some g -> (0 < g)%Z ->
    exists x, x ∈ alive /\ ren !! x = Some (mk_sentity i g);
  ref_cache_dead : forall i, i ∈ cache a -> exists g, generations a !! i = Some g /\ (g < 0)%Z;
  ref_cache_nodup : NoDup (cache a);
  ref_max : forall i, is_Some (generations a !! i) -> (i < max_id a)%N
}.

(** A storage of specs holds components at live indices only, and at
    the index of a live model entity it holds the model's component. *)
Definition storage_refines {V} (ren : gmap Entity SEntity) (a : Allocator)
    (cs : gmap N V) (s : gmap Entity V) : Prop :=
  (forall i v, cs !! i = Some v -> exists g, generations a !! i = Some g /\ (0 < g)%Z) /\
  (forall x ex, ren !! x = Some ex -> is_alive a ex = true -> cs !! s_id ex = s !! x).

(** ** The program's entity operations on both worlds *)

Section SpecsWorld.
Context {K : Type} `{RealField K} `{FixedDisplay K}.

(** The refresh of [ExampleSystem::run] as specs runs it:
    [ui_text.get_mut(fps_entity)] reads through the generation check of
    the cached handle, and the text is written at its index. *)
Definition refresh_fps_text_specs (a : Allocator) (fd : option SEntity) (frame : Z) (fps : K)
    (texts : gmap N (UiText K)) : gmap N (UiText K) :=
  match fd with
  | Some fps_entity =>
      match storage_get a texts fps_entity with
      | Some d =>
          if refresh_due frame
          then <[s_id fps_entity := set_text d (fps_label fps)]> texts
          else texts
      | None => texts
      end
  | None => texts
  end.

(** The operations of the program that create or delete entities or
    write the [UiText] storage: [World::create_entity], [World::delete_entity],
    the UI loader inserting a prefab's components, and the refresh of the
    FPS text through a cached entity. *)
Inductive WorldOp :=
  | OpCreate
  | OpDelete (x : Entity)
  | OpAttachUi (x : Entity) (t : UiTransform) (d : UiText K)
  | OpRefresh (x : Entity) (frame : Z) (fps : K).

(** specs' side: the allocator and the [UiText] and [UiTransform]
    storages, keyed by index. *)
Record SpecsWorld := mk_specs_world {
  sw_alloc : Allocator; sw_ui_texts : gmap N (UiText K); sw_ui_transforms : gmap N UiTransform }.

Definition model_op (w : World K) (op : WorldOp) : World K :=
  match op with
  | OpCreate => (create_entity w).2
  | OpDelete x => delete_entity w x
  | OpAttachUi x t d => attach_ui w x t d
  | OpRefresh x f fps => set_ui_texts w (refresh_fps_text (Some x) f fps (w_ui_texts w))
  end.

(** The same operation in specs, through the handle [ren] holds for the
    model's entity: [create_entity] allocates; [delete_entity] kills the
    entity and drops its components; [WriteStorage::insert] of a dead
    entity is [Err] and changes nothing. *)
Definition specs_op (ren : gmap Entity SEntity) (next : Entity) (sw : SpecsWorld) (op : WorldOp) :
    gmap Entity SEntity * SpecsWorld :=
  match op with
  | OpCreate =>
      let '(e, a') := allocate (sw_alloc sw) in
      (<[next := e]> ren, mk_specs_world a' (sw_ui_texts sw) (sw_ui_transforms sw))
  | OpDelete x =>
      match ren !! x with
      | Some ex =>
          match kill (sw_alloc sw) ex with
          | Some a' =>
              (ren, mk_specs_world a' (delete (s_id ex) (sw_ui_texts sw))
                      (delete (s_id ex) (sw_ui_transforms sw)))
          | None => (ren, sw)
          end
      | None => (ren, sw)
      end
  | OpAttachUi x t d =>
      match ren !! x with
      | Some ex =>
          if is_alive (sw_alloc sw) ex
          then (ren, mk_specs_world (sw_alloc sw) (<[s_id ex := d]> (sw_ui_texts sw))
                       (<[s_id ex := t]> (sw_ui_transforms sw)))
          else (ren, sw)
      | None => (ren, sw)
      end
  | OpRefresh x f fps =>
      (ren, mk_specs_world (sw_alloc sw)
              (refresh_fps_text_specs (sw_alloc sw) (ren !! x) f fps (sw_ui_texts sw))
              (sw_ui_transforms sw))
  end.

(** A sequence of operations on both worlds, the renaming carried along. *)
Fixpoint run_ops (w : World K) (ren : gmap Entity SEntity) (sw : SpecsWorld) (ops : list WorldOp) :
    World K * gmap Entity SEntity * SpecsWorld :=
  match ops with
  | [] => (w, ren, sw)
  | op :: ops' =>
      let '(ren', sw') := specs_op ren (w_next w) sw op in run_ops (model_op w op) ren' sw' ops'
  end.

(** The simulation: a well-formed model world, the allocator refining its
    entities and the [UiText] and [UiTransform] storages refining the
    model's. *)
Definition sim (w : World K) (ren : gmap Entity SEntity) (sw : SpecsWorld) : Prop :=
  world_wf w /\ refines ren (w_entities w) (w_next w) (sw_alloc sw) /\
  storage_refines ren (sw_alloc sw) (sw_ui_texts sw) (w_ui_texts w) /\
  storage_refines ren (sw_alloc sw) (sw_ui_transforms sw) (w_ui_transforms w).

End SpecsWorld.

Arguments WorldOp K : clear implicits.
Arguments SpecsWorld K : clear implicits.

(** ** Lemmas *)

Lemma is_alive_gens (a a' : Allocator) (e : SEntity) :
  generations a !! s_id e = generations a' !! s_id e -> is_alive a e = is_alive a' e.
Proof. unfold is_alive. by intros ->. Qed.

Lemma is_alive_true (a : Allocator) (e : SEntity) :
  is_alive a e = true <-> generations a !! s_id e = Some (s_gen e) /\ (0 < s_gen e)%Z.
Proof.
  unfold is_alive. destruct (generations a !! s_id e) as [g|]; [|naive_solver].
  rewrite andb_true_iff, !bool_decide_eq_true. naive_solver.
Qed.

Lemma is_alive_dead (a : Allocator) (e : SEntity) g :
  generations a !! s_id e = Some g -> (g < 0)%Z -> is_alive a e = false.
Proof. unfold is_alive. intros -> Hg. rewrite bool_decide_eq_false_2; [done|lia]. Qed.

Section Refinement.
Implicit Types (ren : gmap Entity SEntity) (alive : gset Entity) (a : Allocator).

Lemma refines_fresh ren alive next a :
  refines ren alive next a -> ren !! next = None /\ next ∉ alive.
Proof.
  intros R. split.
  - destruct (ren !! next) eqn:E; [|done].
    pose proof (proj2 (ref_created _ _ _ _ R next) (mk_is_Some _ _ E)). lia.
  - intros Hin. pose proof (ref_alive_below _ _ _ _ R next Hin) as H. cbn beta in H. lia.
Qed.

(** What [allocate] hands out: a positive generation at an index that is
    either new or freed (its generation dead), raised above it. *)
Lemma allocate_facts ren alive next a e a' :
  refines ren alive next a -> allocate a = (e, a') ->
  generations a' = <[s_id e := s_gen e]> (generations a) /\ (0 < s_gen e)%Z /\
  (forall h, generations a !! s_id e = Some h -> (h < 0)%Z /\ s_gen e = (1 - h)%Z) /\
  (s_id e < max_id a')%N /\ (max_id a <= max_id a')%N /\
  (cache a = s_id e :: cache a' \/ (cache a' = [] /\ generations a !! s_id e = None)).
Proof.
  intros R. unfold allocate. destruct (cache a) as [|i c] eqn:Hc.
  - destruct (generations a !! max_id a) as [h|] eqn:Hg.
    { pose proof (ref_max _ _ _ _ R (max_id a) (mk_is_Some _ _ Hg)). lia. }
    intros [= <- <-]; cbn [s_id s_gen generations cache max_id]. split; [done|]. split; [lia|]. split; [intros ? ?; congruence|].
    split; [lia|]. split; [lia|by right].
  - assert (Hi : i ∈ cache a) by (rewrite Hc; left).
    destruct (ref_cache_dead _ _ _ _ R i Hi) as (h & Hh & Hneg). rewrite Hh.
    intros [= <- <-]; cbn [s_id s_gen generations cache max_id]. split; [done|]. split; [lia|]. split; [rewrite Hh; intros ? [= <-]; lia|].
    split; [apply (ref_max _ _ _ _ R i); by rewrite Hh|]. split; [lia|by left].
Qed.

(** An earlier handle at the index [allocate] hands out has a smaller
    generation, and is dead. *)
Lemma allocate_older ren alive next a e a' :
  refines ren alive next a -> allocate a = (e, a') -> forall y ey,
  ren !! y = Some ey -> s_id ey = s_id e -> (s_gen ey < s_gen e)%Z /\ y ∉ alive.
Proof.
  intros R Ha y ey Hy Hid.
  destruct (allocate_facts _ _ _ _ _ _ R Ha) as (_ & _ & Hold & _ & _ & Hcase).
  destruct (ref_gen _ _ _ _ R y ey Hy) as (Hpos & g & Hg & Hle). rewrite Hid in Hg.
  destruct (Hold g Hg) as [Hneg Hgen]. split; [lia|].
  intros Hin. pose proof (ref_is_alive _ _ _ _ R y ey Hy) as Hal.
  rewrite bool_decide_true in Hal by done. rewrite (is_alive_dead a ey g) in Hal; [done| |done].
  by rewrite Hid.
Qed.

(** [World::create_entity] in both models: the model's new entity [next]
    is renamed to the handle [allocate] returns. *)
Lemma allocate_refines ren alive next a e a' :
  refines ren alive next a -> allocate a = (e, a') ->
  refines (<[next := e]> ren) ({[next]} ∪ alive) (N.succ next) a'.
Proof.
  intros R Ha. destruct (refines_fresh _ _ _ _ R) as [Hrn Hna].
  destruct (allocate_facts _ _ _ _ _ _ R Ha) as (Hgen & Hpos & _ & Hidmax & Hmax & Hcache).
  pose proof (allocate_older _ _ _ _ _ _ R Ha) as Holder.
  split.
  - intros x [->%elem_of_singleton|Hx]%elem_of_union; cbn beta; [lia|].
    pose proof (ref_alive_below _ _ _ _ R x Hx) as H. cbn beta in H. lia.
  - intros x. rewrite lookup_insert_is_Some', <- (ref_created _ _ _ _ R x). lia.
  - intros x y ex Hx Hy. apply lookup_insert_Some in Hx, Hy.
    destruct Hx as [[<- <-]|[Hxn Hx]], Hy as [[<- Hy]|[Hyn Hy]];
      [done| | |exact (ref_inj _ _ _ _ R x y ex Hx Hy)].
    + subst. destruct (Holder y _ Hy eq_refl). lia.
    + subst. destruct (Holder x _ Hx eq_refl). lia.
  - intros x ex Hx. apply lookup_insert_Some in Hx as [[<- <-]|[Hxn Hx]].
    + rewrite bool_decide_true by set_solver. apply is_alive_true. rewrite Hgen, lookup_insert_eq. split; [done|lia].
    + rewrite (bool_decide_ext _ (x ∈ alive)) by set_solver.
      destruct (decide (s_id ex = s_id e)) as [Heq|Hne].
      * destruct (Holder x ex Hx Heq) as [Hlt Hnin]. rewrite bool_decide_false by done.
        destruct (is_alive a' ex) eqn:E; [|done]. apply is_alive_true in E as [E _].
        rewrite Hgen, Heq, lookup_insert_eq in E. injection E. lia.
      * rewrite (is_alive_gens a' a) by (rewrite Hgen, lookup_insert_ne; [done|congruence]).
        exact (ref_is_alive _ _ _ _ R x ex Hx).
  - intros x ex Hx. apply lookup_insert_Some in Hx as [[<- <-]|[Hxn Hx]].
    + split; [done|]. exists (s_gen e). rewrite Hgen, lookup_insert_eq. split; [done|lia].
    + destruct (ref_gen _ _ _ _ R x ex Hx) as (Hp & g & Hg & Hle). split; [done|].
      destruct (decide (s_id ex = s_id e)) as [Heq|Hne].
      * exists (s_gen e). rewrite Hgen, Heq, lookup_insert_eq. split; [done|].
        destruct (Holder x ex Hx Heq). lia.
      * exists g. rewrite Hgen, lookup_insert_ne by congruence. done.
  - intros i g Hg Hpos'. rewrite Hgen in Hg. apply lookup_insert_Some in Hg as [[<- <-]|[Hne Hg]].
    + exists next. split; [set_solver|]. rewrite lookup_insert_eq. by destruct e.
    + destruct (ref_live _ _ _ _ R i g Hg Hpos') as (x & Hx & Hrx). exists x. split; [set_solver|].
      rewrite lookup_insert_ne; [done|]. intros ->. exact (Hna Hx).
  - intros i Hi. destruct Hcache as [Hc|[Hc _]]; [|rewrite Hc in Hi; by apply not_elem_of_nil in Hi].
    pose proof (ref_cache_nodup _ _ _ _ R) as Hnd. rewrite Hc in Hnd. apply NoDup_cons in Hnd as [Hnotin _].
    destruct (ref_cache_dead _ _ _ _ R i) as (g & Hg & Hneg); [rewrite Hc; apply elem_of_cons; by right|].
    exists g. rewrite Hgen, lookup_insert_ne; [done|]. intros Heq. subst i. exact (Hnotin Hi).
  - destruct Hcache as [Hc|[Hc _]]; [|rewrite Hc; constructor].
    pose proof (ref_cache_nodup _ _ _ _ R) as Hnd. rewrite Hc in Hnd. by apply NoDup_cons in Hnd as [_ ?].
  - intros i [g Hg]. rewrite Hgen in Hg. apply lookup_insert_Some in Hg as [[<- _]|[_ Hg]]; [done|].
    pose proof (ref_max _ _ _ _ R i (mk_is_Some _ _ Hg)). lia.
Qed.

(** [World::delete_entity] of a live entity in both models: [kill]
    succeeds and the relation holds of the smaller live set. *)
Lemma kill_refines ren alive next a x ex :
  refines ren alive next a -> ren !! x = Some ex -> x ∈ alive ->
  exists a', kill a ex = Some a' /\ refines ren (alive ∖ {[x]}) next a'.
Proof.
  intros R Hx Hin. pose proof (ref_is_alive _ _ _ _ R x ex Hx) as Hal.
  rewrite bool_decide_true in Hal by done. pose proof Hal as [Hg Hpos]%is_alive_true.
  unfold kill. rewrite Hal. eexists; split; [reflexivity|].
  split; cbn [generations cache max_id].
  - intros y Hy. apply (ref_alive_below _ _ _ _ R). set_solver.
  - exact (ref_created _ _ _ _ R).
  - exact (ref_inj _ _ _ _ R).
  - intros y ey Hy. destruct (decide (s_id ey = s_id ex)) as [Heq|Hne].
    + rewrite (is_alive_dead _ ey (- s_gen ex)); [|by rewrite Heq; apply lookup_insert_eq|lia].
      symmetry. apply bool_decide_false. intros [Hy' Hny]%elem_of_difference.
      pose proof (ref_is_alive _ _ _ _ R y ey Hy) as Ha'. rewrite bool_decide_true in Ha' by done.
      apply is_alive_true in Ha' as [Hg' _]. rewrite Heq, Hg in Hg'. injection Hg' as Hgen'.
      assert (ey = ex) as -> by (destruct ey, ex; simpl in *; congruence).
      apply Hny, elem_of_singleton. exact (ref_inj _ _ _ _ R y x ex Hy Hx).
    + rewrite (is_alive_gens _ a) by (cbn [generations]; rewrite lookup_insert_ne; [done|congruence]).
      rewrite (ref_is_alive _ _ _ _ R y ey Hy). apply bool_decide_ext.
      assert (y <> x) by (intros ->; rewrite Hx in Hy; injection Hy as ->; done). set_solver.
  - intros y ey Hy. destruct (ref_gen _ _ _ _ R y ey Hy) as (Hp & g & Hg' & Hle). split; [done|].
    destruct (decide (s_id ey = s_id ex)) as [Heq|Hne].
    + exists (- s_gen ex)%Z. rewrite Heq, lookup_insert_eq. split; [done|].
      rewrite Heq, Hg in Hg'. injection Hg' as <-. rewrite Z.abs_opp. done.
    + exists g. rewrite lookup_insert_ne by congruence. done.
  - intros i g Hg' Hpos'. apply lookup_insert_Some in Hg' as [[<- <-]|[Hne Hg']]; [lia|].
    destruct (ref_live _ _ _ _ R i g Hg' Hpos') as (y & Hy & Hry). exists y. split; [|done].
    apply elem_of_difference; split; [done|]. intros ->%elem_of_singleton.
    rewrite Hx in Hry. injection Hry as ->. done.
  - intros i [->|Hi]%elem_of_cons.
    + exists (- s_gen ex)%Z. rewrite lookup_insert_eq. split; [done|lia].
    + destruct (ref_cache_dead _ _ _ _ R i Hi) as (g & Hg' & Hneg). exists g.
      rewrite lookup_insert_ne; [done|]. intros Heq. rewrite <- Heq, Hg in Hg'. injection Hg'. lia.
  - constructor; [|exact (ref_cache_nodup _ _ _ _ R)]. intros Hi.
    destruct (ref_cache_dead _ _ _ _ R _ Hi) as (g & Hg' & Hneg). rewrite Hg in Hg'. injection Hg' as <-. lia.
  - intros i [g Hg']. apply (ref_max _ _ _ _ R).
    apply lookup_insert_Some in Hg' as [[<- _]|[_ Hg']]; by eexists.
Qed.

(** [World::delete_entity] through the handle of a dead entity is
    [Err(WrongGeneration)] and changes nothing. *)
Lemma kill_dead ren alive next a x ex :
  refines ren alive next a -> ren !! x = Some ex -> x ∉ alive -> kill a ex = None.
Proof. intros R Hx Hn. unfold kill. by rewrite (ref_is_alive _ _ _ _ R x ex Hx), bool_decide_false. Qed.

Lemma refines_default : refines ∅ ∅ 0%N allocator_default.
Proof.
  unfold allocator_default. split; cbn [generations cache max_id].
  - apply set_Forall_empty.
  - intros x. rewrite lookup_empty. split; [lia|by intros []].
  - intros x y ex Hx. by rewrite lookup_empty in Hx.
  - intros x ex Hx. by rewrite lookup_empty in Hx.
  - intros x ex Hx. by rewrite lookup_empty in Hx.
  - intros i g Hg. by rewrite lookup_empty in Hg.
  - intros i Hi. by apply not_elem_of_nil in Hi.
  - constructor.
  - intros i [g Hg]. by rewrite lookup_empty in Hg.
Qed.

End Refinement.

(** ** Storages read and written through handles *)

Section Storages.
Context {K : Type} `{RealField K} `{FixedDisplay K}.
Implicit Types (ren : gmap Entity SEntity) (alive : gset Entity) (a : Allocator).

(** Two live handles at one index are the same entity. *)
Lemma alive_same_index a e1 e2 :
  is_alive a e1 = true -> is_alive a e2 = true -> s_id e1 = s_id e2 -> e1 = e2.
Proof.
  intros [H1 _]%is_alive_true [H2 _]%is_alive_true Hid. rewrite Hid, H2 in H1.
  injection H1. destruct e1, e2; simpl in *. congruence.
Qed.

Lemma storage_get_refines {V} ren alive next a (cs : gmap N V) s x ex :
  refines ren alive next a -> storage_refines ren a cs s -> dom s ⊆ alive ->
  ren !! x = Some ex -> storage_get a cs ex = s !! x.
Proof.
  intros R [_ S2] Hdom Hx. unfold storage_get. destruct (is_alive a ex) eqn:Hal; [exact (S2 x ex Hx Hal)|].
  rewrite (ref_is_alive _ _ _ _ R x ex Hx) in Hal. apply bool_decide_eq_false in Hal.
  symmetry. apply not_elem_of_dom. set_solver.
Qed.

Lemma storage_refines_create {V} ren alive next a (cs : gmap N V) s e a' :
  refines ren alive next a -> storage_refines ren a cs s -> dom s ⊆ alive ->
  allocate a = (e, a') -> storage_refines (<[next := e]> ren) a' cs s.
Proof.
  intros R [S1 S2] Hdom Ha. destruct (refines_fresh _ _ _ _ R) as [_ Hna].
  destruct (allocate_facts _ _ _ _ _ _ R Ha) as (Hgen & _ & Hold & _).
  split.
  - intros i v Hi. destruct (S1 i v Hi) as (g & Hg & Hgp). exists g.
    rewrite Hgen, lookup_insert_ne; [done|]. intros Heq. subst i. destruct (Hold g Hg). lia.
  - intros x ex Hx Hal. apply lookup_insert_Some in Hx as [[<- <-]|[Hxn Hx]].
    + rewrite (proj1 (not_elem_of_dom s next)) by set_solver.
      destruct (cs !! s_id e) as [v|] eqn:Hv; [|done].
      destruct (S1 _ v Hv) as (g & Hg & Hgp). destruct (Hold g Hg). lia.
    + destruct (decide (s_id ex = s_id e)) as [Heq|Hne].
      * destruct (allocate_older _ _ _ _ _ _ R Ha x ex Hx Heq) as [Hlt _].
        apply is_alive_true in Hal as [Hg _]. rewrite Hgen, Heq, lookup_insert_eq in Hg.
        injection Hg. lia.
      * apply S2; [done|]. rewrite (is_alive_gens a a'); [done|].
        rewrite Hgen, lookup_insert_ne; [done|congruence].
Qed.

Lemma storage_refines_kill {V} ren alive next a (cs : gmap N V) s x ex a' :
  refines ren alive next a -> storage_refines ren a cs s -> ren !! x = Some ex ->
  kill a ex = Some a' -> storage_refines ren a' (delete (s_id ex) cs) (delete x s).
Proof.
  intros R [S1 S2] Hx Hk. unfold kill in Hk. destruct (is_alive a ex) eqn:Hal; [|done].
  injection Hk as <-. pose proof Hal as [Hg Hpos]%is_alive_true. split.
  - intros i v [Hne Hi]%lookup_delete_Some. destruct (S1 i v Hi) as (g & Hg' & Hgp).
    exists g. cbn [generations]. rewrite lookup_insert_ne; done.
  - intros y ey Hy Hal'. destruct (decide (s_id ey = s_id ex)) as [Heq|Hne].
    + apply is_alive_true in Hal' as [Hg' Hp']. cbn [generations] in Hg'.
      rewrite Heq, lookup_insert_eq in Hg'. injection Hg'. lia.
    + assert (y <> x) by (intros ->; rewrite Hx in Hy; injection Hy as ->; done).
      rewrite !lookup_delete_ne by congruence. apply S2; [done|].
      rewrite <- Hal'. apply is_alive_gens. cbn [generations]. rewrite lookup_insert_ne; [done|congruence].
Qed.

Lemma storage_refines_insert {V} ren alive next a (cs : gmap N V) s x ex v :
  refines ren alive next a -> storage_refines ren a cs s -> ren !! x = Some ex ->
  is_alive a ex = true -> storage_refines ren a (<[s_id ex := v]> cs) (<[x := v]> s).
Proof.
  intros R [S1 S2] Hx Hal. pose proof Hal as [Hg Hpos]%is_alive_true. split.
  - intros i v' Hi. apply lookup_insert_Some in Hi as [[<- _]|[_ Hi]]; [by exists (s_gen ex)|].
    exact (S1 i v' Hi).
  - intros y ey Hy Hal'. destruct (decide (y = x)) as [->|Hyx].
    + rewrite Hx in Hy. injection Hy as <-. by rewrite !lookup_insert_eq.
    + assert (s_id ey <> s_id ex).
      { intros Heq. apply Hyx. rewrite (alive_same_index a ey ex Hal' Hal Heq) in Hy.
        exact (ref_inj _ _ _ _ R y x ex Hy Hx). }
      rewrite !lookup_insert_ne by congruence. exact (S2 y ey Hy Hal').
Qed.

(** The refresh through specs' handle writes what the model's refresh
    writes: a live handle reads and writes the model's text, a stale one
    reads nothing, whatever entity now holds its index. *)
Lemma refresh_specs_refines ren alive next a (cs : gmap N (UiText K)) s x f fps :
  refines ren alive next a -> storage_refines ren a cs s -> dom s ⊆ alive ->
  storage_refines ren a (refresh_fps_text_specs a (ren !! x) f fps cs) (refresh_fps_text (Some x) f fps s).
Proof.
  intros R S Hdom. unfold refresh_fps_text_specs, refresh_fps_text.
  destruct (ren !! x) as [ex|] eqn:Hx.
  - rewrite (storage_get_refines _ _ _ _ _ _ _ _ R S Hdom Hx).
    destruct (s !! x) as [d|] eqn:Hd; [|done]. destruct (refresh_due f); [|done].
    apply (storage_refines_insert _ _ _ _ _ _ _ _ _ R S Hx).
    rewrite (ref_is_alive _ _ _ _ R x ex Hx). apply bool_decide_eq_true. apply Hdom, elem_of_dom. by exists d.
  - destruct (s !! x) eqn:Hd; [|done]. exfalso.
    assert (x ∈ alive) as Hin by (apply Hdom, elem_of_dom; by eexists).
    pose proof (ref_alive_below _ _ _ _ R x Hin) as Hlt. cbn beta in Hlt.
    destruct (proj1 (ref_created _ _ _ _ R x) Hlt) as [? Hs]. congruence.
Qed.

End Storages.

(** ** Every operation keeps the simulation *)

Section Simulation.
Context {K : Type} `{RealField K} `{FixedDisplay K}.

(** Deleting a dead entity changes neither world. *)
Lemma sim_delete_dead (w : World K) ren sw x :
  sim w ren sw -> x ∉ w_entities w -> sim (delete_entity w x) ren sw.
Proof.
  intros (Hwf & R & S & T) Hx. pose proof (delete_entity_wf w x Hwf) as Hwf'.
  assert (He : w_entities w ∖ {[x]} = w_entities w) by set_solver.
  destruct Hwf as (_ & _ & _ & Hd & Hd' & _).
  assert (Ht : w_ui_texts w !! x = None) by (apply not_elem_of_dom; set_solver).
  assert (Ht' : w_ui_transforms w !! x = None) by (apply not_elem_of_dom; set_solver).
  split; [done|]. cbn [delete_entity w_entities w_next w_ui_texts w_ui_transforms].
  rewrite He, (delete_id _ _ Ht), (delete_id _ _ Ht'). by split.
Qed.

Lemma specs_op_sim (w : World K) ren sw op :
  sim w ren sw ->
  let '(ren', sw') := specs_op ren (w_next w) sw op in sim (model_op w op) ren' sw'.
Proof.
  intros Hs. pose proof Hs as (Hwf & R & S & T). pose proof Hwf as (_ & _ & _ & Hdom & Hdom' & _).
  destruct op as [|x|x t d|x f fps]; cbn [specs_op model_op].
  - destruct (allocate (sw_alloc sw)) as [e a'] eqn:Ha.
    split; [by apply create_entity_wf|].
    cbn [create_entity fst snd w_entities w_next w_ui_texts w_ui_transforms sw_alloc sw_ui_texts sw_ui_transforms].
    split_and!; [exact (allocate_refines _ _ _ _ _ _ R Ha)
                |exact (storage_refines_create _ _ _ _ _ _ _ _ R S Hdom Ha)
                |exact (storage_refines_create _ _ _ _ _ _ _ _ R T Hdom' Ha)].
  - destruct (ren !! x) as [ex|] eqn:Hx.
    + destruct (decide (x ∈ w_entities w)) as [Hin|Hn].
      * destruct (kill_refines _ _ _ _ _ _ R Hx Hin) as (a' & Hk & R'). rewrite Hk.
        split_and!; [by apply delete_entity_wf|exact R'
                    |exact (storage_refines_kill _ _ _ _ _ _ _ _ _ R S Hx Hk)
                    |exact (storage_refines_kill _ _ _ _ _ _ _ _ _ R T Hx Hk)].
      * rewrite (kill_dead _ _ _ _ _ _ R Hx Hn). by apply sim_delete_dead.
    + apply sim_delete_dead; [done|]. intros Hin.
      pose proof (ref_alive_below _ _ _ _ R x Hin) as Hlt. cbn beta in Hlt.
      destruct (proj1 (ref_created _ _ _ _ R x) Hlt). congruence.
  - unfold attach_ui. destruct (ren !! x) as [ex|] eqn:Hx.
    + rewrite (ref_is_alive _ _ _ _ R x ex Hx). case_decide as Hin.
      * rewrite bool_decide_true by done.
        assert (Hal : is_alive (sw_alloc sw) ex = true).
        { rewrite (ref_is_alive _ _ _ _ R x ex Hx). by apply bool_decide_eq_true. }
        split_and!.
        -- pose proof (attach_ui_wf w x t d Hwf) as Hw'. unfold attach_ui in Hw'. by rewrite decide_True in Hw'.
        -- exact R.
        -- exact (storage_refines_insert _ _ _ _ _ _ _ _ _ R S Hx Hal).
        -- exact (storage_refines_insert _ _ _ _ _ _ _ _ _ R T Hx Hal).
      * by rewrite bool_decide_false.
    + case_decide as Hin; [|done]. exfalso.
      pose proof (ref_alive_below _ _ _ _ R x Hin) as Hlt. cbn beta in Hlt.
      destruct (proj1 (ref_created _ _ _ _ R x) Hlt). congruence.
  - split_and!.
    + unfold world_wf in *. cbn [set_ui_texts w_entities w_next w_cameras w_transforms w_ui_texts
        w_ui_transforms w_scenes w_meshes w_materials w_transparent]. by rewrite dom_refresh_fps_text.
    + exact R.
    + exact (refresh_specs_refines _ _ _ _ _ _ x f fps R S Hdom).
    + exact T.
Qed.

Lemma run_ops_sim (w : World K) ren sw ops :
  sim w ren sw -> let '(w', ren', sw') := run_ops w ren sw ops in sim w' ren' sw'.
Proof.
  revert w ren sw. induction ops as [|op ops IH]; intros w ren sw Hs; [exact Hs|].
  cbn [run_ops]. pose proof (specs_op_sim w ren sw op Hs) as Hs'.
  destruct (specs_op ren (w_next w) sw op) as [ren' sw']. exact (IH _ _ _ Hs').
Qed.

Lemma sim_empty (t : Time K) (fps : FPSCounter K) (demo : DemoState K) :
  sim (empty_world t fps demo) ∅ (mk_specs_world allocator_default ∅ ∅).
Proof.
  split_and!; [apply empty_world_wf|exact refines_default| |];
    (split; [intros i v Hi; cbn [sw_ui_texts sw_ui_transforms] in Hi; by rewrite lookup_empty in Hi|]);
    intros x ex Hx; by rewrite lookup_empty in Hx.
Qed.

End Simulation.

(** ** Properties *)

Section Properties.
Context {K : Type} `{RealField K} `{FixedDisplay K}.

(** (C29) specs' generational entities implement the model's
    never-reused ones: after any sequence of the program's entity
    operations from an empty world (creations, deletions, UI prefabs
    inserted, FPS refreshes through a cached entity), every entity the
    model has created has a specs handle no other model entity shares;
    the handle is alive exactly when the model's entity is; and the
    [UiText] specs reads through it is the model's.  A handle kept after
    its entity died therefore reads and writes nothing, even once its
    index carries a newer entity. *)
Theorem specs_entities_refine (ops : list (WorldOp K)) (t : Time K) (fps : FPSCounter K)
    (demo : DemoState K) :
  let '(w, ren, sw) := run_ops (empty_world t fps demo) ∅ (mk_specs_world allocator_default ∅ ∅) ops in
  forall x, (x < w_next w)%N -> exists ex, ren !! x = Some ex /\
    is_alive (sw_alloc sw) ex = bool_decide (x ∈ w_entities w) /\
    storage_get (sw_alloc sw) (sw_ui_texts sw) ex = w_ui_texts w !! x /\
    (forall y, ren !! y = Some ex -> y = x).
Proof.
  pose proof (run_ops_sim _ _ _ ops (sim_empty t fps demo)) as Hs.
  destruct (run_ops _ _ _ ops) as [[w ren] sw]. destruct Hs as (Hwf & R & S & _).
  intros x Hx. destruct (proj1 (ref_created _ _ _ _ R x) Hx) as [ex Hex]. exists ex.
  split; [done|]. split; [exact (ref_is_alive _ _ _ _ R x ex Hex)|]. split.
  - destruct Hwf as (_ & _ & _ & Hdom & _). exact (storage_get_refines _ _ _ _ _ _ _ _ R S Hdom Hex).
  - intros y Hy. exact (ref_inj _ _ _ _ R y x ex Hy Hex).
Qed.

End Properties.

(** ** The program's own entities *)

Section Examples.
#[local] Open Scope string_scope.
#[local] Existing Instance libm_small_angle.

(** [Loading::on_start] creates the entities of the two UI prefabs (0 and
    1), the loader instantiates them, [Loading::update] deletes the loading
    screen (1), and [Example::on_start] creates the scene and the plane. *)
Definition program_ops : list (WorldOp f32) :=
  [OpCreate; OpCreate;
   OpAttachUi 0%N (mk_ui_transform "fps_text") (mk_ui_text "" (f32_of_Z 12) false);
   OpAttachUi 1%N (mk_ui_transform "loading") (mk_ui_text "" (f32_of_Z 12) false);
   OpDelete 1%N; OpCreate; OpCreate].

(** The scene entity takes the loading screen's index 1, at generation 2;
    the loading screen's handle [(1, 1)] is dead, and reads no text. *)
Example program_reuses_index :
  let '(w, ren, sw) := run_ops (empty_world (mk_time f32_zero 0%Z) (mk_fps_counter f32_zero)
                                  (mk_demo_state f32_zero)) ∅
                                (mk_specs_world allocator_default ∅ ∅) program_ops in
  ren !! 1%N = Some (mk_sentity 1 1) /\ ren !! 2%N = Some (mk_sentity 1 2) /\
  ren !! 3%N = Some (mk_sentity 2 1) /\
  is_alive (sw_alloc sw) (mk_sentity 1 1) = false /\
  storage_get (sw_alloc sw) (sw_ui_texts sw) (mk_sentity 1 1) = None.
Proof. vm_compute. repeat split. Qed.

End Examples.
