(* ===== verification/SpecsSystem.v ===== *)
(** * [ExampleSystem]'s FPS entity through specs' handles

    [ExampleSystem] caches the [Entity] [UiFinder::find("fps_text")]
    returns and later writes the label through [ui_text.get_mut] on it.
    In specs the finder is the join [(&*entities, &ui_transforms).join()]
    scanned in ascending index order, yielding each live index with its
    current generation ([specs_ui_find]); the cache holds that handle
    ([resolve_fps_display_specs]); the write goes through the generation
    check ([refresh_fps_text_specs] of [Entities]).

    Under the simulation [sim] of [Entities], when at most one live entity
    carries the id "fps_text" (as in this program), the handle specs finds
    is the model's entity's, the cache of the specs run is the model's
    cache renamed, and the label write through it is the model's write: the
    FPS part of [ExampleSystem::run] in specs refines the model's. *)

From stdpp Require Import base gmap sets strings.
From Stdlib Require Import ZArith String.
From S2P Require Import Prelude F32 Nalgebra RustFormat Ecs ExampleSystem Entities.

(** One step of the join: the index is alive and its [UiTransform] has
    the id; the join yields the entity at the index's current generation. *)
Definition specs_ui_match (a : Allocator) (ts : gmap N UiTransform) (id : string) (i : N) :
    option SEntity :=
  match generations a !! i, ts !! i with
  | Some g, Some t =>
      if bool_decide (0 < g)%Z && bool_decide (ui_id t = id) then Some (mk_sentity i g) else None
  | _, _ => None
  end.

(** The join scan of [n] indices from [i], stopping at the first match
    ([Iterator::find]). *)
Fixpoint specs_join_find (a : Allocator) (ts : gmap N UiTransform) (id : string) (i : N) (n : nat) :
    option SEntity :=
  match n with
  | O => None
  | S n' =>
      match specs_ui_match a ts id i with
      | Some e => Some e
      | None => specs_join_find a ts id (N.succ i) n'
      end
  end.

(** [UiFinder::find(id)] in specs: every used index is below [max_id]. *)
Definition specs_ui_find (a : Allocator) (ts : gmap N UiTransform) (id : string) : option SEntity :=
  specs_join_find a ts id 0%N (N.to_nat (max_id a)).

(** [if let None = self.fps_display { if let Some(fps_entity) =
    finder.find("fps_text") { self.fps_display = Some(fps_entity); } }]
    with specs' finder and an [Entity] handle in the cache. *)
Definition resolve_fps_display_specs (cached : option SEntity) (a : Allocator)
    (ts : gmap N UiTransform) : option SEntity :=
  match cached with
  | None =>
      match specs_ui_find a ts "fps_text" with
      | Some fps_entity => Some fps_entity
      | None => None
      end
  | Some e => Some e
  end.

(** At most one live entity of the model carries the UI id. *)
Definition ui_id_unique {K} (w : World K) (id : string) : Prop :=
  map_Forall (fun x tx => ui_id tx = id -> x ∈ w_entities w ->
    map_Forall (fun y ty => ui_id ty = id -> y ∈ w_entities w -> x = y) (w_ui_transforms w))
    (w_ui_transforms w).

#[export] Instance ui_id_unique_dec {K} (w : World K) id : Decision (ui_id_unique w id).
Proof. unfold ui_id_unique. apply _. Defined.

(** ** Lemmas *)

Lemma specs_ui_match_Some a ts id j e :
  specs_ui_match a ts id j = Some e ->
  exists g t, e = mk_sentity j g /\ generations a !! j = Some g /\ (0 < g)%Z /\
    ts !! j = Some t /\ ui_id t = id.
Proof.
  unfold specs_ui_match. destruct (generations a !! j) as [g|], (ts !! j) as [t|]; try done.
  destruct (bool_decide _ && bool_decide _) eqn:Hb; [|done]. intros [= <-].
  apply andb_true_iff in Hb as [Hg Ht]. apply bool_decide_eq_true in Hg, Ht. eauto 10.
Qed.

Lemma specs_join_find_Some a ts id i n e :
  specs_join_find a ts id i n = Some e -> specs_ui_match a ts id (s_id e) = Some e.
Proof.
  revert i. induction n as [|n IH]; intros i; cbn [specs_join_find]; [done|].
  destruct (specs_ui_match a ts id i) as [e'|] eqn:Hm; [|apply IH].
  intros [= <-]. destruct (specs_ui_match_Some _ _ _ _ _ Hm) as (g & t & -> & _). exact Hm.
Qed.

Lemma specs_join_find_None a ts id i n :
  specs_join_find a ts id i n = None ->
  forall j, (i <= j < i + N.of_nat n)%N -> specs_ui_match a ts id j = None.
Proof.
  revert i. induction n as [|n IH]; intros i; cbn [specs_join_find]; [lia|].
  destruct (specs_ui_match a ts id i) eqn:Hm; [done|]. intros Hn j Hj.
  destruct (N.eq_dec j i) as [->|Hne]; [done|]. apply (IH _ Hn). lia.
Qed.

Section Finder.
Context {K : Type}.
Implicit Types (w : World K) (ren : gmap Entity SEntity) (a : Allocator).

(** A handle the join yields is the handle of a live model entity with
    the id. *)
Lemma specs_match_model ren alive next a ts (s : gmap Entity UiTransform) id j e :
  refines ren alive next a -> storage_refines ren a ts s ->
  specs_ui_match a ts id j = Some e ->
  exists x t, x ∈ alive /\ ren !! x = Some e /\ s !! x = Some t /\ ui_id t = id.
Proof.
  intros R [_ S2] Hm. destruct (specs_ui_match_Some _ _ _ _ _ Hm) as (g & t & -> & Hg & Hpos & Ht & Hid).
  destruct (ref_live _ _ _ _ R j g Hg Hpos) as (x & Hx & Hrx). exists x, t.
  split; [done|]. split; [done|]. split; [|done].
  rewrite <- (S2 x _ Hrx); [done|]. by apply is_alive_true.
Qed.

(** The handle of a live model entity with the id matches at its index. *)
Lemma model_match_specs ren alive next a ts (s : gmap Entity UiTransform) id x ex t :
  refines ren alive next a -> storage_refines ren a ts s ->
  x ∈ alive -> ren !! x = Some ex -> s !! x = Some t -> ui_id t = id ->
  specs_ui_match a ts id (s_id ex) = Some ex /\ (s_id ex < max_id a)%N.
Proof.
  intros R [_ S2] Hx Hex Ht Hid.
  assert (Hal : is_alive a ex = true) by (rewrite (ref_is_alive _ _ _ _ R x ex Hex); by apply bool_decide_eq_true).
  pose proof Hal as [Hg Hpos]%is_alive_true. split.
  - unfold specs_ui_match. rewrite Hg, (S2 x ex Hex Hal), Ht.
    rewrite bool_decide_true by done. rewrite bool_decide_true by done. by destruct ex.
  - apply (ref_max _ _ _ _ R). by rewrite Hg.
Qed.

(** With at most one live entity carrying the id, specs' finder returns
    the handle of the entity the model's finder returns. *)
Lemma specs_ui_find_refines w ren a ts id :
  world_wf w -> refines ren (w_entities w) (w_next w) a -> storage_refines ren a ts (w_ui_transforms w) ->
  ui_id_unique w id -> specs_ui_find a ts id = ui_find w id ≫= (fun x => ren !! x).
Proof.
  intros Hwf R S Hu. unfold specs_ui_find.
  destruct (ui_find w id) as [x|] eqn:Hf; cbn [mbind option_bind].
  - destruct (ui_find_Some w id x Hf) as (Hx & (t & Ht & Hid) & _).
    pose proof (ref_alive_below _ _ _ _ R x Hx) as Hlt. cbn beta in Hlt.
    destruct (proj1 (ref_created _ _ _ _ R x) Hlt) as [ex Hex]. rewrite Hex.
    destruct (model_match_specs _ _ _ _ _ _ _ _ _ _ R S Hx Hex Ht Hid) as [Hm Hmax].
    destruct (specs_join_find _ _ _ _ _) as [e|] eqn:Hj.
    + destruct (specs_match_model _ _ _ _ _ _ _ _ _ R S (specs_join_find_Some _ _ _ _ _ _ Hj))
        as (y & ty & Hy & Hry & Hty & Hidy).
      assert (y = x) as -> by exact (map_Forall_lookup_1 _ _ _ _ (Hu) Hty Hidy Hy x t Ht Hid Hx).
      congruence.
    + rewrite (specs_join_find_None _ _ _ _ _ Hj (s_id ex)) in Hm; [done|lia].
  - destruct (specs_join_find _ _ _ _ _) as [e|] eqn:Hj; [|done].
    destruct (specs_match_model _ _ _ _ _ _ _ _ _ R S (specs_join_find_Some _ _ _ _ _ _ Hj))
      as (y & ty & Hy & Hry & Hty & Hidy).
    exfalso. exact (proj1 (ui_find_None w id) Hf y ty Hy Hty Hidy).
Qed.

End Finder.

(** ** Properties *)

Section Properties.
Context {K : Type} `{RealField K} `{FixedDisplay K}.

(** (C19) The FPS part of [ExampleSystem::run] in specs refines the
    model's: in a specs world simulating the model's, with at most one
    live entity carrying the id "fps_text" and a cache holding an entity
    the model has created, the handle the specs run caches (asking specs'
    join-based [UiFinder::find] when the cache is empty) is the model's
    cached entity renamed, and the label written through that handle's
    [get_mut] is, index for index, the model's label write. *)
Theorem specs_fps_cache_refine (w : World K) ren (sw : SpecsWorld K) (cached : option Entity) f fps :
  sim w ren sw -> ui_id_unique w "fps_text" ->
  (forall x, cached = Some x -> (x < w_next w)%N) ->
  let fd := resolve_fps_display cached w in
  let fd' := resolve_fps_display_specs (cached ≫= (fun x => ren !! x)) (sw_alloc sw) (sw_ui_transforms sw) in
  fd' = fd ≫= (fun x => ren !! x) /\
  storage_refines ren (sw_alloc sw) (refresh_fps_text_specs (sw_alloc sw) fd' f fps (sw_ui_texts sw))
    (refresh_fps_text fd f fps (w_ui_texts w)).
Proof.
  intros (Hwf & R & S & T) Hu Hc fd fd'. pose proof Hwf as (_ & _ & _ & Hdom & _).
  assert (Hfd : fd' = fd ≫= (fun x => ren !! x)).
  { subst fd fd'. destruct cached as [x|]; cbn [resolve_fps_display resolve_fps_display_specs mbind option_bind].
    - destruct (proj1 (ref_created _ _ _ _ R x) (Hc x eq_refl)) as [ex Hex]. rewrite Hex. reflexivity.
    - pose proof (specs_ui_find_refines w ren _ _ "fps_text" Hwf R T Hu) as Hf. rewrite Hf.
      destruct (ui_find w "fps_text"); cbn [mbind option_bind]; [destruct (ren !! _)|]; reflexivity. }
  split; [exact Hfd|]. rewrite Hfd.
  destruct fd as [x|]; cbn [mbind option_bind]; [exact (refresh_specs_refines _ _ _ _ _ _ x f fps R S Hdom)|].
  exact S.
Qed.

End Properties.

(** ** At the program's entities *)

Section Examples.
#[local] Existing Instance libm_small_angle.

(** After the program's entity operations ([program_ops]: the two UI
    prefabs, the loading screen deleted, the scene and the plane created
    on its freed index), the first run of the system caches the handle
    [(0, 1)] of the FPS text in specs and writes the label through it. *)
Lemma specs_fps_cache_refine_witness :
  let '(w, ren, sw) := run_ops (empty_world (mk_time f32_zero 0%Z) (mk_fps_counter f32_zero)
                                  (mk_demo_state f32_zero)) ∅
                                (mk_specs_world allocator_default ∅ ∅) program_ops in
  resolve_fps_display_specs None (sw_alloc sw) (sw_ui_transforms sw) =
    resolve_fps_display None w ≫= (fun x => ren !! x) /\
  storage_refines ren (sw_alloc sw)
    (refresh_fps_text_specs (sw_alloc sw) (resolve_fps_display_specs None (sw_alloc sw) (sw_ui_transforms sw))
       0%Z (f32_of_Z 60) (sw_ui_texts sw))
    (refresh_fps_text (resolve_fps_display None w) 0%Z (f32_of_Z 60) (w_ui_texts w)).
Proof.
  pose proof (run_ops_sim _ _ _ program_ops (sim_empty (mk_time f32_zero 0%Z) (mk_fps_counter f32_zero)
                                               (mk_demo_state f32_zero))) as Hs.
  destruct (run_ops _ _ _ program_ops) as [[w ren] sw] eqn:E.
  vm_compute in E. injection E as <- <- <-.
  apply (specs_fps_cache_refine _ _ _ None 0%Z (f32_of_Z 60) Hs).
  - apply (bool_decide_unpack _). vm_compute. reflexivity.
  - intros x Hx. discriminate.
Defined.

End Examples.
