(* ===== verification/CameraOrbit.v ===== *)
(** * The camera orbit, over the real numbers

    [ExampleSystem::run] at the scalar [R] with exact [sin] and [cos] (the
    instance of [Rotation]): the semantics the [f32] code approximates.  Each
    frame left-multiplies every camera's isometry by a rotation of
    [0.1 * delta_seconds] about the z axis, so over consecutive frames a
    camera turns about the z axis by a tenth of the elapsed time, in lock
    step with [DemoState.camera_angle]; its position turns with it (the
    camera orbits the axis at a constant height and distance) and its scale
    stays; every rotation stays a unit quaternion, the invariant of
    nalgebra's [UnitQuaternion].  The text display is irrelevant here: the
    theorems hold for every [FixedDisplay R]. *)

From stdpp Require Import base gmap.
From Stdlib Require Import ZArith QArith Reals Qreals Lra String.
From S2P Require Import Prelude Nalgebra Rotation Ecs RustFormat ExampleSystem.

#[local] Open Scope R_scope.

Section Orbit.
Context `{FixedDisplay R}.

(** The time the frames measured. *)
Definition elapsed (ins : list (@FrameInput R)) : R := fold_right Rplus 0 (map fi_delta ins).

(** One frame's update of one camera's transform: [delta_rot] of the
    frame's duration, then [*transform.isometry_mut() = delta_rot *
    transform.isometry()]. *)
Definition camera_frame (dt : R) (t : Transform R) : Transform R := rotate_transform (delta_rot dt) t.

Lemma camera_angular_velocity_R : (camera_angular_velocity : R) = / 10.
Proof. unfold camera_angular_velocity; simpl. unfold Q2R; simpl. field. Qed.

Lemma delta_rot_R (dt : R) : delta_rot dt = zquat_R (dt / 10).
Proof.
  unfold delta_rot. rewrite from_axis_angle_R. f_equal.
  change (camera_angular_velocity * dt = dt / 10). rewrite camera_angular_velocity_R. field.
Qed.

Lemma zquat_R_0_transform (t : Transform R) : rotate_transform (zquat_R 0) t = t.
Proof.
  destruct t as [[[x y z] [[qi qj qk qw]]] sc].
  unfold rotate_transform, set_isometry, rot_mul_iso. rewrite rotate_zquat_R. cbn.
  unfold zquat_R, zquat, unit_mul, quat_mul, quat_new, planar_rotate; cbn.
  replace (0 / 2) with 0 by field. rewrite cos_0, sin_0. f_equal; f_equal; [f_equal|f_equal; f_equal]; ring.
Qed.

Lemma rotate_transform_R_compose (a b : R) (t : Transform R) :
  rotate_transform (zquat_R a) (rotate_transform (zquat_R b) t) = rotate_transform (zquat_R (a + b)) t.
Proof.
  unfold rotate_transform, set_isometry; cbn. f_equal.
  rewrite <- zquat_R_mul. unfold zquat_R.
  apply rot_mul_iso_zquat_compose; apply half_unit.
Qed.

(** (C7) One frame's update of a camera transform, for a frame of [dt]
    seconds: the position turns by [dt / 10] about the z axis (keeping its
    height and its distance to the axis), the orientation is pre-multiplied
    by the rotation of that angle, the scale stays.  The position is not
    left untouched. *)
Theorem rotate_transform_R (dt : R) (t : Transform R) :
  let t' := camera_frame dt t in
  translation (iso t') = planar_rotate (cos (dt / 10)) (sin (dt / 10)) (translation (iso t)) /\
  vz (translation (iso t')) = vz (translation (iso t)) /\
  planar_norm2 (translation (iso t')) = planar_norm2 (translation (iso t)) /\
  rotation (iso t') = unit_mul (zquat_R (dt / 10)) (rotation (iso t)) /\
  scale t' = scale t.
Proof.
  unfold camera_frame. rewrite delta_rot_R. set (theta := dt / 10).
  unfold rotate_transform, set_isometry, rot_mul_iso; cbn [iso translation rotation scale].
  rewrite rotate_zquat_R. split; [done|]. split; [done|]. split; [|done].
  destruct (zrot_half theta) as [Hc Hs]. rewrite <- Hc, <- Hs.
  apply planar_rotate_norm, half_unit.
Qed.

(** (C3) Over consecutive frames each camera turns about the z axis by
    a tenth of the elapsed time (in radians), its position with it; every
    other transform stays as it was. *)
Theorem frames_camera_orbit (self : ExampleSystem) (w : World R) (ins : list (@FrameInput R))
    (e : Entity) (t : Transform R) :
  w_transforms w !! e = Some t ->
  w_transforms (frames self w ins).2 !! e =
  Some (if decide (e ∈ w_cameras w) then rotate_transform (zquat_R (elapsed ins / 10)) t else t).
Proof.
  revert self w t. induction ins as [|i ins IH]; intros self w t Ht; cbn [frames].
  - cbn [snd]. rewrite Ht. destruct (decide _); [|done]. unfold elapsed; simpl.
    replace (0 / 10) with 0 by field. by rewrite zquat_R_0_transform.
  - pose proof (frame_parts self w i) as Hp. destruct (frame self w i) as [self' w'].
    destruct Hp as (_ & _ & Htr & _ & _ & Hcam & _).
    assert (Ht' : w_transforms w' !! e =
      Some (if decide (e ∈ w_cameras w) then rotate_transform (delta_rot (fi_delta i)) t else t)).
    { rewrite Htr, lookup_update_cameras, Ht. simpl. by destruct (decide _). }
    rewrite (IH self' w' _ Ht'), Hcam. destruct (decide _); [|done].
    rewrite delta_rot_R, rotate_transform_R_compose. do 3 f_equal.
    unfold elapsed; simpl. field.
Qed.

(** (C8) [DemoState.camera_angle] advances by the same tenth of the
    elapsed time: over the reals, the accumulator and the rotation applied to
    the cameras stay in lock step. *)
Theorem frames_camera_angle (self : ExampleSystem) (w : World R) (ins : list (@FrameInput R)) :
  camera_angle (w_demo (frames self w ins).2) = camera_angle (w_demo w) + elapsed ins / 10.
Proof.
  revert self w. induction ins as [|i ins IH]; intros self w; cbn [frames].
  - unfold elapsed; simpl. field.
  - pose proof (frame_parts self w i) as Hp. destruct (frame self w i) as [self' w'].
    destruct Hp as (_ & _ & _ & _ & _ & _ & _ & Ha). rewrite IH, Ha.
    unfold advance_angle; cbn [camera_angle].
    change (camera_angle (w_demo w) + camera_angular_velocity * fi_delta i + elapsed ins / 10 =
            camera_angle (w_demo w) + elapsed (i :: ins) / 10).
    rewrite camera_angular_velocity_R. unfold elapsed; simpl. field.
Qed.

(** From the identity transform, one frame of 10 seconds
    rotates the camera by exactly 1 radian about z; the position (the origin)
    and the unit scale stay. *)
Theorem identity_ten_seconds :
  camera_frame 10 transform_default =
  mk_transform (mk_iso (vec3 0 0 0) (zquat_R 1)) (vec3 1 1 1).
Proof.
  unfold camera_frame. rewrite delta_rot_R. replace (10 / 10) with 1 by field.
  unfold rotate_transform, set_isometry, rot_mul_iso, transform_default, iso_identity; cbn.
  rewrite rotate_zquat_R, unit_mul_identity_r. unfold planar_rotate; cbn.
  f_equal. f_equal. f_equal; ring.
Qed.

(** A camera at [(1, 0, 0)] after a frame of [5 pi]
    seconds stands at [(0, 1, 0)]: the update moves the position. *)
Theorem camera_position_moves :
  translation (iso (camera_frame (5 * PI) (set_xyz transform_default 1 0 0))) =
  vec3 0 1 0.
Proof.
  unfold camera_frame. rewrite delta_rot_R. replace (5 * PI / 10) with (PI / 2) by field.
  unfold rotate_transform, set_isometry, rot_mul_iso; cbn [iso translation].
  rewrite rotate_zquat_R. unfold planar_rotate, set_xyz, vector3_new; cbn.
  rewrite cos_PI2, sin_PI2. f_equal; ring.
Qed.

(** nalgebra's [UnitQuaternion] promises a quaternion of norm 1; every
    transform of the store keeps that promise. *)
Definition unit_rotations (ts : gmap Entity (Transform R)) : Prop :=
  map_Forall (fun _ t => quat_norm2 (quaternion (rotation (iso t))) = 1) ts.

(** The invariant of the type [UnitQuaternion] holds through the
    frames: the code builds each camera's new orientation with
    [UnitQuaternion]'s product, which does not renormalize, and over the
    reals the product of the per-frame rotation (of norm 1) with a unit
    orientation is a unit again. *)
Theorem frames_unit_rotations (self : ExampleSystem) (w : World R) (ins : list (@FrameInput R)) :
  unit_rotations (w_transforms w) -> unit_rotations (w_transforms (frames self w ins).2).
Proof.
  revert self w. induction ins as [|i ins IH]; intros self w Hu; cbn [frames]; [done|].
  pose proof (frame_parts self w i) as Hp. destruct (frame self w i) as [self' w'].
  destruct Hp as (_ & _ & Htr & _). apply IH. rewrite Htr.
  intros e t'. rewrite lookup_update_cameras. intros (t & Ht & ->)%fmap_Some.
  specialize (Hu e t Ht). cbn beta in Hu |- *.
  destruct (decide _); [|exact Hu]. cbn [rotate_transform set_isometry rot_mul_iso iso rotation].
  unfold rotate_transform, set_isometry, rot_mul_iso, unit_mul; cbn [iso rotation quaternion].
  rewrite quat_norm2_mul, Hu, delta_rot_R. unfold zquat_R. rewrite zquat_norm, half_unit.
  simpl. ring.
Qed.

End Orbit.

(** ** Examples *)

(** The theorems hold for every [Display]; the examples print nothing. *)
Definition no_display : FixedDisplay R := fun _ _ => EmptyString.

(** A world with one camera, entity 0, at the identity transform. *)
Definition one_camera_world : World R :=
  mk_world {[0%N]} 1%N {[0%N]} {[0%N := transform_default]} ∅ ∅ ∅ ∅ ∅ ∅
    (mk_time 0 0%Z) (mk_fps_counter 0) (mk_demo_state 0).

Lemma frames_camera_orbit_witness :
  w_transforms (@frames R _ no_display example_system_default one_camera_world
                  [mk_frame_input 1 60; mk_frame_input 2 60]).2 !! 0%N =
  Some (if decide (0%N ∈ w_cameras one_camera_world)
        then rotate_transform (zquat_R (elapsed [mk_frame_input 1 60; mk_frame_input 2 60] / 10))
               transform_default
        else transform_default).
Proof. apply (@frames_camera_orbit no_display). reflexivity. Defined.

Lemma frames_unit_rotations_witness :
  unit_rotations (w_transforms (@frames R _ no_display example_system_default one_camera_world
                                  [mk_frame_input 1 60; mk_frame_input 2 60]).2).
Proof.
  apply (@frames_unit_rotations no_display).
  apply map_Forall_singleton. cbn. unfold sq; simpl. ring.
Defined.
