(* ===== verification/SystemF32.v ===== *)
(** * [ExampleSystem] at [f32]: the angle accumulator and the label schedule

    The system at the code's scalar, IEEE-754 binary32 with rounding to
    nearest even, whatever the platform's [sin_cos].

    The angle accumulator:

    [state.camera_angle += camera_angular_velocity * time.delta_seconds()]
    at the code's scalar, IEEE-754 binary32 with rounding to nearest even.
    The literal [0.1] is the float nearest to a tenth, [13421773 * 2^-27];
    each frame rounds the product and then the sum.  So the angle does not
    grow by exactly [0.1 * t]; a ten-second frame happens to give exactly
    [1.0]; sixty frames a second for ten seconds give [1 - 15 * 2^-24]; and
    from [32768.0] rad on (about 91 hours of running at 60 frames a second)
    a frame's increment is below half a unit in the last place, so the angle
    stops growing.  The angle is only written, never read, by the code: the
    cameras turn by the per-frame increment, not by the accumulator.

    The schedule of the label: starting at frame 0 it is rewritten on
    frames 0, 20 and 40 and on no frame between. *)

From stdpp Require Import base gmap.
From Stdlib Require Import ZArith QArith List String SpecFloat.
From S2P Require Import Prelude F32 Nalgebra RustFormat Ecs ExampleSystem.

Section AngleF32.
Context `{LibmSinCos}.

(** A frame of [dt] seconds as the engine measures it, with an FPS sample. *)
Definition f32_frame (dt : f32) : @FrameInput f32 := mk_frame_input dt (f32_of_Z 60).

Definition one_sixtieth : f32 := f32_of_Q (1 # 60).

Lemma camera_angular_velocity_f32 : (camera_angular_velocity : f32) = S754_finite false 13421773 (-27).
Proof. vm_compute. reflexivity. Qed.

Lemma camera_angle_default : camera_angle (@demo_state_default f32 _) = f32_zero.
Proof. reflexivity. Qed.

(** The angle after [n] frames of the same duration, from [a]. *)
Lemma frames_repeat_angle (self : ExampleSystem) (w : World f32) (dt : f32) (n : nat) :
  camera_angle (w_demo (frames self w (repeat (f32_frame dt) n)).2) =
  Nat.iter n (fun a => f32_add a (f32_mul camera_angular_velocity dt)) (camera_angle (w_demo w)).
Proof.
  rewrite frames_camera_angle_fold. generalize (camera_angle (w_demo w)) as a.
  induction n as [|n IH]; intros a; [done|]. cbn [repeat fold_left]. rewrite IH.
  clear IH. revert a. induction n as [|n IH]; intros a; [done|]. simpl. by rewrite IH.
Qed.

(** From the default angle, one frame of one second leaves
    [camera_angle] at [13421773 * 2^-27], which is not a tenth: in [f32] the
    accumulator does not grow by exactly [0.1 * t]. *)
Theorem f32_one_second_not_a_tenth (self : ExampleSystem) (w : World f32) :
  w_demo w = demo_state_default ->
  f32_toQ (camera_angle (w_demo (frames self w [f32_frame (f32_of_Z 1)]).2)) =
    Some (13421773 # 134217728) /\
  ~ (13421773 # 134217728 == 1 # 10)%Q.
Proof.
  intros Hd. change [f32_frame (f32_of_Z 1)] with (repeat (f32_frame (f32_of_Z 1)) 1).
  rewrite frames_repeat_angle, Hd. split; [vm_compute; reflexivity|].
  intros E. vm_compute in E. discriminate.
Qed.

(** From the default angle, one frame of ten seconds gives an
    angle of exactly [1.0]. *)
Theorem f32_ten_seconds_exact (self : ExampleSystem) (w : World f32) :
  w_demo w = demo_state_default ->
  camera_angle (w_demo (frames self w [f32_frame (f32_of_Z 10)]).2) = f32_of_Z 1.
Proof.
  intros Hd. change [f32_frame (f32_of_Z 10)] with (repeat (f32_frame (f32_of_Z 10)) 1).
  rewrite frames_repeat_angle, Hd. vm_compute. reflexivity.
Qed.

(** Six hundred frames of a sixtieth of a second, ten seconds
    in all, give [16777201 * 2^-24 = 1 - 15 * 2^-24], not [1.0]. *)
Theorem f32_sixty_fps_drift (self : ExampleSystem) (w : World f32) :
  w_demo w = demo_state_default ->
  camera_angle (w_demo (frames self w (repeat (f32_frame one_sixtieth) 600)).2) =
    S754_finite false 16777201 (-24).
Proof. intros Hd. rewrite frames_repeat_angle, Hd. vm_compute. reflexivity. Qed.

(** (C13) Once [camera_angle] reaches [32768.0], frames of a
    sixtieth of a second no longer change it, however many there are. *)
Theorem f32_angle_stalls (self : ExampleSystem) (w : World f32) (n : nat) :
  camera_angle (w_demo w) = f32_of_Z 32768 ->
  camera_angle (w_demo (frames self w (repeat (f32_frame one_sixtieth) n)).2) = f32_of_Z 32768.
Proof.
  intros Ha. rewrite frames_repeat_angle, Ha.
  induction n as [|n IH]; [done|]. rewrite Nat.iter_succ, IH. vm_compute. reflexivity.
Qed.

(** The frames numbered [0 .. n-1], the [k]-th sampling [k] FPS. *)
Definition counting_frames (n : nat) : list (@FrameInput f32) :=
  map (fun k => mk_frame_input one_sixtieth (f32_of_Z (Z.of_nat k))) (seq 0 n).

(** Starting at frame 0, the label is rewritten on frames
    0, 20 and 40 and on no frame between: after frames 0..19 it shows the
    sample of frame 0, after 0..39 that of frame 20, after 0..40 that of
    frame 40. *)
Theorem label_schedule_0_40 :
  label_after 0 (counting_frames 20) "" = "FPS: 0.00"%string /\
  label_after 0 (counting_frames 40) "" = "FPS: 20.00"%string /\
  label_after 0 (counting_frames 41) "" = "FPS: 40.00"%string.
Proof. vm_compute. repeat split. Qed.

End AngleF32.

(** ** Examples *)

#[local] Existing Instance libm_small_angle.

Definition default_world : World f32 :=
  empty_world (mk_time f32_zero 0%Z) (mk_fps_counter f32_zero) demo_state_default.

Definition far_world : World f32 :=
  empty_world (mk_time f32_zero 0%Z) (mk_fps_counter f32_zero) (mk_demo_state (f32_of_Z 32768)).

Lemma f32_one_second_not_a_tenth_witness :
  f32_toQ (camera_angle (w_demo (@frames f32 (@f32_real libm_small_angle) _ example_system_default
     default_world [f32_frame (f32_of_Z 1)]).2)) = Some (13421773 # 134217728) /\
  ~ (13421773 # 134217728 == 1 # 10)%Q.
Proof. apply (@f32_one_second_not_a_tenth libm_small_angle). reflexivity. Defined.

Lemma f32_ten_seconds_exact_witness :
  camera_angle (w_demo (@frames f32 (@f32_real libm_small_angle) _ example_system_default
     default_world [f32_frame (f32_of_Z 10)]).2) = f32_of_Z 1.
Proof. apply (@f32_ten_seconds_exact libm_small_angle). reflexivity. Defined.

Lemma f32_sixty_fps_drift_witness :
  camera_angle (w_demo (@frames f32 (@f32_real libm_small_angle) _ example_system_default
     default_world (repeat (f32_frame one_sixtieth) 600)).2) = S754_finite false 16777201 (-24).
Proof. apply (@f32_sixty_fps_drift libm_small_angle). reflexivity. Defined.

Lemma f32_angle_stalls_witness :
  camera_angle (w_demo (@frames f32 (@f32_real libm_small_angle) _ example_system_default
     far_world (repeat (f32_frame one_sixtieth) 1000)).2) = f32_of_Z 32768.
Proof. apply (@f32_angle_stalls libm_small_angle). reflexivity. Defined.
