(* ===== verification/GameStates.v ===== *)
(** * The game states [Loading] and [Example] and the state machine

    [main.rs] lines 33-119.  [Loading::on_start] asks the asset loader for
    the scene prefab and for two UI prefabs, each tracked by the state's
    [ProgressCounter]; [Loading::update] polls the counter: on a failure it
    quits, once everything is loaded it deletes the "loading" UI entity and
    switches to [Example] with the prefab handle, [self.prefab.as_ref()
    .unwrap()] ([loading_complete]); [Example::on_start] spawns the scene
    ([spawn_scene]), loads the plane's mesh and texture
    ([load_plane_assets]), builds its material ([plane_material]) and spawns
    the textured, transparent plane ([spawn_plane]).

    The engine side is modelled as far as these calls need it: the
    [ProgressCounter] (its [complete]), the asset loader as a handle
    allocator with the list of requested paths, and amethyst's
    [StateMachine] (a stack of states; [Trans::None], [Trans::Quit] and
    [Trans::Switch]).  A loader's tracker holds a reference to the counter of
    the [Loading] state: an asset that finishes or fails updates the counter
    of the state on top of the stack.  A panic (the [unwrap] of [None]) is
    the value [None] of [loading_update]. *)

From stdpp Require Import base gmap strings.
From Stdlib Require Import ZArith QArith String List.
From S2P Require Import Prelude F32 Nalgebra RustFormat Ecs ExampleSystem.

#[local] Open Scope nat_scope.

(** ** Engine: asset loading progress *)

(** amethyst_assets' [ProgressCounter]. *)
Record ProgressCounter := mk_progress {
  num_assets : nat; num_finished : nat; num_failed : nat; errors : list string }.

Definition progress_default : ProgressCounter := mk_progress 0 0 0 [].

(** amethyst_assets' [Completion]. *)
Inductive Completion := CompletionFailed | CompletionComplete | CompletionLoading.

(** [ProgressCounter::complete]: failed as soon as one asset failed,
    complete when every tracked asset finished. *)
Definition complete (p : ProgressCounter) : Completion :=
  if Nat.ltb 0 (num_failed p) then CompletionFailed
  else if Nat.eqb (num_finished p) (num_assets p) then CompletionComplete
  else CompletionLoading.

(** A load with [&mut progress] registers one more asset. *)
Definition track (p : ProgressCounter) : ProgressCounter :=
  mk_progress (S (num_assets p)) (num_finished p) (num_failed p) (errors p).

(** The tracker reports success or failure. *)
Definition report_success (p : ProgressCounter) : ProgressCounter :=
  mk_progress (num_assets p) (S (num_finished p)) (num_failed p) (errors p).

Definition report_failure (err : string) (p : ProgressCounter) : ProgressCounter :=
  mk_progress (num_assets p) (num_finished p) (S (num_failed p)) (errors p ++ [err]).

(** The assets still loading. *)
Definition num_loading (p : ProgressCounter) : nat :=
  num_assets p - num_finished p - num_failed p.

(** ** Engine: the loader *)

Record Loader := mk_loader { next_handle : Handle; requested : list (Handle * string) }.

(** [Loader::load(path, ...)]: a fresh handle for the requested path. *)
Definition load (ld : Loader) (path : string) : Handle * Loader :=
  (next_handle ld, mk_loader (N.succ (next_handle ld)) (requested ld ++ [(next_handle ld, path)])).

(** [Loader::load_from_data(data, ...)]: a fresh handle for in-memory data. *)
Definition load_from_data (ld : Loader) : Handle * Loader :=
  (next_handle ld, mk_loader (N.succ (next_handle ld)) (requested ld)).

Section GameStates.
Context {K : Type} `{RealField K}.

(** What a state's [StateData] gives access to: the world and the engine
    resources the states use. *)
Record Env := mk_env { env_world : World K; env_loader : Loader; env_material_defaults : Material }.

Definition env_set_world (env : Env) (w : World K) : Env :=
  mk_env w (env_loader env) (env_material_defaults env).

Definition env_set_loader (env : Env) (ld : Loader) : Env :=
  mk_env (env_world env) ld (env_material_defaults env).

(** ** The states of [main.rs] *)

(** [#[derive(Default)] struct Loading { progress, prefab: Option<Handle<..>> }] *)
Record Loading := mk_loading { progress : ProgressCounter; prefab : option Handle }.

Definition loading_default : Loading := mk_loading progress_default None.

(** [struct Example { scene: Handle<Prefab<MyPrefabData>> }] *)
Record Example := mk_example { scene : Handle }.

Inductive GameState := GLoading (l : Loading) | GExample (e : Example).

(** amethyst's [SimpleTrans], the variants the code returns. *)
Inductive Trans := TransNone | TransQuit | TransSwitch (s : GameState).

(** [UiCreator::create(path, &mut progress)]: an entity holding the handle
    of the UI prefab, loaded with progress tracking. *)
Definition ui_create (path : string) (p : ProgressCounter) (env : Env) : ProgressCounter * Env :=
  let '(_, ld) := load (env_loader env) path in
  let '(_, w) := create_entity (env_world env) in
  (track p, mk_env w ld (env_material_defaults env)).

(** [Loading::on_start] *)
Definition loading_on_start (l : Loading) (env : Env) : Loading * Env :=
  let '(h, ld) := load (env_loader env) "prefab/renderable.ron" in
  let p1 := track (progress l) in
  let '(p2, env2) := ui_create "ui/fps.ron" p1 (env_set_loader env ld) in
  let '(p3, env3) := ui_create "ui/loading.ron" p2 env2 in
  (mk_loading p3 (Some h), env3).

(** The [Completion::Complete] arm of [Loading::update]: the loading
    screen found by [UiFinder::find("loading")] is deleted (the [Result] of
    [delete_entity] is dropped), and the state switches to [Example] with
    the prefab handle; [None] is the panic of [unwrap()]. *)
Definition loading_complete (l : Loading) (env : Env) : option (Trans * Env) :=
  let w := env_world env in
  let w' := match ui_find w "loading" with
            | Some entity => delete_entity w entity
            | None => w
            end in
  match prefab l with
  | Some h => Some (TransSwitch (GExample (mk_example h)), env_set_world env w')
  | None => None
  end.

(** [Loading::update]; [None] is the panic of [unwrap()]. *)
Definition loading_update (l : Loading) (env : Env) : option (Trans * Env) :=
  match complete (progress l) with
  | CompletionFailed => Some (TransQuit, env)
  | CompletionComplete =>
      loading_complete l env
  | CompletionLoading => Some (TransNone, env)
  end.

(** The plane's transform: [Transform::default()], [set_xyz(-5.0, -5.0, 5.0)],
    [set_scale(8.0, 8.0, 8.0)]. *)
Definition plane_transform : Transform K :=
  set_scale (set_xyz transform_default (rconvert (-5 # 1)%Q) (rconvert (-5 # 1)%Q) (rconvert (5 # 1)%Q))
    (rconvert (8 # 1)%Q) (rconvert (8 # 1)%Q) (rconvert (8 # 1)%Q).

(** [world.create_entity().with(self.scene.clone()).build()] *)
Definition spawn_scene (h : Handle) (w : World K) : World K :=
  let '(e, w1) := create_entity w in with_scene w1 e h.

(** The plane's mesh ([load_from_data] of the generated plane) and its
    albedo ([load("texture/logo_transparent.png", PngFormat, ..)]), in this
    order. *)
Definition load_plane_assets (ld : Loader) : Handle * Handle * Loader :=
  let '(mesh, ld1) := load_from_data ld in
  let '(albedo, ld2) := load ld1 "texture/logo_transparent.png" in
  (mesh, albedo, ld2).

(** [Material { albedo, ..mat_defaults.clone() }] *)
Definition plane_material (albedo : Handle) (mat_defaults : Material) : Material :=
  mk_material albedo (material_rest mat_defaults).

(** [world.create_entity().with(transform).with(mesh.clone()).with(mtl)
    .with(Transparent).build()] *)
Definition spawn_plane (mesh : Handle) (mtl : Material) (w : World K) : World K :=
  let '(e, w2) := create_entity w in
  with_transparent (with_material (with_mesh (with_transform w2 e plane_transform) e mesh) e mtl) e.

(** [Example::on_start] *)
Definition example_on_start (ex : Example) (env : Env) : Env :=
  let w1 := spawn_scene (scene ex) (env_world env) in
  let mat_defaults := env_material_defaults env in
  let '(mesh, albedo, ld) := load_plane_assets (env_loader env) in
  let mtl := plane_material albedo mat_defaults in
  mk_env (spawn_plane mesh mtl w1) ld mat_defaults.

(** ** amethyst's [StateMachine] *)

Definition on_start (s : GameState) (env : Env) : GameState * Env :=
  match s with
  | GLoading l => let '(l', env') := loading_on_start l env in (GLoading l', env')
  | GExample e => (GExample e, example_on_start e env)
  end.

(** [State::update]; [Example] keeps the default [Trans::None]. *)
Definition update (s : GameState) (env : Env) : option (Trans * Env) :=
  match s with
  | GLoading l => loading_update l env
  | GExample _ => Some (TransNone, env)
  end.

Record App := mk_app { app_states : list GameState; app_env : Env }.

(** [Application::build(.., Loading::default())] followed by
    [StateMachine::start]. *)
Definition app_start (env : Env) : App :=
  let '(s, env') := on_start (GLoading loading_default) env in mk_app [s] env'.

Definition apply_trans (t : Trans) (rest : list GameState) (s : GameState) (env : Env) : App :=
  match t with
  | TransNone => mk_app (s :: rest) env
  | TransQuit => mk_app [] env
  | TransSwitch s' => let '(s'', env') := on_start s' env in mk_app (s'' :: rest) env'
  end.

(** [StateMachine::update]: [None] is a panic. *)
Definition app_update (a : App) : option App :=
  match app_states a with
  | [] => Some a
  | s :: rest =>
      match update s (app_env a) with
      | Some (t, env') => Some (apply_trans t rest s env')
      | None => None
      end
  end.

(** An asset the top state's counter tracks finishes or fails. *)
Definition report (ok : option string) (a : App) : App :=
  match app_states a with
  | GLoading l :: rest =>
      let p := match ok with None => report_success (progress l) | Some err => report_failure err (progress l) end in
      mk_app (GLoading (mk_loading p (prefab l)) :: rest) (app_env a)
  | _ => a
  end.

(** The application's runs: state-machine updates and loader reports. *)
Inductive app_step : App -> App -> Prop :=
  | step_update a a' : app_update a = Some a' -> app_step a a'
  | step_report a ok : app_step a (report ok a).

Inductive reachable (env0 : Env) : App -> Prop :=
  | reach_start : reachable env0 (app_start env0)
  | reach_step a a' : reachable env0 a -> app_step a a' -> reachable env0 a'.

End GameStates.

Arguments Env K : clear implicits.
Arguments App K : clear implicits.

(** ** Lemmas *)

Section GameStateLemmas.
Context {K : Type} `{RealField K}.
Implicit Types (env : Env K) (a : App K).

(** The requests of a loader only grow. *)
Definition loader_le (ld ld' : Loader) : Prop := exists l, requested ld' = requested ld ++ l.

#[local] Instance loader_le_preorder : PreOrder loader_le.
Proof.
  split; [intros ld; exists []; by rewrite app_nil_r|].
  intros ld1 ld2 ld3 [l1 H1] [l2 H2]. exists (l1 ++ l2). by rewrite H2, H1, app_assoc.
Qed.

Lemma load_le ld path : loader_le ld (load ld path).2.
Proof. by exists [(next_handle ld, path)]. Qed.

Lemma load_from_data_le ld : loader_le ld (load_from_data ld).2.
Proof. exists []. by rewrite app_nil_r. Qed.

Lemma loader_le_elem ld ld' x : loader_le ld ld' -> x ∈ requested ld -> x ∈ requested ld'.
Proof. intros [l ->] Hx. set_solver. Qed.

Lemma with_components_wf (w : World K) e t m mtl :
  world_wf w -> e ∈ w_entities w ->
  world_wf (with_transparent (with_material (with_mesh (with_transform w e t) e m) e mtl) e).
Proof.
  unfold world_wf, with_transparent, with_material, with_mesh, with_transform, set_transforms; simpl.
  rewrite !dom_insert_L. intros (?&?&?&?&?&?&?&?&?) He. repeat split; set_solver.
Qed.

Lemma with_scene_wf (w : World K) e h : world_wf w -> e ∈ w_entities w -> world_wf (with_scene w e h).
Proof.
  unfold world_wf, with_scene; simpl. rewrite dom_insert_L.
  intros (?&?&?&?&?&?&?&?&?) He. repeat split; set_solver.
Qed.

Lemma create_entity_alive (w : World K) : (create_entity w).1 ∈ w_entities (create_entity w).2.
Proof. simpl. set_solver. Qed.

Lemma ui_create_spec path p env :
  let '(p', env') := ui_create path p env in
  p' = track p /\ loader_le (env_loader env) (env_loader env') /\
  (world_wf (env_world env) -> world_wf (env_world env')).
Proof. unfold ui_create; simpl. split; [done|]. split; [apply load_le|]. apply create_entity_wf. Qed.

Lemma loading_on_start_spec l env :
  let '(l', env') := loading_on_start l env in
  prefab l' = Some (next_handle (env_loader env)) /\
  (next_handle (env_loader env), "prefab/renderable.ron"%string) ∈ requested (env_loader env') /\
  num_assets (progress l') = 3 + num_assets (progress l) /\
  num_finished (progress l') = num_finished (progress l) /\
  num_failed (progress l') = num_failed (progress l) /\
  loader_le (env_loader env) (env_loader env') /\
  (world_wf (env_world env) -> world_wf (env_world env')).
Proof.
  unfold loading_on_start. destruct (load (env_loader env) _) as [h ld] eqn:Hl.
  pose proof (load_le (env_loader env) "prefab/renderable.ron") as Hle. rewrite Hl in Hle.
  injection Hl as Hh Hld.
  pose proof (ui_create_spec "ui/fps.ron" (track (progress l)) (env_set_loader env ld)) as H2.
  destruct (ui_create _ _ _) as [p2 env2]. destruct H2 as (-> & Hle2 & Hwf2).
  pose proof (ui_create_spec "ui/loading.ron" (track (track (progress l))) env2) as H3.
  destruct (ui_create _ _ _) as [p3 env3]. destruct H3 as (-> & Hle3 & Hwf3).
  simpl in *. subst h.
  split; [done|]. split.
  { apply (loader_le_elem ld); [by etrans|]. subst ld; simpl. set_solver. }
  split; [done|]. split; [done|]. split; [done|]. split.
  { etrans; [exact Hle|]. by etrans. }
  intros Hw. by apply Hwf3, Hwf2.
Qed.

Lemma example_on_start_spec ex env :
  loader_le (env_loader env) (env_loader (example_on_start ex env)) /\
  (world_wf (env_world env) -> world_wf (env_world (example_on_start ex env))).
Proof.
  unfold example_on_start, spawn_scene, load_plane_assets, plane_material, spawn_plane.
  pose proof (create_entity_wf (env_world env)) as Hc1.
  pose proof (create_entity_alive (env_world env)) as Ha1.
  destruct (create_entity (env_world env)) as [e1 w1]. simpl in Hc1, Ha1.
  pose proof (load_from_data_le (env_loader env)) as L1.
  destruct (load_from_data (env_loader env)) as [mesh ld1].
  pose proof (load_le ld1 "texture/logo_transparent.png") as L2.
  destruct (load ld1 _) as [alb ld2].
  pose proof (create_entity_wf (with_scene w1 e1 (scene ex))) as Hc2.
  pose proof (create_entity_alive (with_scene w1 e1 (scene ex))) as Ha2.
  destruct (create_entity (with_scene w1 e1 (scene ex))) as [e2 w2]. simpl in *.
  split; [by etrans|].
  intros Hw. apply with_components_wf; [|done]. apply Hc2, with_scene_wf; [by apply Hc1 | done].
Qed.

End GameStateLemmas.

(** ** The state machine's invariant *)

Section GameStateInvariant.
Context {K : Type} `{RealField K}.
Implicit Types (env : Env K) (a : App K).

Definition prefab_path : string := "prefab/renderable.ron".

(** A [Loading] on the stack holds the handle of the requested scene prefab
    and tracks the three assets of [on_start]; an [Example] shows the
    requested scene prefab. *)
Definition state_ok (ld : Loader) (s : GameState) : Prop :=
  match s with
  | GLoading l =>
      (exists h, prefab l = Some h /\ (h, prefab_path) ∈ requested ld) /\ num_assets (progress l) = 3
  | GExample ex => (scene ex, prefab_path) ∈ requested ld
  end.

Definition app_inv a : Prop := Forall (state_ok (env_loader (app_env a))) (app_states a).

Lemma state_ok_mono ld ld' s : loader_le ld ld' -> state_ok ld s -> state_ok ld' s.
Proof.
  intros Hle. destruct s as [l|ex]; simpl.
  - intros [(h & Hh & Hin) Hn]. split; [|done]. exists h. split; [done|]. by eapply loader_le_elem.
  - by apply loader_le_elem.
Qed.

Lemma Forall_state_ok_mono ld ld' ss :
  loader_le ld ld' -> Forall (state_ok ld) ss -> Forall (state_ok ld') ss.
Proof. intros Hle. apply Forall_impl. intros s. by apply state_ok_mono. Qed.

Lemma loading_update_loader l env t env' :
  loading_update l env = Some (t, env') -> env_loader env' = env_loader env.
Proof.
  unfold loading_update, loading_complete. destruct (complete _); [by intros [= _ <-]| |by intros [= _ <-]].
  destruct (prefab l); [by intros [= _ <-]|done].
Qed.

Lemma loading_update_target l env t env' :
  state_ok (env_loader env) (GLoading l) -> loading_update l env = Some (t, env') ->
  match t with TransSwitch s' => exists ex, s' = GExample ex /\ state_ok (env_loader env) s' | _ => True end.
Proof.
  intros [(h & Hh & Hin) _]. unfold loading_update, loading_complete. rewrite Hh.
  destruct (complete _); intros [= <- _]; [done| |done]. by exists (mk_example h).
Qed.

Lemma app_inv_start env0 : app_inv (app_start env0).
Proof.
  unfold app_start, on_start. pose proof (loading_on_start_spec loading_default env0) as Hs.
  destruct (loading_on_start _ _) as [l' env']. destruct Hs as (Hp & Hin & Hn & _).
  constructor; [|constructor]. simpl. split; [|by rewrite Hn]. eauto.
Qed.

Lemma app_inv_step a a' : app_step a a' -> app_inv a -> app_inv a'.
Proof.
  unfold app_inv. intros Hstep. destruct Hstep as [a0 a0' Hu | a0 ok]; intros Hinv.
  - unfold app_update in Hu. destruct (app_states a0) as [|s rest] eqn:Hst; [by injection Hu as <-; rewrite Hst|].
    try rewrite Hst in Hinv. inversion Hinv as [|? ? Hs Hrest]; subst.
    destruct (update s (app_env a0)) as [[t env']|] eqn:Hup; [|done]. injection Hu as <-.
    assert (Hld : env_loader env' = env_loader (app_env a0)).
    { destruct s; cbn [update] in Hup; [by eapply loading_update_loader | by injection Hup as _ <-]. }
    assert (Htgt : match t with
                   | TransSwitch s' => exists ex, s' = GExample ex /\ state_ok (env_loader env') s'
                   | _ => True end).
    { rewrite Hld. destruct s as [l|ex]; cbn [update] in Hup; [by eapply loading_update_target|].
      by injection Hup as <- _. }
    destruct t as [| |s']; cbn [apply_trans app_states app_env].
    + constructor; rewrite Hld; done.
    + constructor.
    + destruct Htgt as (ex & -> & Hex). cbn [on_start app_states app_env].
      pose proof (example_on_start_spec ex env') as [Hle _].
      constructor; [by eapply state_ok_mono|].
      apply (Forall_state_ok_mono (env_loader env')); [done | by rewrite Hld].
  - unfold report. destruct (app_states a0) as [|[l|ex] rest] eqn:Hst; try (by rewrite Hst).
    cbn [app_states app_env]. try rewrite Hst in Hinv. inversion Hinv as [|? ? Hs Hrest]; subst.
    destruct Hs as [Hh Hn]. constructor; [|done]. split; [done|]. by destruct ok.
Qed.

Lemma reachable_inv env0 a : reachable env0 a -> app_inv a.
Proof. induction 1; [apply app_inv_start | by eapply app_inv_step]. Qed.

End GameStateInvariant.

(** ** Properties of the game states *)

Section GameStateProps.
Context {K : Type} `{RealField K}.
Implicit Types (env : Env K) (a : App K).

(** (C4) In every run of the application, [Loading::update] never
    reaches the [unwrap()] of an empty [prefab]: [on_start] always fills it
    before the first update. *)
Theorem app_never_panics env0 a : reachable env0 a -> app_update a <> None.
Proof.
  intros Hr%reachable_inv. unfold app_update, app_inv in *.
  destruct (app_states a) as [|s rest]; [done|]. inversion Hr as [|? ? Hs _]; subst.
  destruct s as [l|ex]; cbn [update]; [|done].
  destruct Hs as [[h [Hh _]] _]. unfold loading_update, loading_complete. rewrite Hh.
  by destruct (complete _).
Qed.

(** (C9) A frame of the [Loading] state does one of three things: it
    quits when an asset failed, stays while assets are loading, or, once the
    three tracked assets have all loaded, switches to [Example] showing the
    requested scene prefab. *)
Theorem app_loading_update env0 a a' l rest :
  reachable env0 a -> app_states a = GLoading l :: rest -> app_update a = Some a' ->
  (app_states a' = [] /\ 0 < num_failed (progress l)) \/
  (app_states a' = GLoading l :: rest /\ num_failed (progress l) = 0 /\
     num_finished (progress l) <> 3) \/
  (exists h, prefab l = Some h /\ (h, prefab_path) ∈ requested (env_loader (app_env a)) /\
     app_states a' = GExample (mk_example h) :: rest /\
     num_failed (progress l) = 0 /\ num_finished (progress l) = 3).
Proof.
  intros Hr%reachable_inv Hst Hu. unfold app_inv in Hr. rewrite Hst in Hr.
  inversion Hr as [|? ? Hs _]; subst. destruct Hs as [[h [Hh Hin]] Hn].
  unfold app_update in Hu. rewrite Hst in Hu. cbn [update] in Hu. unfold loading_update, loading_complete, complete in Hu.
  rewrite Hh, Hn in Hu.
  destruct (Nat.ltb_spec 0 (num_failed (progress l))) as [Hf|Hf].
  - injection Hu as <-. left. by split.
  - destruct (Nat.eqb_spec (num_finished (progress l)) 3) as [Hc|Hc].
    + injection Hu as <-. right; right. exists h. repeat split; try done; lia.
    + injection Hu as <-. right; left. repeat split; try done; lia.
Qed.

Lemma on_start_wf s env :
  world_wf (env_world env) -> world_wf (env_world (on_start s env).2).
Proof.
  destruct s as [l|ex]; cbn [on_start].
  - pose proof (loading_on_start_spec l env) as Hs. destruct (loading_on_start l env).
    apply Hs.
  - apply example_on_start_spec.
Qed.

(** Every world the application reaches from a well-formed
    world is well formed: the states add components only to the entities
    they create, and the deletion of the "loading" entity takes its
    components with it. *)
Theorem app_world_wf env0 a :
  world_wf (env_world env0) -> reachable env0 a -> world_wf (env_world (app_env a)).
Proof.
  intros Hw0. induction 1 as [|a a' Hr IH Hs].
  - unfold app_start. pose proof (on_start_wf (GLoading loading_default) env0 Hw0) as Hw.
    destruct (on_start _ _). exact Hw.
  - destruct Hs as [a a' Hu|a ok].
    + unfold app_update in Hu. destruct (app_states a) as [|s rest]; [by injection Hu as <-|].
      destruct (update s (app_env a)) as [[t env']|] eqn:Hup; [|done]. injection Hu as <-.
      assert (Hw' : world_wf (env_world env')).
      { destruct s as [l|ex]; cbn [update] in Hup; [|by injection Hup as _ <-].
        unfold loading_update, loading_complete in Hup. destruct (complete _); [by injection Hup as _ <-| |by injection Hup as _ <-].
        destruct (prefab l); [|done]. injection Hup as _ <-. simpl.
        destruct (ui_find _ _); [by apply delete_entity_wf|done]. }
      destruct t as [| |s']; cbn [apply_trans app_env]; [done|done|].
      pose proof (on_start_wf s' env' Hw') as Hw''. destruct (on_start s' env'). exact Hw''.
    + unfold report. by destruct (app_states a) as [|[l|ex] rest].
Qed.

(** (C14) [Example::on_start] creates two fresh entities: the first
    holds the scene prefab, the second is the plane, with its transform at
    [(-5, -5, 5)] scaled by 8, a mesh, a material whose albedo is the
    requested texture and whose other fields are the defaults, and the
    [Transparent] marker.  No camera is added. *)
Theorem example_on_start_spawns ex env :
  let w := env_world env in
  let env' := example_on_start ex env in
  let w' := env_world env' in
  let e1 := w_next w in
  let e2 := N.succ (w_next w) in
  let tex := N.succ (next_handle (env_loader env)) in
  w_entities w' = {[e2]} ∪ ({[e1]} ∪ w_entities w) /\
  w_scenes w' !! e1 = Some (scene ex) /\
  w_transforms w' !! e2 = Some plane_transform /\
  w_meshes w' !! e2 = Some (next_handle (env_loader env)) /\
  w_materials w' !! e2 = Some (mk_material tex (material_rest (env_material_defaults env))) /\
  (tex, "texture/logo_transparent.png"%string) ∈ requested (env_loader env') /\
  e2 ∈ w_transparent w' /\
  w_cameras w' = w_cameras w.
Proof.
  unfold example_on_start, spawn_scene, load_plane_assets, plane_material, spawn_plane.
  simpl. split; [done|]. split; [by rewrite lookup_insert_eq|].
  split; [by rewrite lookup_insert_eq|]. split; [by rewrite lookup_insert_eq|].
  split; [by rewrite lookup_insert_eq|]. split; set_solver.
Qed.

(** (C15) The plane [Example::on_start] spawns is not a camera, so
    however many frames [ExampleSystem] runs, its transform stays the one
    [on_start] gave it. *)
Theorem plane_never_rotated `{FixedDisplay K} ex env (self : ExampleSystem) ins :
  world_wf (env_world env) ->
  w_transforms (frames self (env_world (example_on_start ex env)) ins).2 !! N.succ (w_next (env_world env)) =
    Some plane_transform.
Proof.
  intros [Hn [Hc _]]. destruct (example_on_start_spawns ex env) as (_ & _ & Ht & _ & _ & _ & _ & Hcam).
  rewrite frames_non_camera; [exact Ht|]. rewrite Hcam. intros Hin.
  specialize (Hn _ (Hc _ Hin)). cbn beta in Hn. lia.
Qed.

End GameStateProps.

(** ** Examples at [f32] *)

Section Examples.
#[local] Existing Instance libm_small_angle.

(** An empty world, a fresh loader and default materials. *)
Definition start_env : Env f32 :=
  mk_env (empty_world (mk_time f32_zero 0%Z) (mk_fps_counter f32_zero) demo_state_default)
    (mk_loader 0%N []) (mk_material 0%N 0%N).

Lemma app_never_panics_witness : app_update (app_start start_env) <> None.
Proof. apply (app_never_panics start_env). constructor. Defined.

Lemma app_loading_update_witness :
  exists a' l, app_update (app_start start_env) = Some a' /\
  app_states (app_start start_env) = [GLoading l] /\
  ((app_states a' = [] /\ 0 < num_failed (progress l)) \/
   (app_states a' = GLoading l :: [] /\ num_failed (progress l) = 0 /\ num_finished (progress l) <> 3) \/
   (exists h, prefab l = Some h /\ (h, prefab_path) ∈ requested (env_loader (app_env (app_start start_env))) /\
      app_states a' = GExample (mk_example h) :: [] /\
      num_failed (progress l) = 0 /\ num_finished (progress l) = 3)).
Proof.
  eexists. eexists. split; [reflexivity|]. split; [reflexivity|].
  apply (app_loading_update start_env); [constructor | reflexivity | reflexivity].
Defined.

Lemma app_world_wf_witness : world_wf (env_world (app_env (app_start start_env))).
Proof. apply (app_world_wf start_env); [apply empty_world_wf | constructor]. Defined.

Lemma plane_never_rotated_witness :
  w_transforms (frames example_system_default (env_world (example_on_start (mk_example 0%N) start_env))
                  [mk_frame_input (f32_of_Z 1) (f32_of_Z 60)]).2 !! N.succ (w_next (env_world start_env)) =
  Some plane_transform.
Proof. apply plane_never_rotated. apply empty_world_wf. Defined.

End Examples.
