(* ===== verification/Dispatch.v ===== *)
(** * [main]: the render pipeline and the dispatcher's system table

    [main.rs] lines 121-153.  The pipeline is data: one stage on the back
    buffer, cleared to opaque black, with the shaded pass (transparency on:
    all colour channels, alpha blending, depth test less-or-equal with
    writes) and then the UI pass.

    The dispatcher is built by [GameDataBuilder]: every [with] and every
    bundle registers systems under a name with the names they depend on.
    shred's [DispatcherBuilder::add] panics when a dependency names no
    system registered before, or when a non-empty name is registered twice;
    [builder_add] returns [None] there.  shred never enters the empty name
    in its map of names, so no system can depend on a system added under
    [""] ([registered]).  The bundles are expanded into the
    systems they register that matter to the order of the example's system:
    [TransformBundle] ([parent_hierarchy_system] after the bundle's
    dependencies, then [transform_system]), [FPSCounterBundle]
    ([fps_counter_system], no dependency) and the sprite visibility sorting
    of [RenderBundle] (after [transform_system]).  The systems of the UI,
    hot-reload and input bundles and the processors of the render bundle
    depend on none of the names [main] declares and are not listed.

    A dependency makes the dispatcher run the depended-on system first in
    every frame; [runs_before] is the transitive closure of the declared
    dependencies.  For any registrations, not only [main]'s, the builder
    keeps every dependency registered before the first system of the name
    that declares it ([deps_ordered], by [pos]), so the order it accepts
    never has a cycle. *)

From Stdlib Require Import String List Bool QArith Lia.
From S2P Require Import Prelude.
Import ListNotations.
#[local] Open Scope string_scope.

(** ** The render pipeline *)

Inductive ColorMask := ColorMaskAll.
Inductive Blend := BlendAlpha.
Inductive DepthMode := LessEqualWrite.

Inductive Pass :=
  | DrawShaded (transparency : option (ColorMask * Blend * option DepthMode))
  | DrawUi.

Record Stage := mk_stage { with_backbuffer : bool; clear_target : list Q * Q; passes : list Pass }.

(** [Pipeline::build().with_stage(Stage::with_backbuffer().clear_target([0,0,0,1], 1.0)
    .with_pass(DrawShaded::new().with_transparency(ColorMask::all(), ALPHA,
    Some(DepthMode::LessEqualWrite))).with_pass(DrawUi::new()))] *)
Definition pipe : list Stage :=
  [mk_stage true ([0; 0; 0; 1]%Q, 1%Q)
     [DrawShaded (Some (ColorMaskAll, BlendAlpha, Some LessEqualWrite)); DrawUi]].

(** ** The dispatcher's system table *)

Record SystemReg := mk_reg { sys_name : string; sys_deps : list string }.

(** A name is in shred's map of names: [add] inserts a name only when it
    is not empty, so the empty name is never registered. *)
Definition registered (b : list SystemReg) (n : string) : bool :=
  negb (String.eqb n "") && existsb (fun r => String.eqb (sys_name r) n) b.

(** shred's [DispatcherBuilder::add(system, name, deps)]. *)
Definition builder_add (b : list SystemReg) (name : string) (deps : list string) : option (list SystemReg) :=
  if forallb (registered b) deps then
    if andb (negb (String.eqb name "")) (registered b name) then None
    else Some (b ++ [mk_reg name deps])%list
  else None.

Fixpoint add_all (b : list SystemReg) (regs : list (string * list string)) : option (list SystemReg) :=
  match regs with
  | [] => Some b
  | (n, ds) :: regs' =>
      match builder_add b n ds with
      | Some b' => add_all b' regs'
      | None => None
      end
  end.

(** [TransformBundle::new().with_dep(dep)] *)
Definition transform_bundle (dep : list string) : list (string * list string) :=
  [("parent_hierarchy_system", dep); ("transform_system", ["parent_hierarchy_system"])].

(** [FPSCounterBundle::default()] *)
Definition fps_counter_bundle : list (string * list string) := [("fps_counter_system", [])].

(** [RenderBundle::new(..).with_sprite_visibility_sorting(deps)] *)
Definition render_bundle (sorting_deps : list string) : list (string * list string) :=
  [("sprite_visibility_system", sorting_deps)].

(** The registrations of [main]'s [GameDataBuilder], in order. *)
Definition game_data_regs : list (string * list string) :=
  ([("", []); ("example_system", [])]
  ++ transform_bundle ["example_system"]
  ++ fps_counter_bundle
  ++ render_bundle ["transform_system"])%list.

Definition game_data : option (list SystemReg) := add_all [] game_data_regs.

(** ** Order *)

Definition deps_of (b : list SystemReg) (n : string) : list string :=
  flat_map (fun r => if String.eqb (sys_name r) n then sys_deps r else []) b.

(** [runs_before b x y]: [x] is a declared dependency of [y], directly or
    through other systems. *)
Inductive runs_before (b : list SystemReg) : string -> string -> Prop :=
  | rb_dep x y : In x (deps_of b y) -> runs_before b x y
  | rb_trans x y z : runs_before b x y -> runs_before b y z -> runs_before b x z.

(** ** Lemmas *)

Lemma runs_before_no_deps b x y : deps_of b y = [] -> ~ runs_before b x y.
Proof.
  intros Hy H. induction H as [x y Hin|x y z _ _ _ IH2]; [rewrite Hy in Hin; destruct Hin|]. exact (IH2 Hy).
Qed.

Lemma forallb_false_exists {A} (f : A -> bool) (l : list A) :
  forallb f l = false -> exists x, In x l /\ f x = false.
Proof.
  induction l as [|x l IH]; simpl; [discriminate|].
  destruct (f x) eqn:Hx; simpl; [intros H; destruct (IH H) as (y & Hy & Hf); eauto | eauto].
Qed.

(** The system table [main] builds, in registration order. *)
Definition game_data_table : list SystemReg :=
  [mk_reg "" []; mk_reg "example_system" [];
   mk_reg "parent_hierarchy_system" ["example_system"];
   mk_reg "transform_system" ["parent_hierarchy_system"];
   mk_reg "fps_counter_system" [];
   mk_reg "sprite_visibility_system" ["transform_system"]].

Lemma game_data_value : game_data = Some game_data_table.
Proof. reflexivity. Qed.

(** shred's [DispatcherBuilder::add] panics exactly when one of
    the dependencies names no system registered before, or when the name is
    not empty and already registered; otherwise it appends the system with
    its dependencies. *)
Lemma builder_add_error (b : list SystemReg) (name : string) (deps : list string) :
  (builder_add b name deps = None <->
   (exists d, In d deps /\ registered b d = false) \/ (name <> "" /\ registered b name = true)) /\
  (forall b', builder_add b name deps = Some b' -> b' = (b ++ [mk_reg name deps])%list).
Proof.
  unfold builder_add. destruct (forallb (registered b) deps) eqn:Hf.
  - destruct (negb (String.eqb name "") && registered b name) eqn:Hn.
    + apply andb_prop in Hn as [Hne Hr]. apply negb_true_iff, String.eqb_neq in Hne.
      split; [|discriminate]. split; [intros _; right; auto | reflexivity].
    + split; [|intros b' Hb; injection Hb as <-; reflexivity].
      split; [discriminate|]. intros [(d & Hd & Hr)|(Hne & Hr)].
      * rewrite forallb_forall in Hf. rewrite (Hf d Hd) in Hr. discriminate.
      * apply String.eqb_neq in Hne. rewrite Hne, Hr in Hn. discriminate.
  - split; [|discriminate]. split; [intros _; left; apply forallb_false_exists, Hf | reflexivity].
Qed.

(** ** Order of any table the builder produces *)

(** The index of the first system registered under [n] ([length b] when
    there is none): the position from which [n] can be depended on. *)
Fixpoint pos (b : list SystemReg) (n : string) : nat :=
  match b with
  | [] => 0
  | r :: b' => if String.eqb (sys_name r) n then 0 else S (pos b' n)
  end.

(** Every declared dependency is a registered system, registered before
    the first system of the name that declares it (systems under [""],
    which nothing can name, apart). *)
Definition deps_ordered (b : list SystemReg) : Prop :=
  forall y x, In x (deps_of b y) ->
  registered b x = true /\ (y = "" \/ (pos b x < pos b y)%nat).

Lemma named_pos_lt b n : existsb (fun r => String.eqb (sys_name r) n) b = true -> (pos b n < length b)%nat.
Proof.
  induction b as [|r b IH]; simpl; [discriminate|].
  destruct (String.eqb (sys_name r) n); simpl; [lia|]. intros H. specialize (IH H). lia.
Qed.

Lemma named_pos_app b l n :
  existsb (fun r => String.eqb (sys_name r) n) b = true -> pos (b ++ l) n = pos b n.
Proof.
  induction b as [|r b IH]; simpl; [discriminate|].
  destruct (String.eqb (sys_name r) n); simpl; [reflexivity|]. intros H. rewrite (IH H). reflexivity.
Qed.

Lemma unnamed_pos_app b l n :
  existsb (fun r => String.eqb (sys_name r) n) b = false -> pos (b ++ l) n = (length b + pos l n)%nat.
Proof.
  induction b as [|r b IH]; simpl; [reflexivity|].
  destruct (String.eqb (sys_name r) n); simpl; [discriminate|]. intros H. rewrite (IH H). reflexivity.
Qed.

Lemma deps_of_named b y x : In x (deps_of b y) -> existsb (fun r => String.eqb (sys_name r) y) b = true.
Proof.
  induction b as [|r b IH]; simpl; [contradiction|].
  destruct (String.eqb (sys_name r) y); simpl; [reflexivity|]. exact IH.
Qed.

Lemma deps_of_app b l y : deps_of (b ++ l) y = (deps_of b y ++ deps_of l y)%list.
Proof. unfold deps_of. apply flat_map_app. Qed.

Lemma registered_app b l n : registered b n = true -> registered (b ++ l) n = true.
Proof.
  unfold registered. rewrite existsb_app. intros H. apply andb_prop in H as [-> ->]. reflexivity.
Qed.

Lemma registered_nonempty b n : registered b n = true -> n <> "" /\ existsb (fun r => String.eqb (sys_name r) n) b = true.
Proof.
  unfold registered. intros H. apply andb_prop in H as [Hn He].
  apply negb_true_iff, String.eqb_neq in Hn. auto.
Qed.

Lemma builder_add_ordered b n ds b' :
  deps_ordered b -> builder_add b n ds = Some b' -> deps_ordered b'.
Proof.
  intros Hb Hadd. pose proof (proj2 (builder_add_error b n ds) b' Hadd) as ->.
  unfold builder_add in Hadd.
  destruct (forallb (registered b) ds) eqn:Hds; [|discriminate].
  destruct (negb (String.eqb n "") && registered b n) eqn:Hn; [discriminate|].
  intros y x. rewrite deps_of_app, in_app_iff. intros [Hx|Hx].
  - destruct (Hb y x Hx) as [Hr Hy]. split; [apply registered_app, Hr|].
    destruct (registered_nonempty _ _ Hr) as [_ Hex].
    rewrite (named_pos_app _ _ _ Hex), (named_pos_app _ _ _ (deps_of_named _ _ _ Hx)). exact Hy.
  - simpl in Hx. destruct (String.eqb n y) eqn:Hny; [|destruct Hx].
    apply String.eqb_eq in Hny as <-. rewrite app_nil_r in Hx.
    rewrite forallb_forall in Hds. specialize (Hds x Hx).
    split; [apply registered_app, Hds|].
    destruct (String.eqb n "") eqn:He; [left; apply String.eqb_eq, He|right].
    destruct (registered_nonempty _ _ Hds) as [_ Hex]. rewrite (named_pos_app _ _ _ Hex).
    pose proof (named_pos_lt _ _ Hex).
    unfold registered in Hn. rewrite He in Hn. simpl in Hn.
    rewrite (unnamed_pos_app _ _ _ Hn). lia.
Qed.

Lemma add_all_ordered b regs b' :
  deps_ordered b -> add_all b regs = Some b' -> deps_ordered b'.
Proof.
  revert b. induction regs as [|[n ds] regs IH]; simpl; intros b Hb H.
  - injection H as <-. exact Hb.
  - destruct (builder_add b n ds) as [b1|] eqn:Hadd; [|discriminate].
    exact (IH b1 (builder_add_ordered _ _ _ _ Hb Hadd) H).
Qed.

Lemma runs_before_pos b x y :
  deps_ordered b -> runs_before b x y ->
  registered b x = true /\ (y = "" \/ (pos b x < pos b y)%nat).
Proof.
  intros Hb H. induction H as [x y Hin|x y z _ [Hx Hxy] _ [Hy Hyz]]; [exact (Hb y x Hin)|].
  split; [exact Hx|]. destruct (registered_nonempty _ _ Hy) as [Hy' _].
  destruct Hxy as [|Hxy]; [contradiction|]. destruct Hyz as [|Hyz]; [left; assumption|right; lia].
Qed.

(** ** Properties *)

(** (C18) Building [main]'s dispatcher does not panic, and the table it
    builds names every system once and lists each system after all the
    systems it depends on: the declared order has no cycle. *)
Theorem game_data_builds :
  exists b, game_data = Some b /\ NoDup (map sys_name b) /\
  forall i r, nth_error b i = Some r -> forall d, In d (sys_deps r) ->
  exists j r', (j < i)%nat /\ nth_error b j = Some r' /\ sys_name r' = d.
Proof.
  exists game_data_table. split; [apply game_data_value|]. split.
  - repeat constructor; simpl; intuition discriminate.
  - intros i r Hi d Hd.
    destruct i as [|[|[|[|[|[|i]]]]]]; simpl in Hi; [..|destruct i; discriminate];
      injection Hi as <-; simpl in Hd; try contradiction; destruct Hd as [<-|[]].
    + exists 1%nat, (mk_reg "example_system" []). auto.
    + exists 2%nat, (mk_reg "parent_hierarchy_system" ["example_system"]). auto.
    + exists 3%nat, (mk_reg "transform_system" ["parent_hierarchy_system"]). auto.
Qed.

(** (C16) In every frame the example's system runs before the
    transform system (through the hierarchy system), and the transform
    system before the sprite visibility sorting: the cameras the example
    turns are propagated to their global transforms in the same frame. *)
Theorem example_before_transform (b : list SystemReg) :
  game_data = Some b ->
  runs_before b "example_system" "transform_system" /\
  runs_before b "transform_system" "sprite_visibility_system".
Proof.
  rewrite game_data_value. intros H; injection H as <-. split.
  - apply (rb_trans _ _ "parent_hierarchy_system"); apply rb_dep; simpl; auto.
  - apply rb_dep; simpl; auto.
Qed.

(** (C17) No declared dependency orders the FPS counter's system
    and the example's system, either way: nothing the code declares makes
    the sample the example reads the one of the current frame. *)
Theorem fps_counter_unordered (b : list SystemReg) :
  game_data = Some b ->
  ~ runs_before b "fps_counter_system" "example_system" /\
  ~ runs_before b "example_system" "fps_counter_system".
Proof.
  rewrite game_data_value. intros H; injection H as <-.
  split; apply runs_before_no_deps; reflexivity.
Qed.

(** (C28) Whatever systems a program registers, a dispatcher that
    [DispatcherBuilder::add] builds from empty without panicking has an
    acyclic order: a system [x] that some system [y] waits for is a
    registered system, and [y] never waits for [x] in return, so every
    frame can run the systems in an order that honours every dependency. *)
Theorem builder_order_acyclic (regs : list (string * list string)) (b : list SystemReg) :
  add_all [] regs = Some b ->
  forall x y, runs_before b x y -> registered b x = true /\ ~ runs_before b y x.
Proof.
  intros Hadd x y Hxy.
  assert (Hb : deps_ordered b) by (apply (add_all_ordered [] regs); [intros ? ? []|exact Hadd]).
  destruct (runs_before_pos _ _ _ Hb Hxy) as [Hx _]. split; [exact Hx|]. intros Hyx.
  destruct (runs_before_pos _ _ _ Hb (rb_trans _ _ _ _ Hxy Hyx)) as [_ [->|Hlt]]; [|lia].
  destruct (registered_nonempty _ _ Hx) as [Hne _]. exact (Hne eq_refl).
Qed.

(** ** Examples *)

Lemma example_before_transform_witness :
  runs_before game_data_table "example_system" "transform_system" /\
  runs_before game_data_table "transform_system" "sprite_visibility_system".
Proof. apply example_before_transform. reflexivity. Defined.

Lemma fps_counter_unordered_witness :
  ~ runs_before game_data_table "fps_counter_system" "example_system" /\
  ~ runs_before game_data_table "example_system" "fps_counter_system".
Proof. apply fps_counter_unordered. reflexivity. Defined.

Lemma builder_order_acyclic_witness :
  registered game_data_table "example_system" = true /\
  ~ runs_before game_data_table "transform_system" "example_system".
Proof.
  apply (builder_order_acyclic game_data_regs game_data_table); [reflexivity|].
  apply (rb_trans _ _ "parent_hierarchy_system"); apply rb_dep; simpl; auto.
Defined.
