(* ===== verification/Application.v ===== *)
(** * [main] and the application loop

    [main.rs] lines 121-154 with the engine code they call.  [main] finds the
    application root, derives the asset directory and the display
    configuration's path from it, builds the render pipeline and the
    dispatcher ([GameDataBuilder]: every [with] registers a system, every
    [with_bundle(..)?] the systems of a bundle or the bundle's error), builds
    the [Application] with the initial state [Loading::default()] and runs it.
    Each [?] is [let?] of the [Outcome] monad of [Prelude]; shred's panics
    are [Panicked].

    [game.run()] is amethyst's [Application::run]: [initialize] starts the
    state machine ([Loading::on_start]), then while the state machine is
    running, [advance_frame]: the loaders deliver their reports and the UI
    prefabs they instantiated, the state on top of the stack updates ([SimpleState::update]), the dispatcher runs the
    systems on the world (here: [ExampleSystem] through [frame]), and the
    transition the state returned is applied.  The loop is driven by a list
    of frames: it stops when the state machine stops ([RunStopped], [main]
    then returns [Ok(())]) or when the frames run out ([RunPending]). *)

From stdpp Require Import base gmap strings.
From Stdlib Require Import ZArith QArith Ascii String List.
From S2P Require Import Prelude F32 Nalgebra RustFormat Ecs ExampleSystem GameStates Dispatch.

#[local] Open Scope amethyst_scope.

(** ** Paths *)

(** The last byte of a path. *)
Definition last_char (s : string) : option Ascii.ascii := String.get (String.length s - 1) s.

(** [PathBuf::push] needs a separator unless the path is empty or already
    ends with one. *)
Definition need_sep (s : string) : bool :=
  match last_char s with
  | Some c => negb (Ascii.eqb c "/"%char)
  | None => false
  end.

(** [Path::join(p)] on Unix: an absolute [p] replaces the path, a relative
    one is appended after a separator. *)
Definition path_join (base p : string) : string :=
  if String.prefix "/" p then p
  else if need_sep base then (base ++ "/" ++ p)%string
  else (base ++ p)%string.

(** ** The dispatcher's builder *)

(** [GameDataBuilder::with(system, name, deps)]: shred's [add] panics on a
    dependency not registered before or on a name registered twice. *)
Definition gdb_with (b : list SystemReg) (name : string) (deps : list string) : Outcome (list SystemReg) :=
  unwrap (builder_add b name deps).

(** The bundles of [main], in the order they are added. *)
Inductive Bundle := BTransform | BUi | BHotReload | BFPSCounter | BRender | BInput.

#[export] Instance bundle_eq_dec : EqDecision Bundle.
Proof. solve_decision. Defined.

Definition bundles : list Bundle := [BTransform; BUi; BHotReload; BFPSCounter; BRender; BInput].

(** The systems a bundle registers that order the example's system (as in
    [Dispatch]); the UI, hot-reload and input bundles register none of
    them. *)
Definition bundle_regs (bd : Bundle) : list (string * list string) :=
  match bd with
  | BTransform => transform_bundle ["example_system"]
  | BFPSCounter => fps_counter_bundle
  | BRender => render_bundle ["transform_system"]
  | BUi | BHotReload | BInput => []
  end.

(** [.with_bundle(bundle)?]: [SystemBundle::build] returns the bundle's
    error, given by the environment, or registers its systems. *)
Definition gdb_with_bundle (berr : Bundle -> option string) (bd : Bundle) (b : list SystemReg)
    : Outcome (list SystemReg) :=
  match berr bd with
  | Some e => Failed e
  | None => unwrap (add_all b (bundle_regs bd))
  end.

(** [GameDataBuilder::default().with(..).with(..).with_bundle(..)? ...] *)
Definition main_game_data (berr : Bundle -> option string) : Outcome (list SystemReg) :=
  let? b := gdb_with [] "" [] in
  let? b := gdb_with b "example_system" [] in
  let? b := gdb_with_bundle berr BTransform b in
  let? b := gdb_with_bundle berr BUi b in
  let? b := gdb_with_bundle berr BHotReload b in
  let? b := gdb_with_bundle berr BFPSCounter b in
  let? b := gdb_with_bundle berr BRender b in
  gdb_with_bundle berr BInput b.

(** The first error of a list of bundles, in order. *)
Fixpoint first_error (berr : Bundle -> option string) (bs : list Bundle) : option string :=
  match bs with
  | [] => None
  | bd :: bs' => match berr bd with Some e => Some e | None => first_error berr bs' end
  end.

Section Game.
Context {K : Type} `{RealField K} `{FixedDisplay K}.

(** ** The running game *)

(** The application while it runs: the state machine with the world, and
    the dispatcher's [ExampleSystem]. *)
Record Game := mk_game { game_app : App K; game_system : ExampleSystem }.

(** What a frame brings: the reports the asset loaders deliver (success, or
    failure with its message), the UI prefabs instantiated on their entities
    ([UiTransform] and [UiText] from the prefab file) and the frame's time
    and FPS sample. *)
Record FrameEvents := mk_frame_events {
  fe_reports : list (option string);
  fe_ui : list (Entity * UiTransform * UiText K);
  fe_input : @FrameInput K
}.

(** The reports reach the tracked [ProgressCounter]. *)
Definition deliver (reps : list (option string)) (a : App K) : App K :=
  fold_left (fun a ok => report ok a) reps a.

(** The instantiated UI prefabs reach the world. *)
Definition attach_all (ui : list (Entity * UiTransform * UiText K)) (a : App K) : App K :=
  mk_app (app_states a)
    (env_set_world (app_env a) (fold_left (fun w '(e, t, d) => attach_ui w e t d) ui (env_world (app_env a)))).

(** [Application::advance_frame]: the state on top updates, the dispatcher
    runs the systems on the world, and the state's transition is applied;
    [None] is a panic.  What the engine's loaders did in the previous
    frame's dispatch (reports, instantiated UI prefabs) is visible from the
    start of the frame. *)
Definition game_frame (g : Game) (fe : FrameEvents) : option Game :=
  let a := attach_all (fe_ui fe) (deliver (fe_reports fe) (game_app g)) in
  match app_states a with
  | [] => Some (mk_game a (game_system g))
  | s :: rest =>
      match update s (app_env a) with
      | None => None
      | Some (t, env') =>
          let '(sys', w') := frame (game_system g) (env_world env') (fe_input fe) in
          Some (mk_game (apply_trans t rest s (env_set_world env' w')) sys')
      end
  end.

(** Where the loop is after a list of frames. *)
Inductive RunState := RunStopped (g : Game) | RunPending (g : Game).

(** [while self.states.is_running() { self.advance_frame(); }] *)
Fixpoint game_run (g : Game) (fes : list FrameEvents) : Outcome RunState :=
  match app_states (game_app g) with
  | [] => Done (RunStopped g)
  | _ :: _ =>
      match fes with
      | [] => Done (RunPending g)
      | fe :: fes' =>
          let? g' := unwrap (game_frame g fe) in
          game_run g' fes'
      end
  end.

(** [Application::initialize]: the state machine starts [Loading::default()]. *)
Definition game_start (env0 : Env K) : Game := mk_game (app_start env0) example_system_default.

(** ** [main] *)

(** What [main] depends on outside the repository: the application root
    ([application_root_dir()?]), the bundles' errors, the errors of
    [Application::build] and of building the game data into it, and the
    material defaults the render bundle sets up. *)
Record MainInput := mk_main_input {
  mi_root_dir : string + string;
  mi_bundle_error : Bundle -> option string;
  mi_app_error : option string;
  mi_build_error : option string;
  mi_material_defaults : Material
}.

(** The application [main] builds. *)
Record Application := mk_application {
  application_asset_dir : string;
  application_display_config : string;
  application_dispatcher : list SystemReg;
  application_env : Env K
}.

(** [Application::build(resources_directory, Loading::default())?
    .build(game_data)?]: a world with the default [Time], [FPSCounter] and
    [DemoState], a loader over the asset directory. *)
Definition initial_env (mi : MainInput) : Env K :=
  mk_env (empty_world (mk_time rzero 0%Z) (mk_fps_counter rzero) demo_state_default)
    (mk_loader 0%N []) (mi_material_defaults mi).

Definition application_build (mi : MainInput) (dir display : string) (table : list SystemReg)
    : Outcome Application :=
  match mi_app_error mi, mi_build_error mi with
  | Some e, _ => Failed e
  | None, Some e => Failed e
  | None, None => Done (mk_application dir display table (initial_env mi))
  end.

(** [let resources_directory = app_root.join("examples/assets/");] *)
Definition resources_directory (app_root : string) : string :=
  path_join app_root "examples/assets/".

(** [let display_config_path =
    app_root.join("examples/renderable/resources/display_config.ron");] *)
Definition display_config_path (app_root : string) : string :=
  path_join app_root "examples/renderable/resources/display_config.ron".

(** [main] up to [let mut game = ...?]: the root, the paths, the pipeline
    and the dispatcher, the application. *)
Definition main_setup (mi : MainInput) : Outcome Application :=
  let? app_root := of_result (mi_root_dir mi) in
  let? game_data := main_game_data (mi_bundle_error mi) in
  application_build mi (resources_directory app_root) (display_config_path app_root) game_data.

(** [fn main() -> Result<(), Error>], run over the given frames:
    [game.run(); Ok(())]. *)
Definition main (mi : MainInput) (fes : list FrameEvents) : Outcome RunState :=
  let? game := main_setup mi in
  game_run (game_start (application_env game)) fes.

(** The file [Directory::load] reads for an asset path: the path joined to
    the application's asset directory. *)
Definition asset_file (app : Application) (p : string) : string :=
  path_join (application_asset_dir app) p.

End Game.

Arguments Game K : clear implicits.
Arguments FrameEvents K : clear implicits.
Arguments RunState K : clear implicits.
Arguments Application K : clear implicits.

(** ** Lemmas *)

(** stdpp makes [String.append] [simpl never]: its cons equation. *)
Lemma string_append_cons (a : Ascii.ascii) (s t : string) :
  String.append (String a s) t = String a (String.append s t).
Proof. reflexivity. Qed.

Lemma string_length_app (s t : string) :
  String.length (String.append s t) = (String.length s + String.length t)%nat.
Proof.
  induction s as [|a s IH]; [reflexivity|]. rewrite string_append_cons. cbn [String.length]. by rewrite IH.
Qed.

Lemma string_app_assoc (s t u : string) :
  String.append (String.append s t) u = String.append s (String.append t u).
Proof. induction s as [|a s IH]; [reflexivity|]. rewrite !string_append_cons. by rewrite IH. Qed.

Lemma last_char_app (s t : string) : t <> EmptyString -> last_char (s ++ t) = last_char t.
Proof.
  intros Ht. unfold last_char. rewrite string_length_app, (append_correct2 s t (String.length t - 1)).
  f_equal. destruct t; [done|]. simpl. lia.
Qed.

(** Joining a relative path to a path that needs no separator is
    concatenation; to one that needs it, concatenation after a ["/"]. *)
Lemma path_join_relative (base p : string) :
  String.prefix "/" p = false ->
  path_join base p = if need_sep base then (base ++ "/" ++ p)%string else (base ++ p)%string.
Proof. intros Hp. unfold path_join. by rewrite Hp. Qed.

Lemma need_sep_app (s t : string) : t <> EmptyString -> need_sep (String.append s t) = need_sep t.
Proof. intros Ht. unfold need_sep. by rewrite last_char_app. Qed.

Lemma gdb_with_bundle_ok berr bd b :
  berr bd = None -> gdb_with_bundle berr bd b = unwrap (add_all b (bundle_regs bd)).
Proof. unfold gdb_with_bundle. by intros ->. Qed.

(** The dispatcher [main] builds, bundle by bundle: it never panics, stops
    at the first bundle error, and otherwise is the table of [Dispatch]. *)
Lemma main_game_data_first_error berr :
  main_game_data berr =
  match first_error berr bundles with None => Done game_data_table | Some e => Failed e end.
Proof.
  unfold main_game_data, gdb_with_bundle, first_error, bundles.
  destruct (berr BTransform), (berr BUi), (berr BHotReload), (berr BFPSCounter),
    (berr BRender), (berr BInput); reflexivity.
Qed.

(** Name the result of the dispatcher's frame in the goal. *)
Ltac destruct_frame s w :=
  cbv beta iota zeta;
  match goal with |- context [frame ?a ?b ?c] => destruct (frame a b c) as [s w] end.

Section GameLemmas.
Context {K : Type} `{RealField K} `{FixedDisplay K}.
Implicit Types (a : App K) (env : Env K) (g : Game K).

(** A report of a successful load. *)
Definition is_success (ok : option string) : bool := match ok with None => true | Some _ => false end.

(** A report as it reaches a [ProgressCounter]. *)
Definition report_progress (ok : option string) (p : ProgressCounter) : ProgressCounter :=
  match ok with None => report_success p | Some err => report_failure err p end.

(** The invariant of the state machine reads only the stack and the loader. *)
Lemma app_inv_same_loader a a' :
  app_states a = app_states a' -> env_loader (app_env a) = env_loader (app_env a') ->
  app_inv a -> app_inv a'.
Proof. unfold app_inv. by intros <- <-. Qed.

(** What a transition leaves on the stack and in the loader does not depend
    on the world. *)
Lemma apply_trans_same_loader t rest s env1 env2 :
  env_loader env1 = env_loader env2 ->
  app_states (apply_trans t rest s env1) = app_states (apply_trans t rest s env2) /\
  env_loader (app_env (apply_trans t rest s env1)) = env_loader (app_env (apply_trans t rest s env2)).
Proof.
  intros Hld. destruct t as [| |[l|ex]]; cbn [apply_trans on_start]; [by split..| |].
  - unfold loading_on_start, ui_create, env_set_loader. simpl. by rewrite Hld.
  - unfold example_on_start, spawn_scene, load_plane_assets, plane_material, spawn_plane. simpl. by rewrite Hld.
Qed.

Lemma deliver_inv reps a : app_inv a -> app_inv (deliver reps a).
Proof.
  revert a. induction reps as [|ok reps IH]; intros a Ha; [done|].
  apply IH. exact (app_inv_step _ _ (step_report a ok) Ha).
Qed.

(** The reports reach the [Loading] state on top of the stack. *)
Lemma deliver_loading reps l rest env :
  deliver reps (mk_app (GLoading l :: rest) env) =
  mk_app (GLoading (mk_loading (fold_left (fun p ok => report_progress ok p) reps (progress l)) (prefab l)) :: rest) env.
Proof.
  revert l. induction reps as [|ok reps IH]; intros l; [by destruct l|].
  change (deliver reps (report ok (mk_app (GLoading l :: rest) env)) =
          mk_app (GLoading (mk_loading (fold_left (fun p ok => report_progress ok p) reps
                   (report_progress ok (progress l))) (prefab l)) :: rest) env).
  replace (report ok (mk_app (GLoading l :: rest) env))
    with (mk_app (GLoading (mk_loading (report_progress ok (progress l)) (prefab l)) :: rest) env)
    by (by destruct ok).
  by rewrite IH.
Qed.

(** The reports change only the counter of the state on top. *)
Lemma deliver_env reps a : app_env (deliver reps a) = app_env a.
Proof.
  revert a. induction reps as [|ok reps IH]; intros a; [done|].
  change (app_env (deliver reps (report ok a)) = app_env a). rewrite IH.
  unfold report. by destruct (app_states a) as [|[l|ex] rest].
Qed.

Lemma deliver_states_nil reps a : app_states (deliver reps a) = [] <-> app_states a = [].
Proof.
  revert a. induction reps as [|ok reps IH]; intros a; [done|].
  change (app_states (deliver reps (report ok a)) = [] <-> app_states a = []). rewrite IH.
  unfold report. destruct (app_states a) as [|[l|ex] rest] eqn:E; cbn; rewrite ?E; done.
Qed.

(** An [Example] state ignores the reports. *)
Lemma deliver_example reps ex rest env :
  deliver reps (mk_app (GExample ex :: rest) env) = mk_app (GExample ex :: rest) env.
Proof. induction reps as [|ok reps IH]; [done|]. exact IH. Qed.

Lemma fold_report_progress reps p :
  let p' := fold_left (fun p ok => report_progress ok p) reps p in
  num_assets p' = num_assets p /\
  num_finished p' = (num_finished p + length (List.filter is_success reps))%nat /\
  num_failed p' = (num_failed p + length (List.filter (fun ok => negb (is_success ok)) reps))%nat.
Proof.
  revert p. induction reps as [|ok reps IH]; intros p; simpl; [lia|].
  destruct (IH (report_progress ok p)) as (H1 & H2 & H3). rewrite H1, H2, H3.
  destruct ok; simpl; lia.
Qed.

(** Under the invariant, the state on top updates without a panic. *)
Lemma inv_update_Some a s rest :
  app_inv a -> app_states a = s :: rest -> exists t env', update s (app_env a) = Some (t, env').
Proof.
  unfold app_inv. intros Hinv Hst. rewrite Hst in Hinv. inversion Hinv as [|? ? Hs _]; subst.
  destruct s as [l|ex]; cbn [update]; [|eauto].
  destruct Hs as [[h [Hh _]] _]. unfold loading_update, loading_complete. rewrite Hh.
  destruct (complete _); eauto.
Qed.

(** A frame of the running game keeps the invariant and does not panic. *)
Lemma game_frame_inv g fe :
  app_inv (game_app g) -> exists g', game_frame g fe = Some g' /\ app_inv (game_app g').
Proof.
  intros Hinv. pose proof (deliver_inv (fe_reports fe) _ Hinv) as Hd.
  unfold game_frame. set (a := attach_all (fe_ui fe) (deliver (fe_reports fe) (game_app g))).
  assert (Ha : app_inv a) by exact (app_inv_same_loader _ _ eq_refl eq_refl Hd). clear Hd. rename Ha into Hd.
  destruct (app_states a) as [|s rest] eqn:Hst; [by eexists|].
  destruct (inv_update_Some a s rest Hd Hst) as (t & env' & Hu). rewrite Hu.
  destruct (frame (game_system g) (env_world env') (fe_input fe)) as [sys' w'].
  eexists. split; [done|]. cbn [game_app].
  assert (Hstep : app_inv (apply_trans t rest s env')).
  { apply (app_inv_step a); [|done]. constructor. unfold app_update. by rewrite Hst, Hu. }
  destruct (apply_trans_same_loader t rest s (env_set_world env' w') env' eq_refl) as [E1 E2].
  exact (app_inv_same_loader _ _ (eq_sym E1) (eq_sym E2) Hstep).
Qed.

Lemma game_run_not_Panicked g fes : app_inv (game_app g) -> game_run g fes <> Panicked.
Proof.
  revert g. induction fes as [|fe fes IH]; intros g Hinv; cbn [game_run];
    destruct (app_states (game_app g)); try done.
  destruct (game_frame_inv g fe Hinv) as (g' & -> & Hg'). by apply IH.
Qed.

Lemma game_run_not_Failed g fes e : game_run g fes <> Failed e.
Proof.
  revert g. induction fes as [|fe fes IH]; intros g; cbn [game_run];
    destruct (app_states (game_app g)); try done.
  destruct (game_frame g fe); [apply IH | done].
Qed.

(** A stopped state machine ends the loop. *)
Lemma game_run_stopped g fes : app_states (game_app g) = [] -> game_run g fes = Done (RunStopped g).
Proof. intros Hst. destruct fes; cbn [game_run]; by rewrite Hst. Qed.

Lemma game_start_inv env0 : app_inv (game_app (game_start env0)).
Proof. apply app_inv_start. Qed.

Lemma filter_negb_forallb {A} (f : A -> bool) (l : list A) :
  forallb f l = true -> List.filter (fun x => negb (f x)) l = [].
Proof.
  induction l as [|x l IH]; simpl; [done|]. intros [-> Hl]%andb_prop. simpl. by apply IH.
Qed.

Lemma filter_length_pos {A} (f : A -> bool) (l : list A) (x : A) :
  In x l -> f x = true -> (0 < length (List.filter f l))%nat.
Proof.
  intros Hin Hx. destruct (List.filter f l) eqn:E; simpl; [|lia].
  assert (Hf : In x (List.filter f l)) by (apply filter_In; auto). rewrite E in Hf. destruct Hf.
Qed.

(** The successes the frames deliver. *)
Definition count_successes (fes : list (FrameEvents K)) : nat :=
  fold_right (fun fe n => (length (List.filter is_success (fe_reports fe)) + n)%nat) 0%nat fes.

(** Frames whose reports are all successes. *)
Definition all_successes (fes : list (FrameEvents K)) : bool :=
  forallb (fun fe => forallb is_success (fe_reports fe)) fes.

(** Once [Example] is the only state, it stays, whatever the frames. *)
Lemma run_example g ex fes :
  app_states (game_app g) = [GExample ex] ->
  exists g', game_run g fes = Done (RunPending g') /\ app_states (game_app g') = [GExample ex].
Proof.
  revert g. induction fes as [|fe fes IH]; intros g Hst; cbn [game_run]; rewrite Hst; [by eexists|].
  unfold game_frame. destruct g as [[ss env] sys]; cbn in Hst; subst ss. cbn [game_app].
  rewrite deliver_example. cbn [attach_all app_states app_env update].
  destruct_frame sys' w'. cbn [unwrap obind]. by apply IH.
Qed.

(** While the three assets load, the frames stay in [Loading]; the frame
    that delivers the last success switches to [Example] with the prefab. *)
Lemma run_loading_example g l h n fes :
  app_states (game_app g) = [GLoading l] -> prefab l = Some h ->
  num_assets (progress l) = 3%nat -> num_failed (progress l) = 0%nat ->
  num_finished (progress l) = n -> (n < 3)%nat ->
  all_successes fes = true -> (n + count_successes fes = 3)%nat ->
  exists g', game_run g fes = Done (RunPending g') /\
             app_states (game_app g') = [GExample (mk_example h)].
Proof.
  revert g l n. induction fes as [|fe fes IH]; intros g l n Hst Hh Ha Hf Hn Hlt Hall Hc.
  { simpl in Hc. lia. }
  cbn [all_successes forallb] in Hall. apply andb_prop in Hall as [Hfe Hall].
  cbn [count_successes fold_right] in Hc.
  cbn [game_run]. rewrite Hst. unfold game_frame.
  destruct g as [[ss env] sys]; cbn in Hst; subst ss. cbn [game_app].
  rewrite deliver_loading. cbn [attach_all app_states app_env update].
  pose proof (fold_report_progress (fe_reports fe) (progress l)) as (Ha' & Hfin' & Hf').
  rewrite (filter_negb_forallb _ _ Hfe) in Hf'. cbn [length] in Hf'.
  set (p' := fold_left _ _ _) in *.
  unfold loading_update, loading_complete, complete. cbn [progress prefab]. rewrite Hf', Hf, Ha'. cbn [Nat.add Nat.ltb Nat.leb].
  destruct (Nat.eqb_spec (num_finished p') (num_assets (progress l))) as [Hdone|Hmore].
  - rewrite Hh. destruct_frame sys' w'. cbn [unwrap obind apply_trans on_start].
    by apply run_example.
  - destruct_frame sys' w'. cbn [unwrap obind apply_trans].
    eapply (IH _ (mk_loading p' (prefab l)) (num_finished p')); cbn; try done; try lia.
    unfold count_successes in *. lia.
Qed.

(** While fewer than three successes have come, the frames stay in
    [Loading], with the counter's prefab, assets and failures unchanged. *)
Lemma run_loading_stays g l h n fes :
  app_states (game_app g) = [GLoading l] -> prefab l = Some h ->
  num_assets (progress l) = 3%nat -> num_failed (progress l) = 0%nat ->
  num_finished (progress l) = n -> all_successes fes = true -> (n + count_successes fes < 3)%nat ->
  exists g' l', game_run g fes = Done (RunPending g') /\ app_states (game_app g') = [GLoading l'].
Proof.
  revert g l n. induction fes as [|fe fes IH]; intros g l n Hst Hh Ha Hf Hn Hall Hc.
  { exists g, l. split; [|done]. cbn [game_run]. by rewrite Hst. }
  cbn [all_successes forallb] in Hall. apply andb_prop in Hall as [Hfe Hall].
  cbn [count_successes fold_right] in Hc.
  cbn [game_run]. rewrite Hst. unfold game_frame.
  destruct g as [[ss env] sys]; cbn in Hst; subst ss. cbn [game_app].
  rewrite deliver_loading. cbn [attach_all app_states app_env update].
  pose proof (fold_report_progress (fe_reports fe) (progress l)) as (Ha' & Hfin' & Hf').
  rewrite (filter_negb_forallb _ _ Hfe) in Hf'. cbn [length] in Hf'.
  set (p' := fold_left _ _ _) in *.
  unfold loading_update, loading_complete, complete. cbn [progress prefab]. rewrite Hf', Hf, Ha'. cbn [Nat.add Nat.ltb Nat.leb].
  destruct (Nat.eqb_spec (num_finished p') (num_assets (progress l))) as [Hdone|Hmore].
  - exfalso. unfold count_successes in *. lia.
  - destruct_frame sys' w'. cbn [unwrap obind apply_trans].
    eapply (IH _ (mk_loading p' (prefab l)) (num_finished p')); cbn; try done; try lia.
    unfold count_successes in *. lia.
Qed.

Lemma count_successes_app fes fes' :
  count_successes (fes ++ fes') = (count_successes fes + count_successes fes')%nat.
Proof. unfold count_successes. rewrite fold_right_app. induction fes; cbn; lia. Qed.

Lemma all_successes_app fes fes' :
  all_successes (fes ++ fes') = all_successes fes && all_successes fes'.
Proof. unfold all_successes. apply forallb_app. Qed.

End GameLemmas.

(** ** Properties of [main] *)

Section MainProps.
Context {K : Type} `{RealField K} `{FixedDisplay K}.

(** [main] up to the game loop, case by case. *)
Lemma main_setup_spec (mi : MainInput) :
  main_setup mi =
  match mi_root_dir mi with
  | inr e => Failed e
  | inl r =>
      match first_error (mi_bundle_error mi) bundles with
      | Some e => Failed e
      | None =>
          match mi_app_error mi, mi_build_error mi with
          | Some e, _ => Failed e
          | None, Some e => Failed e
          | None, None =>
              Done (mk_application (path_join r "examples/assets/")
                      (path_join r "examples/renderable/resources/display_config.ron")
                      game_data_table (@initial_env K _ mi))
          end
      end
  end.
Proof.
  unfold main_setup, resources_directory, display_config_path.
  destruct (mi_root_dir mi) as [r|e]; [|done]. cbn [of_result obind].
  rewrite main_game_data_first_error. by destruct (first_error _ _).
Qed.

(** The loop [main] runs starts from [Loading] with the prefab handle [0],
    three tracked assets and nothing reported. *)
Lemma game_start_loading (mi : MainInput) :
  exists l, app_states (game_app (game_start (@initial_env K _ mi))) = [GLoading l] /\
    prefab l = Some 0%N /\ num_assets (progress l) = 3%nat /\
    num_finished (progress l) = 0%nat /\ num_failed (progress l) = 0%nat.
Proof.
  unfold game_start, app_start, on_start.
  pose proof (loading_on_start_spec loading_default (initial_env mi)) as Hs.
  destruct (loading_on_start _ _) as [l' env']. destruct Hs as (Hp & _ & Hn & Hf & Hfl & _).
  exists l'. by repeat split.
Qed.

(** (C26) [main]'s [GameDataBuilder] chain never panics: each [with]
    names dependencies registered before it and no name twice.  It returns
    the error of the first failing bundle, in the order of the
    [with_bundle] calls, and otherwise the dispatcher of [Dispatch]'s
    [game_data]. *)
Theorem main_game_data_error (berr : Bundle -> option string) :
  main_game_data berr <> Panicked /\
  (forall e, main_game_data berr = Failed e <-> first_error berr bundles = Some e) /\
  (forall b, main_game_data berr = Done b <-> first_error berr bundles = None /\ game_data = Some b).
Proof.
  rewrite main_game_data_first_error, game_data_value.
  destruct (first_error berr bundles) as [e'|]; (split; [discriminate|]); split.
  - intros e. split; intros He; injection He as ->; reflexivity.
  - intros b. split; [discriminate | intros [Hb _]; discriminate].
  - intros e. split; discriminate.
  - intros b. split; [intros Hb; injection Hb as <-; split; reflexivity | intros [_ Hb]; by injection Hb as <-].
Qed.

(** (C20) [main] never panics, whatever the environment and the frames:
    every [with] of its dispatcher names dependencies registered before and
    no name twice, and in every frame of the loop the [unwrap] of
    [Loading::update] finds the prefab handle. *)
Theorem main_never_panics (mi : MainInput) (fes : list (FrameEvents K)) : main mi fes <> Panicked.
Proof.
  unfold main. rewrite main_setup_spec.
  destruct (mi_root_dir mi); [|done]. destruct (first_error _ _); [done|].
  destruct (mi_app_error mi), (mi_build_error mi); try done.
  cbn [obind application_env]. apply game_run_not_Panicked, game_start_inv.
Qed.

(** (C21) [main] returns [Err(e)] exactly when [application_root_dir()]
    fails with [e], or else the first bundle that fails does so with [e] (in
    the order of the [with_bundle] calls), or else [Application::build] or
    the build of the game data fails with [e]; the game loop itself never
    returns an error. *)
Theorem main_error (mi : MainInput) (fes : list (FrameEvents K)) (e : string) :
  main mi fes = Failed e <->
  mi_root_dir mi = inr e \/
  ((exists r, mi_root_dir mi = inl r) /\
   (first_error (mi_bundle_error mi) bundles = Some e \/
    (first_error (mi_bundle_error mi) bundles = None /\
     (mi_app_error mi = Some e \/ (mi_app_error mi = None /\ mi_build_error mi = Some e))))).
Proof.
  unfold main. rewrite main_setup_spec.
  destruct (mi_root_dir mi) as [r|e']; cbn [obind].
  2:{ split; [intros [= ->]; by left | intros [[= ->]|[[r Hr] _]]; [done | discriminate]]. }
  destruct (first_error _ _) as [e'|]; cbn [obind].
  { split; [intros [= ->]; right; eauto | intros [Hr|[_ [[= ->]|[Hn _]]]]; [discriminate|done|discriminate]]. }
  destruct (mi_app_error mi) as [e'|], (mi_build_error mi) as [e''|]; cbn [obind].
  - split; [intros [= ->]; right; eauto 10 | intros [Hr|[_ [Hn|[_ [[= ->]|[Hn _]]]]]]; done].
  - split; [intros [= ->]; right; eauto 10 | intros [Hr|[_ [Hn|[_ [[= ->]|[Hn _]]]]]]; done].
  - split; [intros [= ->]; right; eauto 10 | intros [Hr|[_ [Hn|[_ [Hn|[_ [= ->]]]]]]]; done].
  - split; [intros Hf; by apply game_run_not_Failed in Hf | intros [Hr|[_ [Hn|[_ [Hn|[_ Hn]]]]]]; done].
Qed.

(** (C22) With an application root [r] that does not end in a separator,
    the scene prefab is read from [r/examples/assets/prefab/renderable.ron],
    the display configuration from the [renderable] example's directory
    [r/examples/renderable/resources/display_config.ron], and the dispatcher
    is the table of [Dispatch]. *)
Theorem main_asset_paths (mi : MainInput) (r : string) (app : Application K) :
  mi_root_dir mi = inl r -> need_sep r = true -> main_setup mi = Done app ->
  asset_file app "prefab/renderable.ron" = (r ++ "/examples/assets/prefab/renderable.ron")%string /\
  application_display_config app = (r ++ "/examples/renderable/resources/display_config.ron")%string /\
  application_dispatcher app = game_data_table.
Proof.
  intros Hr Hsep Hs. rewrite main_setup_spec, Hr in Hs.
  destruct (first_error _ _); [done|].
  destruct (mi_app_error mi), (mi_build_error mi); try done. injection Hs as <-.
  unfold asset_file; cbn [application_asset_dir application_display_config application_dispatcher].
  rewrite !(path_join_relative r) by reflexivity. rewrite Hsep.
  rewrite path_join_relative, need_sep_app by (done || reflexivity).
  replace (need_sep _) with false by reflexivity.
  split; [|split; [reflexivity | reflexivity]]. rewrite string_app_assoc. reflexivity.
Qed.

(** (C23) The loop ends on a failed load: while [Loading] is on top, a
    frame that delivers a failure makes [Loading::update] return
    [Trans::Quit], and the loop stops after that frame, whatever frames
    would follow ([main] then returns [Ok(())]). *)
Theorem game_stops_on_failure (g : Game K) (l : Loading) (rest : list GameState)
    (fe : FrameEvents K) (fes : list (FrameEvents K)) (err : string) :
  app_states (game_app g) = GLoading l :: rest -> In (Some err) (fe_reports fe) ->
  exists g', game_run g (fe :: fes) = Done (RunStopped g') /\ app_states (game_app g') = [].
Proof.
  intros Hst Hin. cbn [game_run]. rewrite Hst. unfold game_frame.
  destruct g as [[ss env] sys]; cbn in Hst; subst ss. cbn [game_app].
  rewrite deliver_loading. cbn [attach_all app_states app_env update].
  pose proof (fold_report_progress (fe_reports fe) (progress l)) as (_ & _ & Hf).
  pose proof (filter_length_pos (fun ok => negb (is_success ok)) _ _ Hin eq_refl) as Hpos.
  unfold loading_update, loading_complete, complete. cbn [progress prefab].
  destruct (Nat.ltb_spec 0 (num_failed (fold_left (fun p ok => report_progress ok p) (fe_reports fe) (progress l))))
    as [_|Hle]; [|lia].
  destruct_frame sys' w'. cbn [unwrap obind apply_trans].
  eexists. split; [by apply game_run_stopped | reflexivity].
Qed.

(** (C24) [main]'s loop switches to [Example] exactly in the frame that
    delivers the last of the three loads [Loading::on_start] tracks: after
    frames that have delivered fewer than three successes (and no failure)
    the state on top is still [Loading]; once the frames have delivered the
    third success the only state is [Example], showing the prefab [Loading]
    requested (the loader's first handle). *)
Theorem main_reaches_example (mi : MainInput) (app : Application K) (fes fes' : list (FrameEvents K)) :
  main_setup mi = Done app -> all_successes (fes ++ fes') = true ->
  (count_successes fes < 3)%nat -> count_successes (fes ++ fes') = 3%nat ->
  (exists g l, main mi fes = Done (RunPending g) /\ app_states (game_app g) = [GLoading l]) /\
  (exists g, main mi (fes ++ fes') = Done (RunPending g) /\ app_states (game_app g) = [GExample (mk_example 0%N)]).
Proof.
  intros Hs Hall Hlt Hc. unfold main. rewrite Hs. cbn [obind].
  assert (Henv : application_env app = initial_env mi).
  { rewrite main_setup_spec in Hs. destruct (mi_root_dir mi); [|done].
    destruct (first_error _ _); [done|]. destruct (mi_app_error mi), (mi_build_error mi); try done.
    by injection Hs as <-. }
  rewrite Henv. destruct (game_start_loading mi) as (l & Hst & Hp & Ha & Hfin & Hfl).
  pose proof Hall as Hall'. rewrite all_successes_app in Hall'. apply andb_prop in Hall' as [Hall1 _].
  split.
  - apply (run_loading_stays _ l 0%N 0%nat); try done; lia.
  - apply (run_loading_example _ l 0%N 0%nat); try done; lia.
Qed.

End MainProps.

(** ** Examples at [f32] *)

Section Examples.
#[local] Existing Instance libm_small_angle.

(** A run from [/home/amethyst] where every bundle and the application
    build. *)
Definition demo_input : MainInput :=
  mk_main_input (inl "/home/amethyst"%string) (fun _ => None) None None (mk_material 0%N 0%N).

Definition one_second : @FrameInput f32 := mk_frame_input (f32_of_Z 1) (f32_of_Z 60).

(** Two successes in the first frame and none in the second ... *)
Definition demo_loading_frames : list (FrameEvents f32) :=
  [mk_frame_events [None; None] [] one_second; mk_frame_events [] [] one_second].

(** ... and the last one in the third. *)
Definition demo_frames : list (FrameEvents f32) :=
  demo_loading_frames ++ [mk_frame_events [None] [] one_second].

(** The UI prefab [ui/fps.ron] fails to load in the first frame. *)
Definition failing_frame : FrameEvents f32 :=
  mk_frame_events [None; Some "ui/fps.ron: file not found"%string] [] one_second.

Lemma main_asset_paths_witness :
  exists app : Application f32, main_setup demo_input = Done app /\
  asset_file app "prefab/renderable.ron" = ("/home/amethyst" ++ "/examples/assets/prefab/renderable.ron")%string /\
  application_display_config app =
    ("/home/amethyst" ++ "/examples/renderable/resources/display_config.ron")%string /\
  application_dispatcher app = game_data_table.
Proof.
  eexists. split; [reflexivity|].
  apply (main_asset_paths demo_input "/home/amethyst"); reflexivity.
Defined.

Lemma game_stops_on_failure_witness :
  exists g', game_run (game_start (initial_env demo_input)) (failing_frame :: demo_frames) = Done (RunStopped g') /\
             app_states (game_app g') = [].
Proof.
  eapply (game_stops_on_failure _ _ [] failing_frame demo_frames "ui/fps.ron: file not found"%string).
  - reflexivity.
  - simpl. right. left. reflexivity.
Defined.

Lemma main_reaches_example_witness :
  (exists g l, main demo_input demo_loading_frames = Done (RunPending g) /\
               app_states (game_app g) = [GLoading l]) /\
  (exists g, main demo_input (demo_loading_frames ++ [mk_frame_events [None] [] one_second]) =
               Done (RunPending g) /\ app_states (game_app g) = [GExample (mk_example 0%N)]).
Proof. eapply main_reaches_example; [reflexivity | reflexivity | cbn; lia | reflexivity]. Defined.

End Examples.
