(* ===== verification/Overlay.v ===== *)
(** * The FPS overlay in the running application

    The composition of the components: in every frame of [Application::run]
    ([game_frame]), the loaders' reports and the instantiated UI prefabs
    reach the world, the state on top updates ([Loading] may delete the
    "loading" UI entity, a switch to [Example] spawns the scene and the
    plane), and the dispatcher runs [ExampleSystem].  None of the states
    touches the [UiText] or [UiTransform] storages, so the text of the FPS
    entity follows [ExampleSystem] alone: once the FPS prefab is
    instantiated on a live entity, the text the application shows is the one
    [label_after] computes at the level of the system, and any twenty frames
    put an FPS label on the screen. *)

From stdpp Require Import base gmap strings.
From Stdlib Require Import ZArith QArith String List.
From S2P Require Import Prelude F32 Nalgebra RustFormat Ecs ExampleSystem GameStates Application.

#[local] Open Scope amethyst_scope.

Section Overlay.
Context {K : Type} `{RealField K} `{FixedDisplay K}.
Implicit Types (g : Game K) (w : World K) (env : Env K).

(** The world of the running game and its frame counter. *)
Definition game_world g : World K := env_world (app_env (game_app g)).

Definition game_frame_number g : Z := frame_number (w_time (game_world g)).

(** [e] is alive and is the only live entity whose [UiTransform] has the id
    "fps_text". *)
Definition fps_unique (e : Entity) w : Prop :=
  e ∈ w_entities w /\ (exists t, w_ui_transforms w !! e = Some t /\ ui_id t = "fps_text") /\
  (forall e' t', e' ∈ w_entities w -> w_ui_transforms w !! e' = Some t' -> ui_id t' = "fps_text" -> e' = e).

Lemma fps_unique_alt e w :
  fps_unique e w <->
  e ∈ w_entities w /\ ui_id <$> w_ui_transforms w !! e = Some "fps_text" /\
  map_Forall (fun e' t' => e' ∈ w_entities w -> ui_id t' = "fps_text" -> e' = e) (w_ui_transforms w).
Proof.
  unfold fps_unique, map_Forall. destruct (w_ui_transforms w !! e) as [t|] eqn:Ht; simpl.
  - split; [intros (He & (t' & [= <-] & <-) & Hu); split_and!; [done|done|naive_solver]|].
    intros (He & [= Hid] & Hu). split_and!; [done|eauto|naive_solver].
  - split; [intros (_ & (t' & [=] & _) & _)|intros (_ & [=] & _)].
Qed.

#[export] Instance fps_unique_dec e w : Decision (fps_unique e w) :=
  match decide (e ∈ w_entities w /\ ui_id <$> w_ui_transforms w !! e = Some "fps_text" /\
          map_Forall (fun e' t' => e' ∈ w_entities w -> ui_id t' = "fps_text" -> e' = e) (w_ui_transforms w)) with
  | left H => left (proj2 (fps_unique_alt e w) H)
  | right H => right (fun H' => H (proj1 (fps_unique_alt e w) H'))
  end.

(** The FPS entity [e] is ready: the world is well formed, [e] is the FPS
    entity, and the system has cached nothing or [e]. *)
Definition overlay_ready (e : Entity) g : Prop :=
  world_wf (game_world g) /\ fps_unique e (game_world g) /\
  (fps_display (game_system g) = None \/ fps_display (game_system g) = Some e).

#[export] Instance overlay_ready_dec e g : Decision (overlay_ready e g).
Proof. unfold overlay_ready. apply _. Defined.

(** ** What the states do to the world *)

(** A state's update leaves the world, or deletes the "loading" entity. *)
Lemma update_world s env t env' :
  update s env = Some (t, env') ->
  env_world env' = env_world env \/
  exists x, ui_find (env_world env) "loading" = Some x /\ env_world env' = delete_entity (env_world env) x.
Proof.
  destruct s as [l|ex]; cbn [update]; [|intros [= _ <-]; by left].
  unfold loading_update, loading_complete. destruct (complete _); [intros [= _ <-]; by left| |intros [= _ <-]; by left].
  destruct (prefab l); [|done]. intros [= _ <-]. cbn.
  destruct (ui_find _ "loading") as [x|]; [right; eauto | by left].
Qed.

(** A transition creates entities and components for them, but no UI
    component, and does not touch the time. *)
Lemma apply_trans_world t rest s env w :
  let w' := env_world (app_env (apply_trans t rest s (env_set_world env w))) in
  w_ui_texts w' = w_ui_texts w /\ w_ui_transforms w' = w_ui_transforms w /\
  w_time w' = w_time w /\ w_entities w ⊆ w_entities w' /\ (world_wf w -> world_wf w').
Proof.
  destruct t as [| |s']; cbn [apply_trans]; [split_and!; [done|done|done|set_solver|auto]..|].
  pose proof (on_start_wf s' (env_set_world env w)) as Hwf. destruct s' as [l|ex]; cbn [on_start] in *.
  - destruct (loading_on_start l _) as [l' env''] eqn:E. cbn [app_env].
    split_and!; [| | | |exact Hwf]; clear Hwf;
      unfold loading_on_start, ui_create in E; simpl in E; injection E as E; subst env''; simpl;
      [done..|set_solver].
  - cbn [app_env]. split_and!; [| | | |exact Hwf]; unfold example_on_start, spawn_scene, load_plane_assets, plane_material, spawn_plane; simpl; [done..|set_solver].
Qed.

Lemma fps_unique_fps_text e w : fps_unique e w -> ui_find w "fps_text" = Some e.
Proof. intros (He & Ht & Hu). by apply ui_find_unique. Qed.

(** The update of the state on top keeps the FPS entity, its text and the
    time: the only deletion is of the entity the finder finds for
    "loading", which is not [e]. *)
Lemma update_fps s env t env' e :
  world_wf (env_world env) -> fps_unique e (env_world env) -> update s env = Some (t, env') ->
  world_wf (env_world env') /\ fps_unique e (env_world env') /\
  w_ui_texts (env_world env') !! e = w_ui_texts (env_world env) !! e /\
  w_time (env_world env') = w_time (env_world env).
Proof.
  intros Hwf Hu Hup. destruct (update_world s env t env' Hup) as [-> | (x & Hx & ->)]; [done|].
  destruct Hu as (He & (te & Hte & Hide) & Hun).
  destruct (ui_find_Some _ _ _ Hx) as (_ & (tx & Htx & Hidx) & _).
  assert (Hxe : x <> e) by (intros ->; rewrite Hte in Htx; injection Htx as ->; congruence).
  split; [by apply delete_entity_wf|]. unfold delete_entity; cbn.
  rewrite !lookup_delete_ne by congruence. split; [|done].
  split; [set_solver|]. split; [exists te; cbn; rewrite lookup_delete_ne by congruence; done|].
  cbn. intros e' t' [He' _]%elem_of_difference Ht'. destruct (decide (e' = x)) as [->|Hne].
  - by rewrite lookup_delete_eq in Ht'.
  - rewrite lookup_delete_ne in Ht' by congruence. by apply (Hun e' t').
Qed.

(** A transition keeps the FPS entity: its new entities have no UI
    component. *)
Lemma apply_trans_fps t rest s env w e :
  world_wf w -> fps_unique e w ->
  fps_unique e (env_world (app_env (apply_trans t rest s (env_set_world env w)))).
Proof.
  intros Hwf (He & Ht & Hun). destruct (apply_trans_world t rest s env w) as (_ & Hu & _ & Hsub & _).
  unfold fps_unique. rewrite Hu. split; [set_solver|]. split; [done|].
  intros e' t' _ Ht'. apply (Hun e' t'); [|done]. destruct Hwf as (_ & _ & _ & _ & Hdom & _).
  apply Hdom, elem_of_dom. eauto.
Qed.

(** One frame of the running game, seen from the FPS entity: the system
    caches [e], the counter advances, and the text of [e] changes as
    [ExampleSystem::run] changes it. *)
Lemma overlay_frame e g fe g' :
  overlay_ready e g -> fe_ui fe = [] -> app_states (game_app g) <> [] -> game_frame g fe = Some g' ->
  overlay_ready e g' /\ fps_display (game_system g') = Some e /\
  game_frame_number g' = wrap_succ 64 (game_frame_number g) /\
  w_ui_texts (game_world g') !! e =
    (fun d => if refresh_due (game_frame_number g) then set_text d (fps_label (fi_fps (fe_input fe))) else d)
      <$> w_ui_texts (game_world g) !! e.
Proof.
  intros (Hwf & Hu & Hc) Hui Hne Hf. unfold game_frame in Hf. rewrite Hui in Hf.
  destruct g as [a sys]. unfold game_frame_number, game_world in *; cbn [game_app game_system] in *.
  pose proof (deliver_env (fe_reports fe) a) as Henv.
  pose proof (deliver_states_nil (fe_reports fe) a) as Hnil.
  destruct (deliver (fe_reports fe) a) as [ss env] eqn:Hd. cbn [app_env app_states] in Henv, Hnil.
  cbn [attach_all fold_left app_states app_env] in Hf.
  replace (env_set_world env (env_world env)) with env in Hf by (by destruct env).
  destruct ss as [|s rest]; [by destruct Hne; apply Hnil|].
  destruct (update s env) as [[t env']|] eqn:Hup; [|discriminate].
  rewrite <- Henv in Hwf, Hu. destruct (update_fps s env t env' e Hwf Hu Hup) as (Hwf' & Hu' & Htx & Htm).
  pose proof (frame_parts sys (env_world env') (fe_input fe)) as Hp.
  pose proof (frame_world_wf sys (env_world env') (fe_input fe) Hwf') as Hwf''.
  pose proof (frame_entities sys (env_world env') (fe_input fe)) as (Hent & _ & Huit).
  destruct (frame sys (env_world env') (fe_input fe)) as [sys' w'] eqn:Hfr.
  destruct Hp as (Hcache & Htexts & _ & Hfn & _). cbn [snd] in Hwf'', Hent, Huit.
  injection Hf as <-. cbn [game_app game_system].
  assert (Hres : resolve_fps_display (fps_display sys) (env_world env') = Some e).
  { destruct Hc as [Hc|Hc]; rewrite Hc; [|done]. cbn. by rewrite (fps_unique_fps_text e). }
  assert (Hu'' : fps_unique e w') by (unfold fps_unique; rewrite Hent, Huit; exact Hu').
  destruct (apply_trans_world t rest s env' w') as (At & _ & Atime & _ & Awf).
  split_and!.
  - split; [by apply Awf|]. split; [by apply apply_trans_fps|]. right. cbn [game_system]. by rewrite Hcache, Hres.
  - by rewrite Hcache, Hres.
  - cbn [game_app]. by rewrite Atime, Hfn, Htm, Henv.
  - cbn [game_app]. rewrite At, Htexts, lookup_refresh_fps_text, Hres, Htx, Htm, Henv.
    cbn [begin_frame w_time frame_number w_fps sampled_fps].
    by rewrite bool_decide_eq_true_2.
Qed.

(** The frames of the running game, seen from the FPS entity: its text is
    what [label_after] computes from the frame number and the FPS samples. *)
Lemma overlay_run e g fes g' d :
  overlay_ready e g -> w_ui_texts (game_world g) !! e = Some d ->
  Forall (fun fe => fe_ui fe = []) fes -> game_run g fes = Done (RunPending g') ->
  w_ui_texts (game_world g') !! e =
    Some (set_text d (label_after (game_frame_number g) (map fe_input fes) (text d))).
Proof.
  revert g d. induction fes as [|fe fes IH]; intros g d Hr Hd Hui Hrun; cbn [game_run] in Hrun.
  - destruct (app_states (game_app g)); [discriminate|]. injection Hrun as <-. cbn. by rewrite Hd, set_text_text.
  - destruct (app_states (game_app g)) as [|s rest] eqn:Hst; [discriminate|].
    destruct (game_frame g fe) as [g1|] eqn:Hf; [|discriminate]. cbn [unwrap obind] in Hrun.
    inversion Hui as [|? ? Hfe Hui']; subst.
    destruct (overlay_frame e g fe g1 Hr Hfe ltac:(by rewrite Hst) Hf) as (Hr1 & _ & Hfn & Ht1).
    rewrite Hd in Ht1. cbn in Ht1.
    rewrite (IH g1 _ Hr1 Ht1 Hui' Hrun), Hfn. cbn [map label_after]. f_equal.
    destruct (refresh_due _); [by rewrite set_text_twice | done].
Qed.

(** The label after frames is the current one or the label of one of the
    frames' samples; after a frame whose number is a multiple of 20 it is the
    latter. *)
Lemma label_after_cases (f : Z) (ins : list (@FrameInput K)) (cur : string) :
  label_after f ins cur = cur \/ exists i, In i ins /\ label_after f ins cur = fps_label (fi_fps i).
Proof.
  revert f cur. induction ins as [|i ins IH]; intros f cur; cbn [label_after]; [by left|].
  destruct (IH (wrap_succ 64 f) (if refresh_due f then fps_label (fi_fps i) else cur)) as [->|(j & Hj & ->)].
  - destruct (refresh_due f); [right; exists i; split; [left|]; done | by left].
  - right. exists j. split; [by right | done].
Qed.

Lemma label_after_due (f : Z) (k : nat) (ins : list (@FrameInput K)) (cur : string) :
  (k < length ins)%nat -> refresh_due (Nat.iter k (wrap_succ 64) f) = true ->
  exists i, In i ins /\ label_after f ins cur = fps_label (fi_fps i).
Proof.
  revert f k cur. induction ins as [|i ins IH]; intros f k cur Hk Hdue; cbn [length] in Hk; [lia|].
  cbn [label_after]. destruct k as [|k].
  - cbn in Hdue. rewrite Hdue.
    destruct (label_after_cases (wrap_succ 64 f) ins (fps_label (fi_fps i))) as [->|(j & Hj & ->)].
    + exists i. split; [left|]; done.
    + exists j. split; [by right | done].
  - rewrite Nat.iter_succ_r in Hdue.
    destruct (IH (wrap_succ 64 f) k (if refresh_due f then fps_label (fi_fps i) else cur) ltac:(lia) Hdue)
      as (j & Hj & ->).
    exists j. split; [by right | done].
Qed.

(** Among twenty consecutive values of the [u64] frame counter one is a
    multiple of 20: the next multiple of 20, or [0] after the wrap. *)
Lemma due_within_20 (f : Z) :
  u64_ok f -> exists k : nat, (k < 20)%nat /\ refresh_due (Nat.iter k (wrap_succ 64) f) = true.
Proof.
  unfold u64_ok, umod. intros Hf. pose proof (Z.mod_pos_bound f 20 ltac:(lia)) as Hr.
  pose proof (Z.div_mod f 20 ltac:(lia)) as Hdm.
  set (k := ((20 - f mod 20) mod 20)%Z). pose proof (Z.mod_pos_bound (20 - f mod 20) 20 ltac:(lia)) as Hk.
  destruct (Z.lt_ge_cases (f + k) (2 ^ 64)) as [Hlt|Hge].
  - exists (Z.to_nat k). split; [lia|].
    rewrite iter_wrap_succ by (unfold umod; lia). unfold umod, refresh_due. rewrite Z2Nat.id by lia.
    rewrite (Z.mod_small (f + k)) by lia. apply Z.eqb_eq.
    unfold k. rewrite Z.add_mod_idemp_r by lia.
    replace (f + (20 - f mod 20))%Z with ((f / 20 + 1) * 20)%Z by lia. apply Z.mod_mul. lia.
  - exists (Z.to_nat (2 ^ 64 - f)). split; [lia|].
    rewrite iter_wrap_succ by (unfold umod; lia). unfold umod, refresh_due. rewrite Z2Nat.id by lia.
    replace (f + (2 ^ 64 - f))%Z with (2 ^ 64)%Z by lia. rewrite Z_mod_same_full. reflexivity.
Qed.

Lemma attach_all_wf (ui : list (Entity * UiTransform * UiText K)) w :
  world_wf w -> world_wf (fold_left (fun w '(e, t, d) => attach_ui w e t d) ui w).
Proof.
  revert w. induction ui as [|[[e t] d] ui IH]; intros w Hw; [done|]. apply IH, attach_ui_wf, Hw.
Qed.

(** A frame of the running game keeps the world well formed. *)
Lemma game_frame_wf g fe g' :
  world_wf (game_world g) -> game_frame g fe = Some g' -> world_wf (game_world g').
Proof.
  unfold game_frame, game_world. intros Hwf Hf. destruct g as [a sys]; cbn [game_app game_system] in *.
  pose proof (deliver_env (fe_reports fe) a) as Henv.
  destruct (deliver (fe_reports fe) a) as [ss env] eqn:Hd. cbn [app_env] in Henv. subst env.
  cbn [attach_all app_states app_env] in Hf.
  pose proof (attach_all_wf (fe_ui fe) _ Hwf) as Hwa.
  set (env1 := env_set_world (app_env a) _) in Hf.
  destruct ss as [|s rest]; [by injection Hf as <-|].
  destruct (update s env1) as [[t env']|] eqn:Hup; [|discriminate].
  assert (Hw' : world_wf (env_world env')).
  { destruct (update_world s env1 t env' Hup) as [-> | (x & _ & ->)]; [done|]. by apply delete_entity_wf. }
  pose proof (frame_world_wf sys (env_world env') (fe_input fe) Hw') as Hw''.
  destruct (frame sys (env_world env') (fe_input fe)) as [sys' w'] eqn:Hfr. injection Hf as <-.
  cbn [game_app]. by apply (apply_trans_world t rest s env' w').
Qed.

(** Every world the running application reaches is well formed:
    the loaders' UI prefabs go to live entities, the state updates, the
    dispatcher's [ExampleSystem] and the transitions add components only to
    live entities, and the deletion of the loading screen takes its
    components with it. *)
Theorem game_run_world_wf g fes r :
  world_wf (game_world g) -> game_run g fes = Done r ->
  world_wf (game_world (match r with RunStopped g' | RunPending g' => g' end)).
Proof.
  revert g. induction fes as [|fe fes IH]; intros g Hw Hrun; cbn [game_run] in Hrun.
  - by destruct (app_states (game_app g)); injection Hrun as <-.
  - destruct (app_states (game_app g)); [by injection Hrun as <-|].
    destruct (game_frame g fe) as [g1|] eqn:Hf; [|discriminate]. cbn [unwrap obind] in Hrun.
    exact (IH g1 (game_frame_wf g fe g1 Hw Hf) Hrun).
Qed.

(** (C27) End to end, in the running application: once the FPS prefab is
    instantiated on a live entity [e] (the only one with the UI id
    "fps_text") with the text [d], and the application runs further frames
    without instantiating another UI prefab, the text of [e] is exactly the
    [ExampleSystem]-level [label_after]: the label of the FPS sampled in the
    last frame whose number was a multiple of 20 (the states' updates, the
    deletion of the loading screen and the switch to [Example] do not touch
    it); and twenty frames put an "FPS: " label of one of the frames'
    samples on the screen. *)
Theorem fps_overlay e g fes g' d :
  overlay_ready e g -> w_ui_texts (game_world g) !! e = Some d -> u64_ok (game_frame_number g) ->
  Forall (fun fe => fe_ui fe = []) fes -> game_run g fes = Done (RunPending g') ->
  w_ui_texts (game_world g') !! e =
    Some (set_text d (label_after (game_frame_number g) (map fe_input fes) (text d))) /\
  ((20 <= length fes)%nat ->
   exists fe, In fe fes /\ label_after (game_frame_number g) (map fe_input fes) (text d) = fps_label (fi_fps (fe_input fe))).
Proof.
  intros Hr Hd Hf Hui Hrun. split; [exact (overlay_run e g fes g' d Hr Hd Hui Hrun)|].
  intros Hlen. destruct (due_within_20 _ Hf) as (k & Hk & Hdue).
  destruct (label_after_due (game_frame_number g) k (map fe_input fes) (text d)) as (i & Hi & ->); [by rewrite length_map; lia | done |].
  apply in_map_iff in Hi as (fe & <- & Hfe). by exists fe.
Qed.

End Overlay.

(** ** Examples at [f32] *)

Section Examples.
#[local] Existing Instance libm_small_angle.

(** The first frame instantiates the two UI prefabs [Loading::on_start]
    asked for on their entities, 0 and 1. *)
Definition ui_frame : FrameEvents f32 :=
  mk_frame_events []
    [(0%N, mk_ui_transform "fps_text", mk_ui_text "" (f32_of_Z 12) false);
     (1%N, mk_ui_transform "loading", mk_ui_text "Loading..." (f32_of_Z 12) false)]
    one_second.

Definition game_with_ui : Game f32 :=
  match game_frame (game_start (initial_env demo_input)) ui_frame with
  | Some g => g
  | None => game_start (initial_env demo_input)
  end.

Definition fps_text_now : UiText f32 :=
  match w_ui_texts (game_world game_with_ui) !! 0%N with Some d => d | None => mk_ui_text "" (f32_of_Z 12) false end.

Definition quiet_frames : list (FrameEvents f32) := repeat (mk_frame_events [] [] one_second) 20.

Definition game_after : Game f32 :=
  match game_run game_with_ui quiet_frames with Done (RunPending g) => g | _ => game_with_ui end.

Lemma game_run_world_wf_witness : world_wf (game_world game_after).
Proof.
  apply (game_run_world_wf game_with_ui quiet_frames (RunPending game_after)).
  - apply (bool_decide_unpack _). vm_compute. reflexivity.
  - vm_compute. reflexivity.
Defined.

Lemma fps_overlay_witness :
  w_ui_texts (game_world game_after) !! 0%N =
    Some (set_text fps_text_now (label_after (game_frame_number game_with_ui) (map fe_input quiet_frames)
                                   (text fps_text_now))) /\
  ((20 <= length quiet_frames)%nat ->
   exists fe, In fe quiet_frames /\
     label_after (game_frame_number game_with_ui) (map fe_input quiet_frames) (text fps_text_now) =
     fps_label (fi_fps (fe_input fe))).
Proof.
  apply fps_overlay.
  - apply (bool_decide_unpack _). vm_compute. reflexivity.
  - vm_compute. reflexivity.
  - assert (E : game_frame_number game_with_ui = 1%Z) by (vm_compute; reflexivity).
    rewrite E. unfold u64_ok, umod. lia.
  - unfold quiet_frames. simpl. repeat constructor.
  - vm_compute. reflexivity.
Defined.

End Examples.
